(** * Frog-Tech Optimizer: the tweak ledger and the profile sequencer

    A shallow embedding of the tweak-tracking part of [optimizer.py]
    (class [FrogOptimizer]): [save_tweaks], [load_saved_tweaks],
    [track_tweak], [get_tweak_status], [clear_saved_tweaks_old],
    [clear_saved_tweaks], [export_tweaks], [import_tweaks] and the
    performance-profile functions, followed by the properties of the
    ledger that the specification states.

    Conventions of the model.
    - Python values that can sit in the ledger are the values [json.load]
      produces: [None], booleans, integers, strings, lists and dictionaries
      with string keys.  The program itself never produces a float, and the
      model has none.
    - A file holds either text that [json.load] rejects or a JSON document,
      kept as the Python value [json.load] returns for it; [json.dump]
      stores the value it is given (a tuple is written as an array).
    - The operating system is part of the state: the files, the paths on
      which file operations fail (a write either at [open] or after [open]
      has emptied the file), the clock, the platform strings, the outcome
      of every tweak function, what [psutil] reports and whether the
      process runs as administrator.  The GUI widgets are write-only
      logs. *)

From Stdlib Require Import ZArith String Ascii List Bool.
From Stdlib Require QArith.
From stdpp Require Import base option list gmap sets strings.

Set Warnings "-register-all".

Local Open Scope string_scope.
Local Open Scope Z_scope.

(** ** Python values *)

Inductive pyval : Type :=
| PNone
| PBool (b : bool)
| PInt (z : Z)
| PStr (s : string)
| PList (l : list pyval)
| PDict (d : list (string * pyval)).

(** Exceptions raised by the operations used in the ledger code.  All of
    them are subclasses of [Exception]. *)
Inductive exn : Type :=
| TypeError
| AttributeError
| OSError
| JSONDecodeError.

Inductive outcome (A : Type) : Type :=
| Return (a : A)
| Raised (e : exn).
Arguments Return {A} a.
Arguments Raised {A} e.

(** Members of a Python [set]: the hashable values among [pyval].  Python
    identifies [True] with [1] and [False] with [0] as set members
    ([True == 1] and their hashes agree); the key keeps the number. *)
Inductive hkey : Type :=
| KNone
| KNum (z : Z)
| KStr (s : string).

Global Instance hkey_eq_dec : EqDecision hkey.
Proof. solve_decision. Defined.

Global Instance hkey_countable : Countable hkey.
Proof.
  refine (inj_countable'
    (λ k, match k with
          | KNone => inl ()
          | KNum z => inr (inl z)
          | KStr s => inr (inr s)
          end)
    (λ x, match x with
          | inl _ => KNone
          | inr (inl z) => KNum z
          | inr (inr s) => KStr s
          end) _).
  by intros [].
Defined.

(** [hash(v)]: lists and dictionaries are unhashable. *)
Definition to_key (v : pyval) : outcome hkey :=
  match v with
  | PNone => Return KNone
  | PBool b => Return (KNum (if b then 1 else 0))
  | PInt z => Return (KNum z)
  | PStr s => Return (KStr s)
  | PList _ => Raised TypeError
  | PDict _ => Raised TypeError
  end.

Definition of_key (k : hkey) : pyval :=
  match k with
  | KNone => PNone
  | KNum z => PInt z
  | KStr s => PStr s
  end.

(** The characters of a string, each as a one-character string. *)
Fixpoint chars (s : string) : list string :=
  match s with
  | EmptyString => []
  | String c s' => String c EmptyString :: chars s'
  end.

(** The keys of the items of a list; an unhashable item raises. *)
Fixpoint keys_of (l : list pyval) : outcome (list hkey) :=
  match l with
  | [] => Return []
  | v :: l' =>
      match to_key v with
      | Raised e => Raised e
      | Return k =>
          match keys_of l' with
          | Raised e => Raised e
          | Return ks => Return (k :: ks)
          end
      end
  end.

(** [set(v)]: iterates a list, the characters of a string or the keys of a
    dictionary; anything else is not iterable. *)
Definition py_set (v : pyval) : outcome (gset hkey) :=
  match v with
  | PList l =>
      match keys_of l with
      | Return ks => Return (list_to_set ks)
      | Raised e => Raised e
      end
  | PStr s => Return (list_to_set (KStr <$> chars s))
  | PDict d => Return (list_to_set (KStr <$> (fst <$> d)))
  | PNone | PBool _ | PInt _ => Raised TypeError
  end.

(** [list(s)] for a set [s]; the iteration order of a set is unspecified,
    the model lists the members in the order of [elements]. *)
Definition py_list_of_set (s : gset hkey) : list pyval :=
  of_key <$> elements s.

(** [tuple(v)], the items of the resulting tuple. *)
Definition py_tuple (v : pyval) : outcome (list pyval) :=
  match v with
  | PList l => Return l
  | PStr s => Return (PStr <$> chars s)
  | PDict d => Return (PStr <$> (fst <$> d))
  | PNone | PBool _ | PInt _ => Raised TypeError
  end.

(** Lookup in a dictionary (the first binding of the key; a Python
    dictionary has one binding per key). *)
Fixpoint dict_lookup (k : string) (d : list (string * pyval)) : option pyval :=
  match d with
  | [] => None
  | (k', v) :: d' => if String.eqb k' k then Some v else dict_lookup k d'
  end.

(** [v.get(k)] as an optional value: only dictionaries have [get]. *)
Definition py_get (v : pyval) (k : string) : outcome (option pyval) :=
  match v with
  | PDict d => Return (dict_lookup k d)
  | _ => Raised AttributeError
  end.

(** Truth value of a Python object. *)
Definition truthy (v : pyval) : bool :=
  match v with
  | PNone => false
  | PBool b => b
  | PInt z => negb (z =? 0)
  | PStr s => negb (String.eqb s "")
  | PList l => match l with [] => false | _ => true end
  | PDict d => match d with [] => false | _ => true end
  end.


(** ** The ledger and its surroundings *)

(** The tweak-tracking attributes of a [FrogOptimizer] instance. *)
Record ledger : Type := Ledger {
  applied_tweaks : gset hkey;
  tweak_history : pyval;
  current_profile : pyval;
  last_resolution : list pyval;
  last_refresh_rate : pyval
}.

(** The attributes as [__init__] sets them. *)
Definition new_ledger : ledger :=
  {| applied_tweaks := ∅;
     tweak_history := PList [];
     current_profile := PNone;
     last_resolution := [PInt 1920; PInt 1080];
     last_refresh_rate := PInt 60 |}.

(** [self.tweaks_file], set once in [__init__]. *)
Definition tweaks_file : string := "frog_tech_tweaks.json".

(** What a file holds: text that is not JSON, or a JSON document. *)
Inductive fcontent : Type :=
| Garbage
| Json (v : pyval).

(** The tweak functions the profiles call; each wraps its system calls in
    [try]/[except] and returns [True] or [False]. *)
Inductive tweak_fn : Type :=
| disable_visual_effects | optimize_graphics_quality_advanced
| optimize_hardware_acceleration_advanced | optimize_windows_services_advanced
| optimize_memory_compression_advanced | optimize_cpu_affinity_advanced
| optimize_thread_priority_advanced | optimize_turbo_boost_advanced
| optimize_disk_performance_advanced | optimize_network_performance_advanced
| disable_telemetry | disable_cortana | optimize_background_processes_advanced
| optimize_startup_programs_advanced | optimize_shader_cache_advanced
| optimize_interrupt_affinity_advanced | optimize_hyper_threading_advanced
| optimize_game_mode_advanced | optimize_gpu_settings_advanced
| optimize_vsync_advanced | optimize_fullscreen_optimizations_advanced
| optimize_cpu_parking_advanced | disable_game_dvr_advanced
| disable_game_bar_advanced | disable_xbox_live_advanced
| optimize_page_file_advanced | disable_animations | disable_transparency
| disable_shadows | disable_smooth_scrolling | disable_font_smoothing
| disable_clear_type | disable_timeline | disable_activity_history
| disable_location_tracking | disable_advertising_id | disable_tips
| disable_dwm | disable_windows_update | disable_windows_store
| disable_network_discovery | disable_network_sharing
| disable_remote_assistance | disable_remote_desktop
| disable_network_adapters | disable_wifi_sense
| disable_user_account_control | disable_smart_screen
| disable_windows_defender | disable_firewall | disable_bitlocker
| disable_secure_boot | disable_tpm | disable_credential_guard
| optimize_scheduled_tasks_advanced | optimize_system_restore_advanced
| optimize_storage_sense_advanced | optimize_file_indexing_advanced
| optimize_shadow_copies_advanced | optimize_recycle_bin_advanced
| optimize_file_compression_advanced.

(** Lines written by [log_message] (to [results_text]) and to the other
    widgets, kept by kind with the data they interpolate. *)
Inductive message : Type :=
| MsgSaved (file : string)
| MsgErrorSaving (e : exn)
| MsgLoaded (n : nat)
| MsgCurrentProfile (p : pyval)
| MsgNoSaved
| MsgErrorLoading (e : exn)
| MsgCleared
| MsgErrorClearing (e : exn)
| MsgExported (file : string)
| MsgErrorExporting (e : exn)
| MsgImported (n : nat) (file : string)
| MsgErrorImporting (e : exn)
| MsgStatusUpdated (n : nat) (p : pyval)
| MsgClearSuccessBox
| MsgProfile (line : string)
| MsgCpuUsage (percent : QArith_base.Q)
| MsgMemoryUsage (percent : QArith_base.Q)
| MsgDiskUsage (percent : QArith_base.Q)
| MsgMonitoringError (e : string)
| MsgProfileReport (n : nat)
| MsgProfileSaved (file : string)
| MsgProfileError (e : exn).

(** What the three [psutil] calls of the profile report give: the module
    is missing, a call raises (with the text of the exception), or the
    three percentages, which are floats. *)
Inductive monitoring : Type :=
| PsutilMissing
| PsutilRaises (e : string)
| PsutilReadings (cpu_percent memory_percent disk_percent : QArith_base.Q).

(** The world outside the object. *)
Record world : Type := World {
  fs : gmap string fcontent;          (* the files that exist *)
  denied : string → bool;             (* file operations fail here *)
  torn : string → bool;               (* a failing write fails after [open] *)
  ticks : nat;                        (* calls of [time.strftime] so far *)
  strftime : string → nat → string;   (* format, call number *)
  platform_platform : string;
  sys_version : string;
  tweak_result : tweak_fn → bool;     (* what each tweak function returns *)
  psutil : monitoring;                (* what the [psutil] calls give *)
  admin : bool;                       (* [IsUserAnAdmin()] *)
  shown : list message                (* widget output, oldest first *)
}.

Record machine : Type := Machine { self : ledger; os : world }.

(** ** Computations: state and exceptions

    An exception leaves the state as it was when it was raised, so that
    assignments made before it stay visible to the handler and after it. *)
Definition M (A : Type) : Type := machine → outcome A * machine.

Definition ret {A} (a : A) : M A := λ m, (Return a, m).
Definition raise {A} (e : exn) : M A := λ m, (Raised e, m).
Definition bind {A B} (c : M A) (k : A → M B) : M B :=
  λ m, match c m with
       | (Return a, m') => k a m'
       | (Raised e, m') => (Raised e, m')
       end.
(** [try: body  except Exception as e: handler e] *)
Definition try_except {A} (body : M A) (handler : exn → M A) : M A :=
  λ m, match body m with
       | (Return a, m') => (Return a, m')
       | (Raised e, m') => handler e m'
       end.
Definition lift {A} (o : outcome A) : M A := λ m, (o, m).

Notation "'do' x <- c ; k" := (bind c (λ x, k))
  (at level 10, x name, c at level 100, k at level 200).
Notation "c ;; k" := (bind c (λ _, k))
  (at level 100, k at level 200, right associativity).

Definition get_self : M ledger := λ m, (Return (self m), m).
Definition get_os : M world := λ m, (Return (os m), m).
Definition put_self (l : ledger) : M unit := λ m, (Return (), Machine l (os m)).
Definition put_os (w : world) : M unit := λ m, (Return (), Machine (self m) w).

(** Attribute assignments. *)
Definition set_applied_tweaks (a : gset hkey) : M unit :=
  do l <- get_self;
  put_self (Ledger a (tweak_history l) (current_profile l)
                   (last_resolution l) (last_refresh_rate l)).
Definition set_tweak_history (h : pyval) : M unit :=
  do l <- get_self;
  put_self (Ledger (applied_tweaks l) h (current_profile l)
                   (last_resolution l) (last_refresh_rate l)).
Definition set_current_profile (p : pyval) : M unit :=
  do l <- get_self;
  put_self (Ledger (applied_tweaks l) (tweak_history l) p
                   (last_resolution l) (last_refresh_rate l)).
Definition set_last_resolution (r : list pyval) : M unit :=
  do l <- get_self;
  put_self (Ledger (applied_tweaks l) (tweak_history l) (current_profile l)
                   r (last_refresh_rate l)).
Definition set_last_refresh_rate (r : pyval) : M unit :=
  do l <- get_self;
  put_self (Ledger (applied_tweaks l) (tweak_history l) (current_profile l)
                   (last_resolution l) r).

(** World updates. *)
Definition with_fs (f : gmap string fcontent) (w : world) : world :=
  World f (denied w) (torn w) (ticks w) (strftime w) (platform_platform w)
        (sys_version w) (tweak_result w) (psutil w) (admin w) (shown w).
Definition with_ticks (n : nat) (w : world) : world :=
  World (fs w) (denied w) (torn w) n (strftime w) (platform_platform w)
        (sys_version w) (tweak_result w) (psutil w) (admin w) (shown w).
Definition with_shown (s : list message) (w : world) : world :=
  World (fs w) (denied w) (torn w) (ticks w) (strftime w)
        (platform_platform w) (sys_version w) (tweak_result w) (psutil w)
        (admin w) s.

(** ** Library and system calls *)

(** [time.strftime(fmt)] *)
Definition time_strftime (fmt : string) : M string :=
  do w <- get_os;
  put_os (with_ticks (S (ticks w)) w);;
  ret (strftime w fmt (ticks w)).

(** A line written to a widget. *)
Definition show (msg : message) : M unit :=
  do w <- get_os; put_os (with_shown (shown w ++ [msg]) w).
Definition log_message (msg : message) : M unit := show msg.

(** [os.path.exists(path)] *)
Definition os_path_exists (path : string) : M bool :=
  do w <- get_os; ret (bool_decide (is_Some (fs w !! path))).

(** [os.remove(path)] *)
Definition os_remove (path : string) : M unit :=
  do w <- get_os;
  if denied w path then raise OSError
  else match fs w !! path with
       | None => raise OSError
       | Some _ => put_os (with_fs (delete path (fs w)) w)
       end.

(** [with open(path, 'w') as f: json.dump(v, f, indent=2)].  Every value
    of the model can be serialised, so the statement fails only through
    the file system: at [open], which leaves the files as they are, or,
    on a torn path, in the write, after [open] has created or emptied the
    file; what is left then is not a JSON document. *)
Definition json_dump_to (path : string) (v : pyval) : M unit :=
  do w <- get_os;
  if denied w path then
    if torn w path then
      put_os (with_fs (<[path := Garbage]> (fs w)) w);;
      raise OSError
    else raise OSError
  else put_os (with_fs (<[path := Json v]> (fs w)) w).

(** [with open(path, 'r') as f: json.load(f)] *)
Definition json_load_from (path : string) : M pyval :=
  do w <- get_os;
  if denied w path then raise OSError
  else match fs w !! path with
       | None => raise OSError
       | Some Garbage => raise JSONDecodeError
       | Some (Json v) => ret v
       end.

(** [v.get(k, default)] *)
Definition get_default (v : pyval) (k : string) (dflt : pyval) : M pyval :=
  do o <- lift (py_get v k); ret (default dflt o).

(** ** The ledger operations *)

Definition time_format : string := "%Y-%m-%d %H:%M:%S".

Definition system_info (w : world) : pyval :=
  PDict [("platform", PStr (platform_platform w));
         ("python_version", PStr (sys_version w))].

(** The dictionary [save_tweaks] builds. *)
Definition save_data (l : ledger) (ts : string) (w : world) : pyval :=
  PDict [("applied_tweaks", PList (py_list_of_set (applied_tweaks l)));
         ("tweak_history", tweak_history l);
         ("current_profile", current_profile l);
         ("timestamp", PStr ts);
         ("system_info", system_info w);
         ("last_resolution", PList (last_resolution l));
         ("last_refresh_rate", last_refresh_rate l)].

Definition save_tweaks : M bool :=
  try_except
    (do l <- get_self;
     do ts <- time_strftime time_format;
     do w <- get_os;
     let tweak_data := save_data l ts w in
     json_dump_to tweaks_file tweak_data;;
     log_message (MsgSaved tweaks_file);;
     ret true)
    (λ e, log_message (MsgErrorSaving e);; ret false).

(** The default of [last_resolution] is the tuple [(1920, 1080)]; [tuple]
    of it has the same two items as [tuple] of the list. *)
Definition load_saved_tweaks : M bool :=
  try_except
    (do found <- os_path_exists tweaks_file;
     if found then
       do tweak_data <- json_load_from tweaks_file;
       do a <- get_default tweak_data "applied_tweaks" (PList []);
       do s <- lift (py_set a);
       set_applied_tweaks s;;
       do h <- get_default tweak_data "tweak_history" (PList []);
       set_tweak_history h;;
       do p <- get_default tweak_data "current_profile" PNone;
       set_current_profile p;;
       do r <- get_default tweak_data "last_resolution"
                 (PList [PInt 1920; PInt 1080]);
       do t <- lift (py_tuple r);
       set_last_resolution t;;
       do f <- get_default tweak_data "last_refresh_rate" (PInt 60);
       set_last_refresh_rate f;;
       do l <- get_self;
       log_message (MsgLoaded (size (applied_tweaks l)));;
       (if truthy (current_profile l)
        then log_message (MsgCurrentProfile (current_profile l))
        else ret ());;
       ret true
     else
       log_message MsgNoSaved;;
       ret false)
    (λ e, log_message (MsgErrorLoading e);; ret false).

(** The bound method [v.append]: only lists have one. *)
Definition py_append_target (v : pyval) : outcome (list pyval) :=
  match v with
  | PList items => Return items
  | _ => Raised AttributeError
  end.

Definition history_entry (tweak_name ts : string) : pyval :=
  PDict [("tweak", PStr tweak_name);
         ("timestamp", PStr ts);
         ("success", PBool true)].

Definition track_tweak (tweak_name : string) (success : bool) : M unit :=
  if success then
    do l <- get_self;
    set_applied_tweaks ({[KStr tweak_name]} ∪ applied_tweaks l);;
    do items <- lift (py_append_target (tweak_history l));
    do ts <- time_strftime time_format;
    set_tweak_history (PList (items ++ [history_entry tweak_name ts]));;
    save_tweaks;;
    ret ()
  else ret ().

Definition get_tweak_status (tweak_name : string) : M bool :=
  do l <- get_self; ret (bool_decide (KStr tweak_name ∈ applied_tweaks l)).

(** [v.clear()]: lists and dictionaries have it. *)
Definition py_clear (v : pyval) : outcome pyval :=
  match v with
  | PList _ => Return (PList [])
  | PDict _ => Return (PDict [])
  | _ => Raised AttributeError
  end.

Definition clear_fields : M unit :=
  set_applied_tweaks ∅;;
  do l <- get_self;
  do h <- lift (py_clear (tweak_history l));
  set_tweak_history h;;
  set_current_profile PNone.

Definition remove_tweaks_file : M unit :=
  do found <- os_path_exists tweaks_file;
  if found then os_remove tweaks_file else ret ().

Definition clear_saved_tweaks_old : M bool :=
  try_except
    (remove_tweaks_file;;
     clear_fields;;
     log_message MsgCleared;;
     ret true)
    (λ e, log_message (MsgErrorClearing e);; ret false).

(** [update_tweak_status] writes the status label and a log line. *)
Definition update_tweak_status : M unit :=
  do l <- get_self;
  let p := if truthy (current_profile l) then current_profile l
           else PStr "None" in
  log_message (MsgStatusUpdated (size (applied_tweaks l)) p).

(** [result] is the answer to the [messagebox.askyesno] question. *)
Definition clear_saved_tweaks (result : bool) : M bool :=
  try_except
    ((if result then
        remove_tweaks_file;;
        clear_fields;;
        update_tweak_status;;
        log_message MsgCleared;;
        show MsgClearSuccessBox
      else ret ());;
     ret true)
    (λ e, log_message (MsgErrorClearing e);; ret false).

(** The dictionary [export_tweaks] builds. *)
Definition export_data (l : ledger) (ts : string) (w : world) : pyval :=
  PDict [("applied_tweaks", PList (py_list_of_set (applied_tweaks l)));
         ("tweak_history", tweak_history l);
         ("current_profile", current_profile l);
         ("export_timestamp", PStr ts);
         ("system_info", system_info w)].

(** [filename] is [None] when the argument is [None] (the default); an
    empty string is false as well. *)
Definition export_tweaks (filename : option string) : M bool :=
  try_except
    (do filename <-
       match filename with
       | Some f =>
           if negb (String.eqb f "") then ret f
           else do ts <- time_strftime "%Y%m%d_%H%M%S";
                ret ("frog_tech_tweaks_export_" ++ ts ++ ".json")
       | None =>
           do ts <- time_strftime "%Y%m%d_%H%M%S";
           ret ("frog_tech_tweaks_export_" ++ ts ++ ".json")
       end;
     do l <- get_self;
     do ts <- time_strftime time_format;
     do w <- get_os;
     let tweak_data := export_data l ts w in
     json_dump_to filename tweak_data;;
     log_message (MsgExported filename);;
     ret true)
    (λ e, log_message (MsgErrorExporting e);; ret false).

Definition import_tweaks (filename : string) : M bool :=
  try_except
    (do tweak_data <- json_load_from filename;
     do a <- get_default tweak_data "applied_tweaks" (PList []);
     do s <- lift (py_set a);
     set_applied_tweaks s;;
     do h <- get_default tweak_data "tweak_history" (PList []);
     set_tweak_history h;;
     do p <- get_default tweak_data "current_profile" PNone;
     set_current_profile p;;
     save_tweaks;;
     do l <- get_self;
     log_message (MsgImported (size (applied_tweaks l)) filename);;
     ret true)
    (λ e, log_message (MsgErrorImporting e);; ret false).

(** ** Performance profiles *)

(** A tweak function is an external collaborator: it returns its verdict
    and does not touch the ledger. *)
Definition call_tweak (f : tweak_fn) : M bool :=
  do w <- get_os; ret (tweak_result w f).

(** One [if self.f(): ...] block of a profile function: the function
    called, the line written to [profile_results_text] (without its
    newline), and the name passed to [track_tweak] when the block tracks. *)
Record step : Type := Step {
  step_fn : tweak_fn;
  step_line : string;
  step_track : option string
}.

(** The statements of one block; the result says whether [applied] is
    incremented. *)
Definition step_body (st : step) : M bool :=
  do ok <- call_tweak (step_fn st);
  if ok then
    show (MsgProfile (step_line st));;
    match step_track st with
    | Some name => track_tweak name true
    | None => ret ()
    end;;
    ret true
  else ret false.

(** A statement inside [try: ... except: return applied]: when it raises,
    the function returns the current value of the local [applied]. *)
Definition guarded {A} (c : M A) (applied : nat) (k : A → M nat) : M nat :=
  λ m, match c m with
       | (Return a, m') => k a m'
       | (Raised _, m') => (Return applied, m')
       end.

Fixpoint run_steps (steps : list step) (applied : nat) : M nat :=
  match steps with
  | [] => ret applied
  | st :: rest =>
      guarded (step_body st) applied
        (λ counted, run_steps rest (if counted then S applied else applied))
  end.

Definition apply_quality_profile_steps : list step :=
  [Step disable_visual_effects
        "✅ Optimized visual effects for quality" (Some "visual_effects_quality");
   Step optimize_graphics_quality_advanced
        "✅ Optimized graphics quality" (Some "graphics_quality_advanced");
   Step optimize_hardware_acceleration_advanced
        "✅ Optimized hardware acceleration" (Some "hardware_acceleration_advanced");
   Step optimize_windows_services_advanced
        "✅ Optimized Windows services" (Some "windows_services_advanced");
   Step optimize_memory_compression_advanced
        "✅ Optimized memory compression" (Some "memory_compression_advanced")].

Definition apply_performance_profile_impl_steps : list step :=
  [Step optimize_cpu_affinity_advanced
        "✅ Optimized CPU affinity" (Some "cpu_affinity_advanced");
   Step optimize_thread_priority_advanced
        "✅ Optimized thread priority" (Some "thread_priority_advanced");
   Step optimize_turbo_boost_advanced
        "✅ Optimized turbo boost" (Some "turbo_boost_advanced");
   Step optimize_disk_performance_advanced
        "✅ Optimized disk performance" (Some "disk_performance_advanced");
   Step optimize_network_performance_advanced
        "✅ Optimized network performance" (Some "network_performance_advanced")].

Definition apply_balanced_profile_steps : list step :=
  [Step disable_telemetry
        "✅ Disabled telemetry" (Some "disable_telemetry");
   Step disable_cortana
        "✅ Disabled Cortana" (Some "disable_cortana");
   Step optimize_windows_services_advanced
        "✅ Optimized Windows services" (Some "windows_services_advanced");
   Step optimize_background_processes_advanced
        "✅ Optimized background processes" (Some "background_processes_advanced");
   Step optimize_startup_programs_advanced
        "✅ Optimized startup programs" (Some "startup_programs_advanced")].

Definition apply_ultra_quality_profile_steps : list step :=
  [Step optimize_graphics_quality_advanced
        "✅ Optimized graphics quality" None;
   Step optimize_hardware_acceleration_advanced
        "✅ Optimized hardware acceleration" None;
   Step optimize_shader_cache_advanced
        "✅ Optimized shader cache" None;
   Step optimize_memory_compression_advanced
        "✅ Optimized memory compression" None].

Definition apply_ultra_performance_profile_steps : list step :=
  [Step optimize_cpu_affinity_advanced
        "✅ Optimized CPU affinity" None;
   Step optimize_thread_priority_advanced
        "✅ Optimized thread priority" None;
   Step optimize_interrupt_affinity_advanced
        "✅ Optimized interrupt affinity" None;
   Step optimize_turbo_boost_advanced
        "✅ Optimized turbo boost" None;
   Step optimize_hyper_threading_advanced
        "✅ Optimized hyper-threading" None;
   Step optimize_disk_performance_advanced
        "✅ Optimized disk performance" None;
   Step optimize_network_performance_advanced
        "✅ Optimized network performance" None;
   Step optimize_game_mode_advanced
        "✅ Optimized game mode" None;
   Step optimize_gpu_settings_advanced
        "✅ Optimized GPU settings" None].

Definition apply_low_latency_profile_steps : list step :=
  [Step optimize_interrupt_affinity_advanced
        "✅ Optimized interrupt affinity" None;
   Step optimize_thread_priority_advanced
        "✅ Optimized thread priority" None;
   Step optimize_network_performance_advanced
        "✅ Optimized network performance" None;
   Step optimize_vsync_advanced
        "✅ Optimized V-Sync settings" None;
   Step optimize_fullscreen_optimizations_advanced
        "✅ Optimized fullscreen" None].

Definition apply_ultra_low_latency_profile_steps : list step :=
  [Step optimize_interrupt_affinity_advanced
        "✅ Optimized interrupt affinity" None;
   Step optimize_thread_priority_advanced
        "✅ Optimized thread priority" None;
   Step optimize_cpu_parking_advanced
        "✅ Optimized CPU parking" None;
   Step optimize_network_performance_advanced
        "✅ Optimized network performance" None;
   Step optimize_vsync_advanced
        "✅ Optimized V-Sync settings" None;
   Step optimize_fullscreen_optimizations_advanced
        "✅ Optimized fullscreen" None;
   Step disable_game_dvr_advanced
        "✅ Disabled Game DVR" None;
   Step disable_game_bar_advanced
        "✅ Disabled Game Bar" None;
   Step disable_xbox_live_advanced
        "✅ Disabled Xbox Live services" None].

Definition apply_ultra_high_performance_profile_steps : list step :=
  [Step optimize_cpu_affinity_advanced
        "✅ Optimized CPU affinity for extreme performance" None;
   Step optimize_thread_priority_advanced
        "✅ Optimized thread priority for maximum responsiveness" None;
   Step optimize_interrupt_affinity_advanced
        "✅ Optimized interrupt affinity for minimal latency" None;
   Step optimize_turbo_boost_advanced
        "✅ Optimized turbo boost for maximum CPU performance" None;
   Step optimize_hyper_threading_advanced
        "✅ Optimized hyper-threading for maximum throughput" None;
   Step optimize_memory_compression_advanced
        "✅ Optimized memory compression for maximum efficiency" None;
   Step optimize_page_file_advanced
        "✅ Optimized page file for maximum memory performance" None;
   Step optimize_disk_performance_advanced
        "✅ Optimized disk performance for maximum I/O" None;
   Step optimize_network_performance_advanced
        "✅ Optimized network performance for maximum bandwidth" None;
   Step optimize_game_mode_advanced
        "✅ Optimized game mode for maximum performance" None;
   Step optimize_gpu_settings_advanced
        "✅ Optimized GPU settings for maximum graphics performance" None;
   Step optimize_shader_cache_advanced
        "✅ Optimized shader cache for maximum rendering" None;
   Step optimize_windows_services_advanced
        "✅ Optimized Windows services for maximum efficiency" None;
   Step optimize_background_processes_advanced
        "✅ Optimized background processes for maximum resources" None;
   Step optimize_startup_programs_advanced
        "✅ Optimized startup programs for maximum boot speed" None;
   Step disable_telemetry
        "✅ Disabled telemetry for maximum privacy" None;
   Step disable_cortana
        "✅ Disabled Cortana for maximum efficiency" None;
   Step disable_visual_effects
        "✅ Disabled visual effects for maximum performance" None;
   Step disable_animations
        "✅ Disabled animations for maximum responsiveness" None;
   Step disable_transparency
        "✅ Disabled transparency for maximum efficiency" None;
   Step disable_shadows
        "✅ Disabled shadows for maximum performance" None;
   Step disable_smooth_scrolling
        "✅ Disabled smooth scrolling for maximum responsiveness" None;
   Step disable_font_smoothing
        "✅ Disabled font smoothing for maximum performance" None;
   Step disable_clear_type
        "✅ Disabled ClearType for maximum efficiency" None].

Definition apply_super_computer_profile_steps : list step :=
  [Step optimize_cpu_parking_advanced
        "✅ Optimized CPU parking for maximum efficiency" None;
   Step optimize_vsync_advanced
        "✅ Optimized V-Sync for maximum frame rates" None;
   Step optimize_fullscreen_optimizations_advanced
        "✅ Optimized fullscreen for maximum performance" None;
   Step optimize_hardware_acceleration_advanced
        "✅ Optimized hardware acceleration for maximum efficiency" None;
   Step disable_game_dvr_advanced
        "✅ Disabled Game DVR for maximum performance" None;
   Step disable_game_bar_advanced
        "✅ Disabled Game Bar for maximum efficiency" None;
   Step disable_xbox_live_advanced
        "✅ Disabled Xbox Live services for maximum performance" None;
   Step disable_timeline
        "✅ Disabled timeline for maximum efficiency" None;
   Step disable_activity_history
        "✅ Disabled activity history for maximum privacy" None;
   Step disable_location_tracking
        "✅ Disabled location tracking for maximum privacy" None;
   Step disable_advertising_id
        "✅ Disabled advertising ID for maximum privacy" None;
   Step disable_tips
        "✅ Disabled tips for maximum efficiency" None;
   Step disable_dwm
        "✅ Disabled DWM for maximum performance" None;
   Step disable_windows_update
        "✅ Disabled Windows Update for maximum stability" None;
   Step disable_windows_store
        "✅ Disabled Windows Store for maximum efficiency" None;
   Step disable_network_discovery
        "✅ Disabled network discovery for maximum security" None;
   Step disable_network_sharing
        "✅ Disabled network sharing for maximum security" None;
   Step disable_remote_assistance
        "✅ Disabled remote assistance for maximum security" None;
   Step disable_remote_desktop
        "✅ Disabled remote desktop for maximum security" None;
   Step disable_network_adapters
        "✅ Optimized network adapters for maximum performance" None;
   Step disable_wifi_sense
        "✅ Disabled WiFi Sense for maximum privacy" None;
   Step disable_user_account_control
        "✅ Disabled UAC for maximum performance" None;
   Step disable_smart_screen
        "✅ Disabled SmartScreen for maximum performance" None;
   Step disable_windows_defender
        "✅ Disabled Windows Defender for maximum performance" None;
   Step disable_firewall
        "✅ Disabled firewall for maximum performance" None;
   Step disable_bitlocker
        "✅ Disabled BitLocker for maximum performance" None;
   Step disable_secure_boot
        "✅ Disabled Secure Boot for maximum performance" None;
   Step disable_tpm
        "✅ Disabled TPM for maximum performance" None;
   Step disable_credential_guard
        "✅ Disabled Credential Guard for maximum performance" None;
   Step optimize_scheduled_tasks_advanced
        "✅ Optimized scheduled tasks for maximum efficiency" None;
   Step optimize_system_restore_advanced
        "✅ Optimized system restore for maximum performance" None;
   Step optimize_storage_sense_advanced
        "✅ Optimized storage sense for maximum efficiency" None;
   Step optimize_file_indexing_advanced
        "✅ Optimized file indexing for maximum performance" None;
   Step optimize_shadow_copies_advanced
        "✅ Optimized shadow copies for maximum efficiency" None;
   Step optimize_recycle_bin_advanced
        "✅ Optimized recycle bin for maximum performance" None;
   Step optimize_file_compression_advanced
        "✅ Optimized file compression for maximum efficiency" None].

Definition apply_quality_profile : M nat :=
  run_steps apply_quality_profile_steps 0.
Definition apply_performance_profile_impl : M nat :=
  run_steps apply_performance_profile_impl_steps 0.
Definition apply_balanced_profile : M nat :=
  run_steps apply_balanced_profile_steps 0.
Definition apply_ultra_quality_profile : M nat :=
  run_steps apply_ultra_quality_profile_steps 0.
Definition apply_ultra_performance_profile : M nat :=
  run_steps apply_ultra_performance_profile_steps 0.
Definition apply_low_latency_profile : M nat :=
  run_steps apply_low_latency_profile_steps 0.
Definition apply_ultra_low_latency_profile : M nat :=
  run_steps apply_ultra_low_latency_profile_steps 0.
Definition apply_ultra_high_performance_profile : M nat :=
  run_steps apply_ultra_high_performance_profile_steps 0.
(** Starts with [applied += self.apply_ultra_high_performance_profile()]. *)
Definition apply_super_computer_profile : M nat :=
  guarded apply_ultra_high_performance_profile 0
    (λ n, run_steps apply_super_computer_profile_steps (0 + n)).

(** The profile functions by the name [apply_profile_thread] dispatches
    on; an unknown name applies nothing. *)
Definition profile_function (profile : string) : M nat :=
  if String.eqb profile "quality" then apply_quality_profile
  else if String.eqb profile "performance" then apply_performance_profile_impl
  else if String.eqb profile "balanced" then apply_balanced_profile
  else if String.eqb profile "ultra_quality" then apply_ultra_quality_profile
  else if String.eqb profile "ultra_performance"
       then apply_ultra_performance_profile
  else if String.eqb profile "low_latency" then apply_low_latency_profile
  else if String.eqb profile "ultra_low_latency"
       then apply_ultra_low_latency_profile
  else if String.eqb profile "ultra_high_performance"
       then apply_ultra_high_performance_profile
  else if String.eqb profile "super_computer"
       then apply_super_computer_profile
  else ret 0%nat.

(** [is_admin()]: catches whatever the system call raises and answers
    [False] then. *)
Definition is_admin : M bool := do w <- get_os; ret (admin w).

(** Consecutive [profile_results_text.insert] calls with constant text;
    the lines are kept without their newline characters. *)
Fixpoint show_lines (lines : list string) : M unit :=
  match lines with
  | [] => ret ()
  | line :: rest => show (MsgProfile line);; show_lines rest
  end.

(** [x < y] for a reading [x] and a whole number [y]. *)
Definition less_than (x : QArith_base.Q) (y : Z) : bool :=
  negb (QArith_base.Qle_bool (QArith_base.Qmake y 1) x).

(** The [try] block around the [psutil] calls: all three calls come before
    the first line, and both handlers write one line. *)
Definition show_system_status : M unit :=
  do w <- get_os;
  match psutil w with
  | PsutilMissing =>
      show_lines ["• System monitoring unavailable (psutil not installed)"]
  | PsutilRaises e => show (MsgMonitoringError e)
  | PsutilReadings cpu_percent memory_percent disk_percent =>
      show (MsgCpuUsage cpu_percent);;
      show (MsgMemoryUsage memory_percent);;
      show (MsgDiskUsage disk_percent);;
      if less_than cpu_percent 50 && less_than memory_percent 70
      then show_lines ["✅ System resources are well-optimized"]
      else show_lines ["⚠️ System resources are under load"]
  end.

(** What the worker thread writes once the profile is tracked: the
    details, the tips, the system status, the line with the count, and the
    advice that depends on [is_admin()]. *)
Definition show_profile_results (profile : string) (n_applied : nat)
    : M unit :=
  show_lines ["📊 OPTIMIZATION DETAILS:";
              "========================================"];;
  (if String.eqb profile "super_computer" then
     show_lines ["🔧 Applied optimizations include:";
                 "• CPU affinity and thread priority optimization";
                 "• Memory compression and page file optimization";
                 "• Disk I/O and network performance tuning";
                 "• Power plan and CPU parking optimization";
                 "• System services and background process optimization";
                 "• Registry tweaks for maximum performance";
                 "• Security feature optimization for performance"]
   else if String.eqb profile "ultra_high_performance" then
     show_lines ["🔧 Applied optimizations include:";
                 "• CPU and memory optimization";
                 "• Disk and network performance tuning";
                 "• System responsiveness improvements"]
   else
     show_lines ["🔧 Applied profile-specific optimizations"]);;
  show_lines ["💡 PERFORMANCE TIPS:";
              "• Restart your computer for full effect";
              "• Monitor Task Manager for CPU/Memory usage";
              "• Check boot time improvements";
              "• Test application launch speeds"];;
  show_lines ["📈 CURRENT SYSTEM STATUS:"];;
  show_system_status;;
  show (MsgProfileReport n_applied);;
  show_lines ["💡 Some optimizations may require a restart to take full effect."];;
  show (MsgProfileSaved tweaks_file);;
  do running_as_admin <- is_admin;
  if negb running_as_admin then
    show_lines ["⚠️ IMPORTANT: Run as Administrator for maximum performance gains!";
                "🔧 Many optimizations require admin privileges to work properly.";
                "🚀 Restart the application as Administrator for full 80% boost potential."]
  else
    show_lines ["✅ Running with Administrator privileges - maximum optimizations applied!";
                "🔄 Restart your computer for all optimizations to take full effect."].

(** The body of the worker thread of [apply_performance_profile]. *)
Definition apply_profile_thread (profile : string) : M unit :=
  try_except
    (set_current_profile (PStr profile);;
     do n_applied <- profile_function profile;
     track_tweak ("profile_" ++ profile) true;;
     show_profile_results profile n_applied)
    (λ e, show (MsgProfileError e)).

(** ** Sample surroundings for the examples *)

(** A machine on which every file operation succeeds and every tweak
    function reports success; the clock shows the call number. *)
Definition sample_clock (fmt : string) (n : nat) : string :=
  fmt ++ "@" ++ String (ascii_of_nat (48 + n)) "".

Definition sample_world (files : gmap string fcontent) : world :=
  {| fs := files;
     denied := λ _, false;
     torn := λ _, false;
     ticks := 0;
     strftime := sample_clock;
     platform_platform := "Windows-10";
     sys_version := "3.11.4";
     tweak_result := λ _, true;
     psutil := PsutilReadings (QArith_base.Qmake 125 10)
                              (QArith_base.Qmake 41 1)
                              (QArith_base.Qmake 63 1);
     admin := false;
     shown := [] |}.

Definition ledger_with (names : list string) : ledger :=
  {| applied_tweaks := list_to_set (KStr <$> names);
     tweak_history := PList [];
     current_profile := PNone;
     last_resolution := [PInt 1920; PInt 1080];
     last_refresh_rate := PInt 60 |}.

(** A ledger with one tracked tweak, its history entry, a profile and a
    resolution of its own. *)
Definition saved_sample : ledger :=
  {| applied_tweaks := {[KStr "disable_telemetry"]};
     tweak_history :=
       PList [history_entry "disable_telemetry" "2024-01-01 10:00:00"];
     current_profile := PStr "balanced";
     last_resolution := [PInt 1280; PInt 720];
     last_refresh_rate := PInt 144 |}.

(** ** Unfolding the computations *)

Ltac unfold_m :=
  unfold try_except, bind, ret, raise, lift, get_self, get_os, put_self,
    put_os, guarded in *.

Ltac unfold_ops :=
  unfold set_applied_tweaks, set_tweak_history, set_current_profile,
    set_last_resolution, set_last_refresh_rate, time_strftime, log_message,
    show, os_path_exists, os_remove, json_dump_to, json_load_from,
    get_default, call_tweak in *.

Ltac run := unfold_ops; unfold_m; cbn.

(** ** States, documents and predicates used in the statements *)

(** The world after a successful [save_tweaks] of ledger [l]. *)
Definition saved_world (l : ledger) (w : world) : world :=
  {| fs := <[tweaks_file :=
               Json (save_data l (strftime w time_format (ticks w)) w)]> (fs w);
     denied := denied w;
     torn := torn w;
     ticks := S (ticks w);
     strftime := strftime w;
     platform_platform := platform_platform w;
     sys_version := sys_version w;
     tweak_result := tweak_result w;
     psutil := psutil w;
     admin := admin w;
     shown := shown w ++ [MsgSaved tweaks_file] |}.

(** What a failed write to [path] leaves of the files: they are as before
    when [open] failed, and [path] holds text that is not JSON when the
    write failed after it. *)
Definition failed_write (path : string) (w : world) : gmap string fcontent :=
  if torn w path then <[path := Garbage]> (fs w) else fs w.

(** The world after a [save_tweaks] that failed. *)
Definition unsaved_world (w : world) : world :=
  {| fs := failed_write tweaks_file w;
     denied := denied w;
     torn := torn w;
     ticks := S (ticks w);
     strftime := strftime w;
     platform_platform := platform_platform w;
     sys_version := sys_version w;
     tweak_result := tweak_result w;
     psutil := psutil w;
     admin := admin w;
     shown := shown w ++ [MsgErrorSaving OSError] |}.

(** The field [k] of a document, or [default] when it has none. *)
Definition doc_field (d : list (string * pyval)) (k : string)
    (dflt : pyval) : pyval :=
  default dflt (dict_lookup k d).

(** The lines [load_saved_tweaks] logs on success. *)
Definition loaded_log (s : gset hkey) (p : pyval) : list message :=
  MsgLoaded (size s) :: (if truthy p then [MsgCurrentProfile p] else []).

(** The inputs on which [load_saved_tweaks] gives up before its first
    assignment: no file, a file that cannot be opened, text that is not
    JSON, a document that is not an object, and an [applied_tweaks] field
    that [set] rejects. *)
Definition fails_before_assignment (w : world) : bool :=
  match fs w !! tweaks_file with
  | None => true
  | Some c =>
      denied w tweaks_file
      || match c with
         | Garbage => true
         | Json v =>
             match py_get v "applied_tweaks" with
             | Raised _ => true
             | Return o =>
                 match py_set (default (PList []) o) with
                 | Raised _ => true
                 | Return _ => false
                 end
             end
         end
  end.

(** A persistence file whose [last_resolution] is a number. *)
Definition wrong_resolution_doc : pyval :=
  PDict [("applied_tweaks", PList [PStr "A"]);
         ("tweak_history", PList []);
         ("current_profile", PStr "balanced");
         ("last_resolution", PInt 5)].

Definition wrong_resolution_machine : machine :=
  Machine new_ledger (sample_world {[tweaks_file := Json wrong_resolution_doc]}).

(** The ledger after a successful [track_tweak] at time stamp [ts]. *)
Definition tracked (l : ledger) (items : list pyval) (name ts : string)
    : ledger :=
  {| applied_tweaks := {[KStr name]} ∪ applied_tweaks l;
     tweak_history := PList (items ++ [history_entry name ts]);
     current_profile := current_profile l;
     last_resolution := last_resolution l;
     last_refresh_rate := last_refresh_rate l |}.

(** What a completed clear leaves behind. *)
Definition cleared (m : machine) : Prop :=
  applied_tweaks (self m) = ∅
  ∧ tweak_history (self m) = PList []
  ∧ current_profile (self m) = PNone
  ∧ fs (os m) !! tweaks_file = None.

(** A ledger with one applied tweak, and a persistence file that cannot be
    removed. *)
Definition locked_world : world :=
  {| fs := {[tweaks_file := Garbage]};
     denied := λ path, String.eqb path tweaks_file;
     torn := λ _, false;
     ticks := 0;
     strftime := sample_clock;
     platform_platform := "Windows-10";
     sys_version := "3.11.4";
     tweak_result := λ _, true;
     psutil := PsutilMissing;
     admin := true;
     shown := [] |}.

(** Surroundings in which a persistence file exists and every write
    fails after [open]. *)
Definition torn_world : world :=
  {| fs := {[tweaks_file := Json (PDict [("applied_tweaks", PList [PStr "A"])])]};
     denied := λ _, true;
     torn := λ _, true;
     ticks := 0;
     strftime := sample_clock;
     platform_platform := "Windows-10";
     sys_version := "3.11.4";
     tweak_result := λ _, true;
     psutil := PsutilRaises "access denied";
     admin := false;
     shown := [] |}.

(** The world after a successful [export_tweaks] to [path]. *)
Definition exported_world (l : ledger) (w : world) (path : string) : world :=
  {| fs := <[path :=
               Json (export_data l (strftime w time_format (ticks w)) w)]> (fs w);
     denied := denied w;
     torn := torn w;
     ticks := S (ticks w);
     strftime := strftime w;
     platform_platform := platform_platform w;
     sys_version := sys_version w;
     tweak_result := tweak_result w;
     psutil := psutil w;
     admin := admin w;
     shown := shown w ++ [MsgExported path] |}.

(** The ledger after an import of document [d] whose [applied_tweaks]
    field converts to the set [s]. *)
Definition imported (l : ledger) (d : list (string * pyval)) (s : gset hkey)
    : ledger :=
  {| applied_tweaks := s;
     tweak_history := doc_field d "tweak_history" (PList []);
     current_profile := doc_field d "current_profile" PNone;
     last_resolution := last_resolution l;
     last_refresh_rate := last_refresh_rate l |}.

(** A file of the shape the persistence and export files have: an object
    whose [applied_tweaks], when present, is an array of strings, whose
    [tweak_history], when present, is an array, and whose
    [current_profile], when present, is a string or null. *)
Definition is_string (v : pyval) : bool :=
  match v with PStr _ => true | _ => false end.

Definition well_formed_import (v : pyval) : bool :=
  match v with
  | PDict d =>
      match dict_lookup "applied_tweaks" d with
      | None => true
      | Some (PList names) => forallb is_string names
      | Some _ => false
      end
      && match dict_lookup "tweak_history" d with
         | None | Some (PList _) => true
         | Some _ => false
         end
      && match dict_lookup "current_profile" d with
         | None | Some PNone | Some (PStr _) => true
         | Some _ => false
         end
  | _ => false
  end.

(** A ledger holding [B] and an import file holding [A]. *)
Definition import_file_A : pyval :=
  PDict [("applied_tweaks", PList [PStr "A"]);
         ("tweak_history", PList [history_entry "A" "2024-01-01 10:00:00"]);
         ("current_profile", PNone);
         ("export_timestamp", PStr "2024-01-01 10:00:01");
         ("system_info", PDict [("platform", PStr "Windows-10");
                                ("python_version", PStr "3.11.4")])].

(** The keys of a document, in the order written. *)
Definition doc_keys (v : pyval) : list string :=
  match v with
  | PDict d => fst <$> d
  | _ => []
  end.

(** The keys of the file at [path], when it holds a JSON object. *)
Definition file_keys (w : world) (path : string) : option (list string) :=
  match fs w !! path with
  | Some (Json (PDict d)) => Some (fst <$> d)
  | _ => None
  end.

(** The shape the specification gives the export file: the keys of the
    persistence file with [export_timestamp] in the place of [timestamp]. *)
Definition rename_timestamp (k : string) : string :=
  if String.eqb k "timestamp" then "export_timestamp" else k.

Definition is_resolution_key (k : string) : bool :=
  String.eqb k "last_resolution" || String.eqb k "last_refresh_rate".

(** The number of blocks of a profile whose tweak function succeeds. *)
Definition successes (w : world) (steps : list step) : nat :=
  length (filter (λ st, tweak_result w (step_fn st) = true) steps).

(** The blocks a profile name runs, in order; the super-computer profile
    runs those of the ultra-high-performance profile first. *)
Definition profile_blocks (profile : string) : list step :=
  if String.eqb profile "quality" then apply_quality_profile_steps
  else if String.eqb profile "performance"
       then apply_performance_profile_impl_steps
  else if String.eqb profile "balanced" then apply_balanced_profile_steps
  else if String.eqb profile "ultra_quality"
       then apply_ultra_quality_profile_steps
  else if String.eqb profile "ultra_performance"
       then apply_ultra_performance_profile_steps
  else if String.eqb profile "low_latency" then apply_low_latency_profile_steps
  else if String.eqb profile "ultra_low_latency"
       then apply_ultra_low_latency_profile_steps
  else if String.eqb profile "ultra_high_performance"
       then apply_ultra_high_performance_profile_steps
  else if String.eqb profile "super_computer"
       then apply_ultra_high_performance_profile_steps
            ++ apply_super_computer_profile_steps
  else [].

(** ** Further definitions

    The path [export_tweaks] writes to: the argument, or a name made from
    the clock when the argument is [None] or empty. *)
Definition export_target (filename : option string) (w : world) : string :=
  match filename with
  | Some f =>
      if negb (String.eqb f "") then f
      else "frog_tech_tweaks_export_"
           ++ strftime w "%Y%m%d_%H%M%S" (ticks w) ++ ".json"
  | None =>
      "frog_tech_tweaks_export_"
      ++ strftime w "%Y%m%d_%H%M%S" (ticks w) ++ ".json"
  end.

(** The operations on the ledger that the event handlers of the window
    start, and [__init__]'s load. *)
Inductive ledger_op : Type :=
| OpTrack (tweak_name : string) (success : bool)
| OpSave
| OpLoad
| OpStatus (tweak_name : string)
| OpClearOld
| OpClear (result : bool)
| OpExport (filename : option string)
| OpImport (filename : string)
| OpApplyProfile (profile : string).

(** The machine after one operation (its result is dropped). *)
Definition run_op (op : ledger_op) (m : machine) : machine :=
  match op with
  | OpTrack tweak_name success => snd (track_tweak tweak_name success m)
  | OpSave => snd (save_tweaks m)
  | OpLoad => snd (load_saved_tweaks m)
  | OpStatus tweak_name => snd (get_tweak_status tweak_name m)
  | OpClearOld => snd (clear_saved_tweaks_old m)
  | OpClear result => snd (clear_saved_tweaks result m)
  | OpExport filename => snd (export_tweaks filename m)
  | OpImport filename => snd (import_tweaks filename m)
  | OpApplyProfile profile => snd (apply_profile_thread profile m)
  end.

Definition run_ops (ops : list ledger_op) (m : machine) : machine :=
  fold_left (λ m op, run_op op m) ops m.

(** A history made of the entries [track_tweak] appends, given as pairs of
    a name and a time stamp. *)
Definition entries_history (entries : list (string * string)) : pyval :=
  PList ((λ e, history_entry (fst e) (snd e)) <$> entries).

(** The applied set holds exactly the names the history has entries for. *)
Definition consistent (l : ledger) : Prop :=
  ∃ entries, tweak_history l = entries_history entries
             ∧ applied_tweaks l = list_to_set (KStr <$> (fst <$> entries)).

(** A document that, if it loads, loads a consistent applied set and
    history. *)
Definition good_document (v : pyval) : Prop :=
  match v with
  | PDict d =>
      ∀ s, py_set (doc_field d "applied_tweaks" (PList [])) = Return s →
           ∃ entries,
             doc_field d "tweak_history" (PList []) = entries_history entries
             ∧ s = list_to_set (KStr <$> (fst <$> entries))
  | _ => True
  end.

Definition files_consistent (w : world) : Prop :=
  ∀ path v, fs w !! path = Some (Json v) → good_document v.

Definition ledger_invariant (m : machine) : Prop :=
  consistent (self m) ∧ files_consistent (os m).

(** A computation that keeps the invariant, however it ends. *)
Definition preserves {A} (c : M A) : Prop :=
  ∀ m, ledger_invariant m → ledger_invariant (snd (c m)).

(** The lines with which the worker thread of a profile ends, oldest
    first: the report of a number of applied optimizations, or the
    error. *)
Definition verdicts (msgs : list message) : list message :=
  omap (λ msg, match msg with
               | MsgProfileReport _ | MsgProfileError _ => Some msg
               | _ => None
               end) msgs.

(** A computation that writes lines and does nothing else; [ends] are
    the verdicts among them. *)
Definition writes_only (c : M unit) (ends : list message) : Prop :=
  ∀ l w, ∃ msgs,
    c (Machine l w) = (Return (), Machine l (with_shown (shown w ++ msgs) w))
    ∧ verdicts msgs = ends.

(** A computation that writes no verdict, however it ends. *)
Definition keeps_verdicts {A} (c : M A) : Prop :=
  ∀ m, verdicts (shown (os (snd (c m)))) = verdicts (shown (os m)).

(** The names a profile body passes to [track_tweak]: those of its blocks
    whose tweak function succeeds and that track, in order. *)
Definition tracked_names (w : world) (steps : list step) : list string :=
  omap step_track (filter (λ st, tweak_result w (step_fn st) = true) steps).

(** ** Start-up, history window and dialogs *)

(** The tweak-tracking part of [FrogOptimizer.__init__]: the three
    attributes are set, the window is built, the persistence file is
    loaded, and only then are [last_resolution] and [last_refresh_rate]
    set.  The two resolution attributes do not exist before; the record
    holds whatever it is started with until they are assigned. *)
Definition __init__ : M unit :=
  set_applied_tweaks ∅;;
  set_tweak_history (PList []);;
  set_current_profile PNone;;
  load_saved_tweaks;;
  set_last_resolution [PInt 1920; PInt 1080];;
  set_last_refresh_rate (PInt 60).

(** [for entry in v]: the items a loop over [v] sees. *)
Definition py_iter (v : pyval) : outcome (list pyval) :=
  match v with
  | PList l => Return l
  | PStr s => Return (PStr <$> chars s)
  | PDict d => Return (PStr <$> (fst <$> d))
  | PNone | PBool _ | PInt _ => Raised TypeError
  end.

(** A line of the history window: the mark (a tick or a cross), the time
    stamp and the tweak; or the line that says there is no history. *)
Inductive history_line : Type :=
| HistoryLine (success : bool) (timestamp tweak : pyval)
| NoHistoryLine.

(** The loop of [view_tweak_history]: the lines written so far, and the
    exception that stopped it, if any. *)
Fixpoint history_lines (entries : list pyval) (written : list history_line)
    : list history_line * option exn :=
  match entries with
  | [] => (written, None)
  | entry :: rest =>
      match py_get entry "timestamp" with
      | Raised e => (written, Some e)
      | Return timestamp =>
          match py_get entry "tweak" with
          | Raised e => (written, Some e)
          | Return tweak =>
              match py_get entry "success" with
              | Raised e => (written, Some e)
              | Return success =>
                  history_lines rest
                    (written
                     ++ [HistoryLine (truthy (default (PBool false) success))
                           (default (PStr "Unknown") timestamp)
                           (default (PStr "Unknown") tweak)])
              end
          end
      end
  end.

(** [view_tweak_history]: the text of the new window and, when the body
    raised, the exception the error box reports. *)
Definition view_tweak_history : M (list history_line * option exn) :=
  do l <- get_self;
  if truthy (tweak_history l) then
    match py_iter (tweak_history l) with
    | Raised e => ret ([], Some e)
    | Return entries => ret (history_lines entries [])
    end
  else ret ([NoHistoryLine], None).

(** The message box a dialog function ends with. *)
Inductive dialog_box : Type :=
| NoBox
| InfoBox
| ErrorBox.

(** [export_tweaks_dialog]; [chosen] is what the save dialog returns, the
    empty string when it is cancelled.  The suggested file name is made
    from the clock before the dialog opens. *)
Definition export_tweaks_dialog (chosen : string) : M dialog_box :=
  try_except
    (time_strftime "%Y%m%d_%H%M%S";;
     if negb (String.eqb chosen "") then
       do ok <- export_tweaks (Some chosen);
       if ok then ret InfoBox else ret ErrorBox
     else ret NoBox)
    (λ _, ret ErrorBox).

(** [import_tweaks_dialog]; [chosen] is what the open dialog returns. *)
Definition import_tweaks_dialog (chosen : string) : M dialog_box :=
  try_except
    (if negb (String.eqb chosen "") then
       do ok <- import_tweaks chosen;
       if ok then update_tweak_status;; ret InfoBox else ret ErrorBox
     else ret NoBox)
    (λ _, ret ErrorBox).

(** ** Start-up entries in the registry *)

(** Strings are sequences of bytes; a name of ASCII characters is one
    whose bytes are all below 128. *)
Fixpoint is_ascii (s : string) : bool :=
  match s with
  | EmptyString => true
  | String c s' => (nat_of_ascii c <? 128)%nat && is_ascii s'
  end.

(** [str.lower] on names of ASCII characters: the capitals [A] to [Z] are
    lowered and nothing else changes.  On other characters Python follows
    Unicode (the Kelvin sign becomes [k]), which is not modelled: a name
    with such characters can be safe for the program and not for
    [is_safe_to_remove_startup] below, never the other way round. *)
Definition lower_char (c : ascii) : ascii :=
  let n := nat_of_ascii c in
  if ((65 <=? n) && (n <=? 90))%nat then ascii_of_nat (n + 32) else c.

Fixpoint py_lower (s : string) : string :=
  match s with
  | EmptyString => EmptyString
  | String c s' => String (lower_char c) (py_lower s')
  end.

(** [pattern in s] for strings. *)
Fixpoint py_in (pattern s : string) : bool :=
  String.prefix pattern s
  || match s with
     | EmptyString => false
     | String _ s' => py_in pattern s'
     end.

Definition safe_patterns : list string :=
  ["update"; "updater"; "helper"; "launcher"; "tray";
   "quicktime"; "adobe"; "java"; "flash"; "shockwave"].

Definition is_safe_to_remove_startup (filename : string) : bool :=
  let filename_lower := py_lower filename in
  existsb (λ pattern, py_in pattern filename_lower) safe_patterns.

(** The values of a registry key, name and data, in the order
    [winreg.EnumValue] numbers them; [winreg.DeleteValue] takes the value
    of that name out and the later ones move up. *)
Fixpoint delete_value (name : string) (values : list (string * string))
    : list (string * string) :=
  match values with
  | [] => []
  | (n, v) :: rest =>
      if String.eqb n name then rest else (n, v) :: delete_value name rest
  end.

(** The [while True] loop over one key in [optimize_registry_startup] and
    in [clean_invalid_startup_entries]: [EnumValue] at index [i], a
    [DeleteValue] when [doomed] says so, [i += 1], until [EnumValue]
    raises.  [None] when the fuel runs out. *)
Fixpoint clean_key_loop (doomed : string * string → bool) (fuel : nat)
    (values : list (string * string)) (i cleaned : nat)
    : option (list (string * string) * nat) :=
  match fuel with
  | O => None
  | S fuel' =>
      match values !! i with
      | None => Some (values, cleaned)
      | Some (name, value) =>
          if doomed (name, value)
          then clean_key_loop doomed fuel' (delete_value name values)
                 (S i) (S cleaned)
          else clean_key_loop doomed fuel' values (S i) cleaned
      end
  end.

(** The two [Run] keys; [None] is a key that [winreg.OpenKey] cannot open
    for writing. *)
Record run_keys : Type := RunKeys {
  hkcu_run : option (list (string * string));
  hklm_run : option (list (string * string))
}.

(** One [try: OpenKey ... loop ... except: pass] block. *)
Definition clean_key (doomed : string * string → bool) (fuel : nat)
    (key : option (list (string * string))) (cleaned : nat)
    : option (option (list (string * string)) * nat) :=
  match key with
  | None => Some (None, cleaned)
  | Some values =>
      match clean_key_loop doomed fuel values 0 cleaned with
      | Some (values', cleaned') => Some (Some values', cleaned')
      | None => None
      end
  end.

(** [optimize_registry_startup] with the given fuel for each loop: the
    keys afterwards and the count returned. *)
Definition optimize_registry_startup (fuel : nat) (keys : run_keys)
    : option (run_keys * nat) :=
  match clean_key (λ nv, is_safe_to_remove_startup (fst nv)) fuel
          (hkcu_run keys) 0 with
  | None => None
  | Some (hkcu', cleaned) =>
      match clean_key (λ nv, is_safe_to_remove_startup (fst nv)) fuel
              (hklm_run keys) cleaned with
      | None => None
      | Some (hklm', cleaned') => Some (RunKeys hkcu' hklm', cleaned')
      end
  end.

(** [for hkey, key_path in startup_keys: try: ... except: pass], the loop
    over the two keys in [clean_invalid_startup_entries]. *)
Definition clean_run_keys (doomed : string * string → bool) (fuel : nat)
    (keys : run_keys) : option (run_keys * nat) :=
  match clean_key doomed fuel (hkcu_run keys) 0 with
  | None => None
  | Some (hkcu', cleaned) =>
      match clean_key doomed fuel (hklm_run keys) cleaned with
      | None => None
      | Some (hklm', cleaned') => Some (RunKeys hkcu' hklm', cleaned')
      end
  end.

(** [clean_invalid_startup_entries]: the values whose data is not the path
    of something that exists are deleted. *)
Definition clean_invalid_startup_entries (fuel : nat) (w : world)
    (keys : run_keys) : option (run_keys * nat) :=
  clean_run_keys
    (λ nv, negb (bool_decide (is_Some (fs w !! snd nv)))) fuel keys.

(** The values of a key, none for a key that cannot be opened. *)
Definition key_values (key : option (list (string * string)))
    : list (string * string) :=
  default [] key.

(** What one such loop leaves of a key whose names are distinct: a value
    that is deleted takes the next one past the index. *)
Fixpoint kept_values (doomed : string * string → bool)
    (values : list (string * string)) : list (string * string) :=
  match values with
  | [] => []
  | x :: rest =>
      if doomed x
      then match rest with
           | [] => []
           | y :: rest' => y :: kept_values doomed rest'
           end
      else x :: kept_values doomed rest
  end.

(** * Properties

    ** Saving *)

Lemma save_tweaks_ok (l : ledger) (w : world) :
  denied w tweaks_file = false →
  save_tweaks (Machine l w) = (Return true, Machine l (saved_world l w)).
Proof.
  intros Hd. unfold save_tweaks. run. rewrite Hd. reflexivity.
Qed.

Lemma save_tweaks_denied (l : ledger) (w : world) :
  denied w tweaks_file = true →
  save_tweaks (Machine l w) = (Return false, Machine l (unsaved_world w)).
Proof.
  intros Hd. unfold save_tweaks, unsaved_world, failed_write. run.
  rewrite Hd. by destruct (torn w tweaks_file).
Qed.

(** [save_tweaks] never raises and never touches the ledger. *)
Lemma save_tweaks_total (l : ledger) (w : world) :
  ∃ b w', save_tweaks (Machine l w) = (Return b, Machine l w')
          ∧ tweak_result w' = tweak_result w
          ∧ denied w' = denied w.
Proof.
  destruct (denied w tweaks_file) eqn:Hd.
  - exists false, (unsaved_world w). by rewrite save_tweaks_denied.
  - exists true, (saved_world l w). by rewrite save_tweaks_ok.
Qed.

(** [set(list(s))] gives back [s]. *)
Lemma keys_of_of_key (ks : list hkey) : keys_of (of_key <$> ks) = Return ks.
Proof.
  induction ks as [|k ks IH]; [reflexivity|].
  cbn. destruct k; cbn; rewrite IH; reflexivity.
Qed.

Lemma py_set_list_of_set (s : gset hkey) :
  py_set (PList (py_list_of_set s)) = Return s.
Proof.
  unfold py_set, py_list_of_set. rewrite keys_of_of_key.
  by rewrite list_to_set_elements_L.
Qed.

(** ** Persistence *)

(** Why a load can fail before anything was assigned. *)
Lemma load_missing (l : ledger) (w : world) :
  fs w !! tweaks_file = None →
  load_saved_tweaks (Machine l w)
  = (Return false, Machine l (with_shown (shown w ++ [MsgNoSaved]) w)).
Proof.
  intros Hf. unfold load_saved_tweaks. run. rewrite Hf.
  rewrite bool_decide_eq_false_2 by (by intros [? ?]). reflexivity.
Qed.

Lemma load_raises_early (l : ledger) (w : world) (c : fcontent) :
  fs w !! tweaks_file = Some c →
  (denied w tweaks_file = true
   ∨ c = Garbage
   ∨ (∃ v, c = Json v ∧ ∃ e, py_get v "applied_tweaks" = Raised e)
   ∨ (∃ d, c = Json (PDict d)
           ∧ ∃ e, py_set (doc_field d "applied_tweaks" (PList [])) = Raised e)) →
  ∃ e, load_saved_tweaks (Machine l w)
       = (Return false,
          Machine l (with_shown (shown w ++ [MsgErrorLoading e]) w)).
Proof.
  intros Hf Hwhy. unfold load_saved_tweaks. run. rewrite Hf.
  rewrite bool_decide_eq_true_2 by eauto. cbn.
  destruct (denied w tweaks_file) eqn:Hd; cbn; [by eexists|].
  rewrite Hf.
  destruct Hwhy as [?|[->|[(v & -> & e & He)|(d & -> & e & He)]]].
  - congruence.
  - cbn. by eexists.
  - cbn. rewrite He. by eexists.
  - cbn. unfold doc_field in He. rewrite He. by eexists.
Qed.

(** A load that gets through every conversion. *)
Lemma load_json (l : ledger) (w : world) (d : list (string * pyval))
    (s : gset hkey) (t : list pyval) :
  fs w !! tweaks_file = Some (Json (PDict d)) →
  denied w tweaks_file = false →
  py_set (doc_field d "applied_tweaks" (PList [])) = Return s →
  py_tuple (doc_field d "last_resolution" (PList [PInt 1920; PInt 1080]))
  = Return t →
  let p := doc_field d "current_profile" PNone in
  load_saved_tweaks (Machine l w)
  = (Return true,
     Machine {| applied_tweaks := s;
                tweak_history := doc_field d "tweak_history" (PList []);
                current_profile := p;
                last_resolution := t;
                last_refresh_rate := doc_field d "last_refresh_rate" (PInt 60) |}
             (with_shown (shown w ++ loaded_log s p) w)).
Proof.
  intros Hf Hd Hs Ht p. unfold load_saved_tweaks. run. rewrite Hf.
  rewrite bool_decide_eq_true_2 by eauto. cbn. rewrite Hd. cbn.
  rewrite Hf. cbn.
  unfold doc_field in *. rewrite Hs. cbn. rewrite Ht. cbn.
  unfold loaded_log. subst p. unfold doc_field.
  destruct (truthy _); cbn; [|reflexivity].
  unfold with_shown. cbn. by rewrite <- app_assoc.
Qed.

(** A load that fails on [last_resolution], after three fields were
    assigned. *)
Lemma load_raises_late (l : ledger) (w : world) (d : list (string * pyval))
    (s : gset hkey) (e : exn) :
  fs w !! tweaks_file = Some (Json (PDict d)) →
  denied w tweaks_file = false →
  py_set (doc_field d "applied_tweaks" (PList [])) = Return s →
  py_tuple (doc_field d "last_resolution" (PList [PInt 1920; PInt 1080]))
  = Raised e →
  load_saved_tweaks (Machine l w)
  = (Return false,
     Machine {| applied_tweaks := s;
                tweak_history := doc_field d "tweak_history" (PList []);
                current_profile := doc_field d "current_profile" PNone;
                last_resolution := last_resolution l;
                last_refresh_rate := last_refresh_rate l |}
             (with_shown (shown w ++ [MsgErrorLoading e]) w)).
Proof.
  intros Hf Hd Hs Ht. unfold load_saved_tweaks. run. rewrite Hf.
  rewrite bool_decide_eq_true_2 by eauto. cbn. rewrite Hd. cbn.
  rewrite Hf. cbn.
  unfold doc_field in *. rewrite Hs. cbn. rewrite Ht. reflexivity.
Qed.

(** C1. [save_tweaks] followed by [load_saved_tweaks] on the file it wrote
    reproduces the ledger, whatever the ledger the load starts from (that
    of a fresh instance, or any other): the same applied set, the same
    history (the same value, hence in the same order) and the same current
    profile; the resolution fields come back as well. *)
Theorem save_load_roundtrip (l l0 : ledger) (w : world) (m1 : machine) :
  save_tweaks (Machine l w) = (Return true, m1) →
  ∃ m2, load_saved_tweaks (Machine l0 (os m1)) = (Return true, m2)
        ∧ applied_tweaks (self m2) = applied_tweaks l
        ∧ tweak_history (self m2) = tweak_history l
        ∧ current_profile (self m2) = current_profile l
        ∧ self m2 = l.
Proof.
  intros Hsave.
  destruct (denied w tweaks_file) eqn:Hd.
  { rewrite save_tweaks_denied in Hsave by done. discriminate. }
  rewrite save_tweaks_ok in Hsave by done.
  injection Hsave as <-.
  eexists. split.
  - eapply load_json.
    + cbn. apply lookup_insert_eq.
    + exact Hd.
    + cbn. apply py_set_list_of_set.
    + reflexivity.
  - cbn. by destruct l.
Qed.

(** [save_load_roundtrip] at the ledger holding [disable_telemetry] with the
    balanced profile, saved where every file operation succeeds and loaded
    into a ledger that holds something else. *)
Lemma save_load_roundtrip_witness :
  save_tweaks (Machine saved_sample (sample_world ∅))
  = (Return true,
     Machine saved_sample (saved_world saved_sample (sample_world ∅)))
  ∧ ∃ m2, load_saved_tweaks
            (Machine (ledger_with ["B"])
               (os (Machine saved_sample
                      (saved_world saved_sample (sample_world ∅)))))
          = (Return true, m2)
          ∧ applied_tweaks (self m2) = applied_tweaks saved_sample
          ∧ tweak_history (self m2) = tweak_history saved_sample
          ∧ current_profile (self m2) = current_profile saved_sample
          ∧ self m2 = saved_sample.
Proof.
  split; [vm_compute; reflexivity|].
  apply (save_load_roundtrip saved_sample (ledger_with ["B"])
           (sample_world ∅)).
  vm_compute; reflexivity.
Defined.

(** C4, as stated, fails: a document whose [last_resolution] has the wrong
    type makes the load fail after [applied_tweaks], [tweak_history] and
    [current_profile] were assigned, so the ledger is not as it was. *)
Lemma load_wrong_type_changes_ledger :
  fst (load_saved_tweaks wrong_resolution_machine) = Return false
  ∧ applied_tweaks (self (snd (load_saved_tweaks wrong_resolution_machine)))
    = {[KStr "A"]}
  ∧ current_profile (self (snd (load_saved_tweaks wrong_resolution_machine)))
    = PStr "balanced"
  ∧ self (snd (load_saved_tweaks wrong_resolution_machine))
    ≠ self wrong_resolution_machine.
Proof.
  assert (Hs : py_set (doc_field
                 [("applied_tweaks", PList [PStr "A"]);
                  ("tweak_history", PList []);
                  ("current_profile", PStr "balanced");
                  ("last_resolution", PInt 5)] "applied_tweaks" (PList []))
               = Return {[KStr "A"]}).
  { reflexivity. }
  pose proof (load_raises_late new_ledger
                (sample_world {[tweaks_file := Json wrong_resolution_doc]})
                _ _ TypeError (lookup_singleton_eq _ _) eq_refl Hs eq_refl)
    as Hl.
  unfold wrong_resolution_machine.
  rewrite Hl. cbn. repeat split.
  intros Heq. apply (f_equal applied_tweaks) in Heq. cbn in Heq.
  set_solver.
Qed.

(** C4, amended. [load_saved_tweaks] never raises.  Whenever it reports
    failure, [last_resolution] and [last_refresh_rate] are as before; and on
    every input that fails before the first assignment (see
    [fails_before_assignment]) it reports failure and the whole ledger is as
    before. *)
Theorem load_fails_soft (l : ledger) (w : world) :
  ∃ b m', load_saved_tweaks (Machine l w) = (Return b, m')
          ∧ (b = false →
             last_resolution (self m') = last_resolution l
             ∧ last_refresh_rate (self m') = last_refresh_rate l)
          ∧ (fails_before_assignment w = true → b = false ∧ self m' = l).
Proof.
  unfold fails_before_assignment.
  destruct (fs w !! tweaks_file) as [c|] eqn:Hf.
  2:{ rewrite load_missing by done. eexists _, _. by repeat split. }
  destruct (denied w tweaks_file) eqn:Hd.
  { destruct (load_raises_early l w c Hf) as [e ->]; [by left|].
    eexists _, _. by repeat split. }
  destruct c as [|v].
  { destruct (load_raises_early l w _ Hf) as [e ->]; [by right; left|].
    eexists _, _. by repeat split. }
  destruct (py_get v "applied_tweaks") as [o|e] eqn:Hg.
  2:{ destruct (load_raises_early l w _ Hf) as [e' ->];
        [right; right; left; eauto|].
      eexists _, _. by repeat split. }
  destruct v as [| | | | |d]; try discriminate.
  injection Hg as <-.
  destruct (py_set (default (PList []) (dict_lookup "applied_tweaks" d)))
    as [s|e] eqn:Hs.
  2:{ destruct (load_raises_early l w _ Hf) as [e' ->];
        [right; right; right; eauto|].
      eexists _, _. by repeat split. }
  destruct (py_tuple (doc_field d "last_resolution"
                        (PList [PInt 1920; PInt 1080]))) as [t|e] eqn:Ht.
  - erewrite load_json by done. eexists _, _. by repeat split.
  - erewrite load_raises_late by done. eexists _, _. by repeat split.
Qed.

(** [load_fails_soft] at a persistence file that is not JSON. *)
Lemma load_fails_soft_witness :
  fails_before_assignment (sample_world {[tweaks_file := Garbage]}) = true
  ∧ ∃ b m', load_saved_tweaks
              (Machine (ledger_with ["B"])
                       (sample_world {[tweaks_file := Garbage]}))
            = (Return b, m')
            ∧ (b = false →
               last_resolution (self m') = last_resolution (ledger_with ["B"])
               ∧ last_refresh_rate (self m')
                 = last_refresh_rate (ledger_with ["B"]))
            ∧ (fails_before_assignment
                 (sample_world {[tweaks_file := Garbage]}) = true →
               b = false ∧ self m' = ledger_with ["B"]).
Proof.
  split; [reflexivity|].
  apply (load_fails_soft (ledger_with ["B"])
           (sample_world {[tweaks_file := Garbage]})).
Defined.

(** ** Tracking *)

Lemma track_tweak_true (l : ledger) (w : world) (items : list pyval)
    (name : string) :
  tweak_history l = PList items →
  track_tweak name true (Machine l w)
  = (Return (),
     snd (save_tweaks
            (Machine (tracked l items name (strftime w time_format (ticks w)))
                     (with_ticks (S (ticks w)) w)))).
Proof.
  intros Hh. unfold track_tweak. run. rewrite Hh. cbn.
  destruct (save_tweaks_total
              (tracked l items name (strftime w time_format (ticks w)))
              (with_ticks (S (ticks w)) w)) as (b & w' & Hs & _).
  unfold tracked, with_ticks in *. cbn in *. rewrite Hs. reflexivity.
Qed.

(** Without a list in [tweak_history] the [append] raises, after the name
    was added to the set. *)
Lemma track_tweak_no_list (l : ledger) (w : world) (name : string) :
  py_append_target (tweak_history l) = Raised AttributeError →
  track_tweak name true (Machine l w)
  = (Raised AttributeError,
     Machine {| applied_tweaks := {[KStr name]} ∪ applied_tweaks l;
                tweak_history := tweak_history l;
                current_profile := current_profile l;
                last_resolution := last_resolution l;
                last_refresh_rate := last_refresh_rate l |} w).
Proof.
  intros Hh. unfold track_tweak. run. rewrite Hh. reflexivity.
Qed.

Lemma count_in_NoDup (ks : list hkey) (k : hkey) :
  NoDup ks → k ∈ ks → length (filter (λ k', k' = k) ks) = 1%nat.
Proof.
  induction 1 as [|k' ks Hnotin Hnd IH]; intros Hin.
  - by apply elem_of_nil in Hin.
  - rewrite filter_cons. destruct (decide (k' = k)) as [->|Hne].
    + cbn. f_equal.
      destruct (filter (λ k', k' = k) ks) as [|x xs] eqn:Hfil; [done|].
      assert (Hx : x ∈ filter (λ k', k' = k) ks) by (rewrite Hfil; left).
      apply list_elem_of_filter in Hx as [-> Hx]. done.
    + apply IH. apply elem_of_cons in Hin as [->|]; done.
Qed.

(** C9. [track_tweak name False] returns at once: the ledger, the files
    and everything else stay as they were, so nothing is saved. *)
Theorem track_failure_is_noop (name : string) (m : machine) :
  track_tweak name false m = (Return (), m).
Proof. reflexivity. Qed.

(** C7. Two successful [track_tweak] calls for the same name on a ledger
    whose history is a list: both return, the applied set is the old one
    with the name added, the second call does not change it, the name is
    listed once among its members, and the history grows by exactly two
    entries for that name, in call order. *)
Theorem track_twice (l : ledger) (w : world) (items : list pyval)
    (name : string) :
  tweak_history l = PList items →
  ∃ m1 m2 ts1 ts2,
    track_tweak name true (Machine l w) = (Return (), m1)
    ∧ track_tweak name true m1 = (Return (), m2)
    ∧ applied_tweaks (self m2) = {[KStr name]} ∪ applied_tweaks l
    ∧ applied_tweaks (self m2) = applied_tweaks (self m1)
    ∧ length (filter (λ k, k = KStr name) (elements (applied_tweaks (self m2))))
      = 1%nat
    ∧ tweak_history (self m2)
      = PList (items ++ [history_entry name ts1; history_entry name ts2]).
Proof.
  intros Hh.
  set (ts1 := strftime w time_format (ticks w)).
  set (l1 := tracked l items name ts1).
  destruct (save_tweaks_total l1 (with_ticks (S (ticks w)) w))
    as (b1 & w1 & Hs1 & _).
  set (ts2 := strftime w1 time_format (ticks w1)).
  set (l2 := tracked l1 (items ++ [history_entry name ts1]) name ts2).
  destruct (save_tweaks_total l2 (with_ticks (S (ticks w1)) w1))
    as (b2 & w2 & Hs2 & _).
  exists (Machine l1 w1), (Machine l2 w2), ts1, ts2.
  split; [|split].
  - rewrite (track_tweak_true l w items name Hh). fold ts1 l1.
    by rewrite Hs1.
  - rewrite (track_tweak_true l1 w1 _ name eq_refl). fold ts2 l2.
    by rewrite Hs2.
  - cbn. repeat split.
    + by rewrite (assoc_L (∪)), union_idemp_L.
    + by rewrite (assoc_L (∪)), union_idemp_L.
    + apply count_in_NoDup; [apply NoDup_elements|].
      apply elem_of_elements, elem_of_union_l, elem_of_singleton_2.
      reflexivity.
    + by rewrite <- app_assoc.
Qed.

(** [track_twice] at the fresh ledger, tracking [disable_telemetry] twice. *)
Lemma track_twice_witness :
  tweak_history new_ledger = PList []
  ∧ ∃ m1 m2 ts1 ts2,
      track_tweak "disable_telemetry" true
        (Machine new_ledger (sample_world ∅)) = (Return (), m1)
      ∧ track_tweak "disable_telemetry" true m1 = (Return (), m2)
      ∧ applied_tweaks (self m2)
        = {[KStr "disable_telemetry"]} ∪ applied_tweaks new_ledger
      ∧ applied_tweaks (self m2) = applied_tweaks (self m1)
      ∧ length (filter (λ k, k = KStr "disable_telemetry")
                  (elements (applied_tweaks (self m2)))) = 1%nat
      ∧ tweak_history (self m2)
        = PList ([] ++ [history_entry "disable_telemetry" ts1;
                        history_entry "disable_telemetry" ts2]).
Proof.
  split; [reflexivity|].
  apply (track_twice new_ledger (sample_world ∅) [] "disable_telemetry").
  reflexivity.
Defined.

(** ** Clearing *)

Lemma remove_tweaks_file_ok (l : ledger) (w : world) :
  fs w !! tweaks_file = None ∨ denied w tweaks_file = false →
  remove_tweaks_file (Machine l w)
  = (Return (), Machine l (with_fs (delete tweaks_file (fs w)) w)).
Proof.
  intros Hok. unfold remove_tweaks_file. run.
  destruct (fs w !! tweaks_file) as [c|] eqn:Hf.
  - destruct Hok as [|Hd]; [done|].
    rewrite bool_decide_eq_true_2 by eauto. cbn. rewrite Hd, Hf. reflexivity.
  - rewrite bool_decide_eq_false_2 by (by intros [? ?]).
    rewrite delete_id by done. by destruct w.
Qed.

Lemma remove_tweaks_file_denied (l : ledger) (w : world) (c : fcontent) :
  fs w !! tweaks_file = Some c →
  denied w tweaks_file = true →
  remove_tweaks_file (Machine l w) = (Raised OSError, Machine l w).
Proof.
  intros Hf Hd. unfold remove_tweaks_file. run. rewrite Hf.
  rewrite bool_decide_eq_true_2 by eauto. cbn. by rewrite Hd.
Qed.

Lemma clear_fields_list (l : ledger) (w : world) (items : list pyval) :
  tweak_history l = PList items →
  clear_fields (Machine l w)
  = (Return (),
     Machine {| applied_tweaks := ∅;
                tweak_history := PList [];
                current_profile := PNone;
                last_resolution := last_resolution l;
                last_refresh_rate := last_refresh_rate l |} w).
Proof.
  intros Hh. unfold clear_fields. run. by rewrite Hh.
Qed.

(** C6, as stated, fails in two ways.  [clear_saved_tweaks] asks first and
    clears nothing when the answer is no; and both functions remove the
    file before they empty the ledger, so a removal that fails leaves the
    ledger as it was. *)
Lemma clear_can_leave_ledger :
  clear_saved_tweaks false (Machine (ledger_with ["A"]) (sample_world ∅))
  = (Return true, Machine (ledger_with ["A"]) (sample_world ∅))
  ∧ applied_tweaks (ledger_with ["A"]) ≠ ∅
  ∧ fst (clear_saved_tweaks_old (Machine (ledger_with ["A"]) locked_world))
    = Return false
  ∧ self (snd (clear_saved_tweaks_old
                 (Machine (ledger_with ["A"]) locked_world)))
    = ledger_with ["A"]
  ∧ fs (os (snd (clear_saved_tweaks_old
                   (Machine (ledger_with ["A"]) locked_world))))
    !! tweaks_file = Some Garbage.
Proof.
  split; [reflexivity|]. split.
  { intros Heq. assert (Hin : KStr "A" ∈ applied_tweaks (ledger_with ["A"])).
    { cbn. apply elem_of_union_l, elem_of_singleton_2. reflexivity. }
    rewrite Heq in Hin. by apply not_elem_of_empty in Hin. }
  unfold clear_saved_tweaks_old. unfold_m.
  rewrite (remove_tweaks_file_denied _ locked_world Garbage)
    by (first [apply lookup_singleton_eq|reflexivity]).
  run. repeat split.
Qed.

(** C6, amended. On a ledger whose history is a list, and when the
    persistence file is absent or can be removed, [clear_saved_tweaks_old]
    and a confirmed [clear_saved_tweaks] succeed and leave an empty applied
    set, an empty history, no current profile and no persistence file; a
    declined [clear_saved_tweaks] changes nothing. *)
Theorem clear_empties_ledger (l : ledger) (w : world) (items : list pyval) :
  tweak_history l = PList items →
  fs w !! tweaks_file = None ∨ denied w tweaks_file = false →
  (∃ m', clear_saved_tweaks_old (Machine l w) = (Return true, m')
         ∧ cleared m')
  ∧ (∃ m', clear_saved_tweaks true (Machine l w) = (Return true, m')
           ∧ cleared m')
  ∧ clear_saved_tweaks false (Machine l w) = (Return true, Machine l w).
Proof.
  intros Hh Hok. split; [|split]; [| |reflexivity].
  - unfold clear_saved_tweaks_old. unfold_m.
    rewrite remove_tweaks_file_ok by done.
    rewrite (clear_fields_list _ _ items) by done.
    run. eexists. split; [reflexivity|].
    unfold cleared. cbn. repeat split. apply lookup_delete_eq.
  - unfold clear_saved_tweaks. unfold_m.
    rewrite remove_tweaks_file_ok by done.
    rewrite (clear_fields_list _ _ items) by done.
    unfold update_tweak_status. run. eexists. split; [reflexivity|].
    unfold cleared. cbn. repeat split. apply lookup_delete_eq.
Qed.

(** [clear_empties_ledger] at a ledger holding [A] with a persistence file that can be removed. *)
Lemma clear_empties_ledger_witness :
  (tweak_history (ledger_with ["A"]) = PList []
   ∧ (fs (sample_world {[tweaks_file := Garbage]}) !! tweaks_file = None
      ∨ denied (sample_world {[tweaks_file := Garbage]}) tweaks_file = false))
  ∧ (∃ m', clear_saved_tweaks_old
             (Machine (ledger_with ["A"])
                      (sample_world {[tweaks_file := Garbage]}))
           = (Return true, m')
           ∧ cleared m')
  ∧ (∃ m', clear_saved_tweaks true
             (Machine (ledger_with ["A"])
                      (sample_world {[tweaks_file := Garbage]}))
           = (Return true, m')
           ∧ cleared m')
  ∧ clear_saved_tweaks false
      (Machine (ledger_with ["A"]) (sample_world {[tweaks_file := Garbage]}))
    = (Return true,
       Machine (ledger_with ["A"]) (sample_world {[tweaks_file := Garbage]})).
Proof.
  split; [split; [reflexivity|right; reflexivity]|].
  apply (clear_empties_ledger (ledger_with ["A"])
           (sample_world {[tweaks_file := Garbage]}) []).
  - reflexivity.
  - right. reflexivity.
Defined.

(** ** Export and import *)

Lemma export_tweaks_ok (l : ledger) (w : world) (path : string) :
  path ≠ "" →
  denied w path = false →
  export_tweaks (Some path) (Machine l w)
  = (Return true, Machine l (exported_world l w path)).
Proof.
  intros Hne Hd. unfold export_tweaks.
  apply String.eqb_neq in Hne. rewrite Hne. run. rewrite Hd. reflexivity.
Qed.

Lemma export_tweaks_denied (l : ledger) (w : world) (path : string) :
  path ≠ "" →
  denied w path = true →
  fst (export_tweaks (Some path) (Machine l w)) = Return false.
Proof.
  intros Hne Hd. unfold export_tweaks.
  apply String.eqb_neq in Hne. rewrite Hne. run. rewrite Hd.
  by destruct (torn w path).
Qed.

Lemma import_tweaks_ok (l : ledger) (w : world) (path : string)
    (d : list (string * pyval)) (s : gset hkey) :
  fs w !! path = Some (Json (PDict d)) →
  denied w path = false →
  py_set (doc_field d "applied_tweaks" (PList [])) = Return s →
  ∃ b w', save_tweaks (Machine (imported l d s) w)
          = (Return b, Machine (imported l d s) w')
          ∧ import_tweaks path (Machine l w)
            = (Return true,
               Machine (imported l d s)
                       (with_shown (shown w' ++ [MsgImported (size s) path]) w')).
Proof.
  intros Hf Hd Hs.
  destruct (save_tweaks_total (imported l d s) w) as (b & w' & Hsave & _).
  exists b, w'. split; [exact Hsave|].
  unfold import_tweaks. run. rewrite Hd, Hf. cbn.
  unfold doc_field in Hs. rewrite Hs. cbn.
  unfold imported, doc_field in Hsave. rewrite Hsave. reflexivity.
Qed.

(** Whatever happens, an import assigns neither resolution field. *)
Lemma import_tweaks_frame (l : ledger) (w : world) (path : string) :
  ∃ b l' w', import_tweaks path (Machine l w) = (Return b, Machine l' w')
             ∧ last_resolution l' = last_resolution l
             ∧ last_refresh_rate l' = last_refresh_rate l.
Proof.
  unfold import_tweaks. run.
  destruct (denied w path); cbn; [by eexists _, _, _|].
  destruct (fs w !! path) as [[|v]|]; cbn; try by eexists _, _, _.
  destruct v as [| | | | |d]; cbn; try by eexists _, _, _.
  destruct (py_set _) as [s|e]; cbn; [|by eexists _, _, _].
  match goal with
  | |- context [save_tweaks (Machine ?l1 ?w1)] =>
      destruct (save_tweaks_total l1 w1) as (b & w' & -> & _)
  end.
  cbn. by eexists _, _, _.
Qed.

(** C10. [import_tweaks] leaves [last_resolution] and [last_refresh_rate]
    at their prior values, whatever the file holds (also when it has
    fields of these names) and whether or not the import succeeds. *)
Theorem import_keeps_resolution (l : ledger) (w : world) (path : string) :
  last_resolution (self (snd (import_tweaks path (Machine l w))))
  = last_resolution l
  ∧ last_refresh_rate (self (snd (import_tweaks path (Machine l w))))
    = last_refresh_rate l.
Proof.
  destruct (import_tweaks_frame l w path) as (b & l' & w' & -> & Hr & Hf).
  by split.
Qed.

Lemma keys_of_strings (names : list pyval) :
  forallb is_string names = true → ∃ ks, keys_of names = Return ks.
Proof.
  induction names as [|v names IH]; cbn; [by eexists|].
  intros [Hv Hrest]%andb_prop.
  destruct (IH Hrest) as [ks ->].
  destruct v; try discriminate. cbn. by eexists.
Qed.

Lemma well_formed_import_set (v : pyval) :
  well_formed_import v = true →
  ∃ d s, v = PDict d
         ∧ py_set (doc_field d "applied_tweaks" (PList [])) = Return s.
Proof.
  destruct v as [| | | | |d]; try discriminate. cbn.
  intros [[Ha _]%andb_prop _]%andb_prop.
  exists d. unfold doc_field.
  destruct (dict_lookup "applied_tweaks" d) as [[| | | |names|]|];
    try discriminate; cbn.
  - destruct (keys_of_strings names Ha) as [ks ->]. by eexists.
  - by eexists.
Qed.

(** C5. Importing a well-formed file that can be read succeeds and
    replaces the three fields by what the file holds, whatever the ledger
    held before: the applied set is exactly [set] of the file's
    [applied_tweaks], the history and the profile are the file's.  The new
    ledger is then handed to [save_tweaks]; when the persistence file can
    be written, a later [load_saved_tweaks] gives the imported ledger. *)
Theorem import_replaces (l : ledger) (w : world) (path : string) (v : pyval) :
  fs w !! path = Some (Json v) →
  denied w path = false →
  well_formed_import v = true →
  ∃ d s m',
    v = PDict d
    ∧ py_set (doc_field d "applied_tweaks" (PList [])) = Return s
    ∧ import_tweaks path (Machine l w) = (Return true, m')
    ∧ applied_tweaks (self m') = s
    ∧ tweak_history (self m') = doc_field d "tweak_history" (PList [])
    ∧ current_profile (self m') = doc_field d "current_profile" PNone
    ∧ (∃ b ms, save_tweaks (Machine (self m') w) = (Return b, ms)
               ∧ fs (os m') = fs (os ms))
    ∧ (denied w tweaks_file = false →
       ∃ m2, load_saved_tweaks m' = (Return true, m2) ∧ self m2 = self m').
Proof.
  intros Hf Hd Hwf.
  destruct (well_formed_import_set v Hwf) as (d & s & -> & Hs).
  destruct (import_tweaks_ok l w path d s Hf Hd Hs) as (b & w' & Hsave & Himp).
  eexists d, s, _. repeat split; [exact Hs|exact Himp|..]; cbn; try done.
  - eexists b, _. split; [exact Hsave|reflexivity].
  - intros Hdt. rewrite save_tweaks_ok in Hsave by done.
    injection Hsave as Hw'. subst w'.
    eexists. split.
    + eapply load_json.
      * cbn. apply lookup_insert_eq.
      * exact Hdt.
      * cbn. apply py_set_list_of_set.
      * reflexivity.
    + reflexivity.
Qed.

(** [import_replaces] at the file [import_file_A] imported over a ledger holding [B]. *)
Lemma import_replaces_witness :
  (fs (sample_world {["backup.json" := Json import_file_A]}) !! "backup.json"
   = Some (Json import_file_A)
   ∧ denied (sample_world {["backup.json" := Json import_file_A]})
       "backup.json" = false
   ∧ well_formed_import import_file_A = true)
  ∧ ∃ d s m',
      import_file_A = PDict d
      ∧ py_set (doc_field d "applied_tweaks" (PList [])) = Return s
      ∧ import_tweaks "backup.json"
          (Machine (ledger_with ["B"])
                   (sample_world {["backup.json" := Json import_file_A]}))
        = (Return true, m')
      ∧ applied_tweaks (self m') = s
      ∧ tweak_history (self m') = doc_field d "tweak_history" (PList [])
      ∧ current_profile (self m') = doc_field d "current_profile" PNone
      ∧ (∃ b ms, save_tweaks
                   (Machine (self m')
                      (sample_world {["backup.json" := Json import_file_A]}))
                 = (Return b, ms)
                 ∧ fs (os m') = fs (os ms))
      ∧ (denied (sample_world {["backup.json" := Json import_file_A]})
           tweaks_file = false →
         ∃ m2, load_saved_tweaks m' = (Return true, m2) ∧ self m2 = self m').
Proof.
  split; [repeat split; vm_compute; reflexivity|].
  apply (import_replaces (ledger_with ["B"])
           (sample_world {["backup.json" := Json import_file_A]})
           "backup.json" import_file_A); vm_compute; reflexivity.
Defined.

(** The example of the specification: importing [{"A"}] over [{"B"}]
    leaves exactly [{"A"}]. *)
Example import_A_over_B :
  applied_tweaks (ledger_with ["B"]) = {[KStr "B"]}
  ∧ applied_tweaks
      (self (snd (import_tweaks "backup.json"
                    (Machine (ledger_with ["B"])
                       (sample_world {["backup.json" := Json import_file_A]})))))
    = {[KStr "A"]}.
Proof. split; vm_compute; reflexivity. Qed.

(** C8. After a successful [export_tweaks] to a path, [import_tweaks] from
    the same path, into any ledger, succeeds and gives the applied set that
    was exported (and the exported history and profile). *)
Theorem export_import_roundtrip (l l' : ledger) (w : world) (path : string)
    (m1 : machine) :
  path ≠ "" →
  export_tweaks (Some path) (Machine l w) = (Return true, m1) →
  ∃ m2, import_tweaks path (Machine l' (os m1)) = (Return true, m2)
        ∧ applied_tweaks (self m2) = applied_tweaks l
        ∧ tweak_history (self m2) = tweak_history l
        ∧ current_profile (self m2) = current_profile l.
Proof.
  intros Hne Hexp.
  destruct (denied w path) eqn:Hd.
  { pose proof (export_tweaks_denied l w path Hne Hd) as Hf.
    rewrite Hexp in Hf. discriminate. }
  rewrite export_tweaks_ok in Hexp by done. injection Hexp as <-. cbn.
  destruct (import_tweaks_ok l' (exported_world l w path) path
              _ (applied_tweaks l) (lookup_insert_eq _ _ _) Hd
              (py_set_list_of_set _)) as (b & w' & _ & ->).
  eexists. by repeat split.
Qed.

(** [export_import_roundtrip] at a ledger holding [A], exported to [backup.json] and imported into the fresh ledger. *)
Lemma export_import_roundtrip_witness :
  ("backup.json" ≠ ""
   ∧ export_tweaks (Some "backup.json")
       (Machine (ledger_with ["A"]) (sample_world ∅))
     = (Return true,
        Machine (ledger_with ["A"])
                (exported_world (ledger_with ["A"]) (sample_world ∅)
                                "backup.json")))
  ∧ ∃ m2, import_tweaks "backup.json"
            (Machine new_ledger
               (os (Machine (ledger_with ["A"])
                      (exported_world (ledger_with ["A"]) (sample_world ∅)
                                      "backup.json"))))
          = (Return true, m2)
          ∧ applied_tweaks (self m2) = applied_tweaks (ledger_with ["A"])
          ∧ tweak_history (self m2) = tweak_history (ledger_with ["A"])
          ∧ current_profile (self m2) = current_profile (ledger_with ["A"]).
Proof.
  split; [split; [discriminate|vm_compute; reflexivity]|].
  apply (export_import_roundtrip (ledger_with ["A"]) new_ledger
           (sample_world ∅) "backup.json").
  - discriminate.
  - vm_compute; reflexivity.
Defined.

(** C2, as stated, fails: the export file has neither [last_resolution]
    nor [last_refresh_rate], which the persistence file has, so its keys are
    not those of the persistence file with the time stamp renamed. *)
Lemma export_lacks_resolution_keys :
  file_keys (os (snd (export_tweaks (Some "backup.json")
                        (Machine new_ledger (sample_world ∅)))))
            "backup.json"
  = Some ["applied_tweaks"; "tweak_history"; "current_profile";
          "export_timestamp"; "system_info"]
  ∧ file_keys (os (snd (save_tweaks (Machine new_ledger (sample_world ∅)))))
              tweaks_file
    = Some ["applied_tweaks"; "tweak_history"; "current_profile";
            "timestamp"; "system_info"; "last_resolution";
            "last_refresh_rate"]
  ∧ file_keys (os (snd (export_tweaks (Some "backup.json")
                          (Machine new_ledger (sample_world ∅)))))
              "backup.json"
    ≠ option_map (map rename_timestamp)
        (file_keys (os (snd (save_tweaks
                               (Machine new_ledger (sample_world ∅)))))
                   tweaks_file).
Proof.
  split; [vm_compute; reflexivity|].
  split; [vm_compute; reflexivity|].
  vm_compute. discriminate.
Qed.

(** C2, amended. An export to a writable path writes an object with the
    keys [applied_tweaks], [tweak_history], [current_profile],
    [export_timestamp] and [system_info]: the keys of the persistence file
    with the time stamp renamed and without the two resolution keys.  The
    four fields it shares with the persistence file hold the values
    [save_tweaks] would write. *)
Theorem export_shape (l : ledger) (w : world) (path : string) :
  path ≠ "" →
  denied w path = false →
  ∃ m1 doc,
    export_tweaks (Some path) (Machine l w) = (Return true, m1)
    ∧ fs (os m1) !! path = Some (Json doc)
    ∧ doc_keys doc = ["applied_tweaks"; "tweak_history"; "current_profile";
                      "export_timestamp"; "system_info"]
    ∧ (∀ ts, doc_keys doc
             = rename_timestamp
                 <$> filter (λ k, is_resolution_key k = false)
                       (doc_keys (save_data l ts w)))
    ∧ (∀ ts k, k ∈ ["applied_tweaks"; "tweak_history"; "current_profile";
                    "system_info"] →
               py_get doc k = py_get (save_data l ts w) k).
Proof.
  intros Hne Hd. rewrite export_tweaks_ok by done.
  eexists _, _. split; [reflexivity|]. split; [apply lookup_insert_eq|].
  split; [reflexivity|]. split; [reflexivity|].
  intros ts k Hk.
  repeat (apply elem_of_cons in Hk as [->|Hk]; [reflexivity|]).
  by apply elem_of_nil in Hk.
Qed.

(** [export_shape] at a ledger holding [A], exported to [backup.json]. *)
Lemma export_shape_witness :
  ("backup.json" ≠ "" ∧ denied (sample_world ∅) "backup.json" = false)
  ∧ ∃ m1 doc,
      export_tweaks (Some "backup.json")
        (Machine (ledger_with ["A"]) (sample_world ∅)) = (Return true, m1)
      ∧ fs (os m1) !! "backup.json" = Some (Json doc)
      ∧ doc_keys doc = ["applied_tweaks"; "tweak_history"; "current_profile";
                        "export_timestamp"; "system_info"]
      ∧ (∀ ts, doc_keys doc
               = rename_timestamp
                   <$> filter (λ k, is_resolution_key k = false)
                         (doc_keys (save_data (ledger_with ["A"]) ts
                                              (sample_world ∅))))
      ∧ (∀ ts k, k ∈ ["applied_tweaks"; "tweak_history"; "current_profile";
                      "system_info"] →
                 py_get doc k
                 = py_get (save_data (ledger_with ["A"]) ts (sample_world ∅)) k).
Proof.
  split; [split; [discriminate|reflexivity]|].
  apply (export_shape (ledger_with ["A"]) (sample_world ∅) "backup.json").
  - discriminate.
  - reflexivity.
Defined.

(** ** Profiles *)

Lemma successes_cons (w : world) (st : step) (steps : list step) :
  successes w (st :: steps)
  = ((if tweak_result w (step_fn st) then 1 else 0) + successes w steps)%nat.
Proof.
  unfold successes. rewrite filter_cons.
  destruct (tweak_result w (step_fn st)); by case_decide.
Qed.

Lemma successes_ext (w w' : world) (steps : list step) :
  tweak_result w' = tweak_result w → successes w' steps = successes w steps.
Proof. unfold successes. by intros ->. Qed.

(** On a ledger whose history is a list, a profile body runs to its end:
    it returns the number of successful tweak functions, and every
    successful block that tracks has its name in the applied set. *)
Lemma run_steps_count (steps : list step) :
  ∀ (n : nat) (l : ledger) (w : world) (items : list pyval),
    tweak_history l = PList items →
    ∃ l' w' items',
      run_steps steps n (Machine l w)
      = (Return (n + successes w steps)%nat, Machine l' w')
      ∧ tweak_history l' = PList items'
      ∧ tweak_result w' = tweak_result w
      ∧ applied_tweaks l ⊆ applied_tweaks l'
      ∧ (∀ st name, st ∈ steps →
                    tweak_result w (step_fn st) = true →
                    step_track st = Some name →
                    KStr name ∈ applied_tweaks l').
Proof.
  induction steps as [|st rest IH]; intros n l w items Hh.
  - exists l, w, items. cbn. unfold ret, successes. cbn.
    rewrite Nat.add_0_r. repeat split; [done..|].
    intros st name Hin. by apply elem_of_nil in Hin.
  - cbn [run_steps]. unfold guarded, step_body. rewrite successes_cons.
    unfold_ops. unfold_m. cbn -[track_tweak run_steps save_tweaks].
    destruct (tweak_result w (step_fn st)) eqn:Hok.
    2:{ destruct (IH n l w items Hh)
          as (l' & w' & items' & -> & ? & ? & ? & Htr).
        exists l', w', items'. repeat split; [done..|].
        intros st' name [->|Hin]%elem_of_cons Hok' Hname; [congruence|].
        by eapply Htr. }
    destruct (step_track st) as [name0|] eqn:Htrack.
    + rewrite (track_tweak_true l _ items name0 Hh).
      match goal with
      | |- context [save_tweaks (Machine ?l1 ?w1)] =>
          destruct (save_tweaks_total l1 w1) as (b & w1' & -> & Hres & _);
          destruct (IH (S n) l1 w1' _ eq_refl)
            as (l' & w' & items' & HIH & ? & Hres' & Hsub & Htr)
      end.
      cbn -[run_steps successes] in HIH, Hres, Hsub |- *. rewrite HIH.
      exists l', w', items'. split; [|split; [|split; [|split]]].
      * rewrite (successes_ext w w1') by (by rewrite Hres).
        do 2 f_equal. lia.
      * done.
      * congruence.
      * etrans; [|exact Hsub]. apply union_subseteq_r.
      * intros st' name [->|Hin]%elem_of_cons Hok' Hname.
        -- assert (name = name0) as -> by congruence.
           apply Hsub, elem_of_union_l, elem_of_singleton_2. reflexivity.
        -- eapply Htr; [done| |done]. by rewrite Hres.
    + cbn.
      match goal with
      | |- context [run_steps rest (S n) (Machine l ?w1)] =>
          destruct (IH (S n) l w1 items Hh)
            as (l' & w' & items' & HIH & ? & Hres' & Hsub & Htr)
      end.
      cbn in Hres'. rewrite HIH.
      exists l', w', items'. split; [|split; [|split; [|split]]]; try done.
      * rewrite (successes_ext w (with_shown _ w)) by done.
        do 2 f_equal. lia.
      * intros st' name [->|Hin]%elem_of_cons Hok' Hname; [congruence|].
        by eapply Htr.
Qed.

(** A profile body none of whose blocks tracks leaves the ledger and the
    files alone. *)
Lemma run_steps_untracked (steps : list step) :
  Forall (λ st, step_track st = None) steps →
  ∀ (n : nat) (l : ledger) (w : world),
    ∃ w', run_steps steps n (Machine l w)
          = (Return (n + successes w steps)%nat, Machine l w')
          ∧ fs w' = fs w
          ∧ tweak_result w' = tweak_result w.
Proof.
  induction 1 as [|st rest Hst Hrest IH]; intros n l w.
  - exists w. cbn. unfold ret, successes. cbn. by rewrite Nat.add_0_r.
  - cbn [run_steps]. unfold guarded, step_body. rewrite successes_cons, Hst.
    run. destruct (tweak_result w (step_fn st)) eqn:Hok.
    + cbn.
      match goal with
      | |- context [run_steps rest (S n) (Machine l ?w1)] =>
          destruct (IH (S n) l w1) as (w' & -> & Hfs & Hres)
      end.
      cbn in Hfs, Hres. exists w'. split; [|done].
      rewrite (successes_ext w (with_shown _ w)) by done.
      do 2 f_equal. lia.
    + destruct (IH n l w) as (w' & -> & Hfs & Hres).
      by exists w'.
Qed.

Lemma successes_app (w : world) (a b : list step) :
  successes w (a ++ b) = (successes w a + successes w b)%nat.
Proof. unfold successes. by rewrite filter_app, length_app. Qed.

(** Every profile function returns the number of its tweak functions that
    succeeded (on a ledger whose history is a list). *)
Lemma profile_function_counts (profile : string) (l : ledger) (w : world)
    (items : list pyval) :
  tweak_history l = PList items →
  ∃ l' w', profile_function profile (Machine l w)
           = (Return (successes w (profile_blocks profile)), Machine l' w').
Proof.
  intros Hh. unfold profile_function, profile_blocks.
  unfold apply_quality_profile, apply_performance_profile_impl,
    apply_balanced_profile, apply_ultra_quality_profile,
    apply_ultra_performance_profile, apply_low_latency_profile,
    apply_ultra_low_latency_profile, apply_super_computer_profile,
    apply_ultra_high_performance_profile.
  repeat (destruct (String.eqb profile _);
          [match goal with
           | |- context [run_steps ?st 0 _] =>
               by destruct (run_steps_count st 0 l w items Hh)
                    as (l' & w' & _ & -> & _); eexists _, _
           end|]).
  destruct (String.eqb profile _).
  - unfold guarded.
    destruct (run_steps_count apply_ultra_high_performance_profile_steps
                0 l w items Hh) as (l1 & w1 & items1 & -> & Hh1 & Hres & _).
    destruct (run_steps_count apply_super_computer_profile_steps
                (0 + (0 + successes w
                            apply_ultra_high_performance_profile_steps))
                l1 w1 items1 Hh1) as (l2 & w2 & _ & -> & _).
    rewrite successes_app, (successes_ext w w1) by done.
    by eexists _, _.
  - by eexists _, _.
Qed.

(** Six of the nine profile functions have no block that tracks. *)
Lemma untracked_profiles :
  Forall (λ steps, Forall (λ st, step_track st = None) steps)
    [apply_ultra_quality_profile_steps;
     apply_ultra_performance_profile_steps;
     apply_low_latency_profile_steps;
     apply_ultra_low_latency_profile_steps;
     apply_ultra_high_performance_profile_steps;
     apply_super_computer_profile_steps].
Proof. repeat constructor. Qed.

(** The balanced profile (like the quality and the performance profile)
    tracks every block: on a ledger whose history is a list it returns
    the number of successes and the name of every successful block is in
    the applied set afterwards. *)
Lemma apply_balanced_profile_tracks (l : ledger) (w : world)
    (items : list pyval) :
  tweak_history l = PList items →
  Forall (λ st, is_Some (step_track st)) apply_balanced_profile_steps
  ∧ ∃ l' w',
      apply_balanced_profile (Machine l w)
      = (Return (successes w apply_balanced_profile_steps), Machine l' w')
      ∧ (∀ st name, st ∈ apply_balanced_profile_steps →
                    tweak_result w (step_fn st) = true →
                    step_track st = Some name →
                    KStr name ∈ applied_tweaks l').
Proof.
  intros Hh. split.
  - unfold apply_balanced_profile_steps. repeat constructor; by eexists.
  - destruct (run_steps_count apply_balanced_profile_steps 0 l w items Hh)
      as (l' & w' & _ & Hrun & _ & _ & _ & Htr).
    exists l', w'. split; [exact Hrun|exact Htr].
Qed.

(** The ultra-quality profile has no [track_tweak] call: it returns the
    number of successes and leaves the ledger and the files as they were. *)
Lemma apply_ultra_quality_profile_frame (l : ledger) (w : world) :
  ∃ w', apply_ultra_quality_profile (Machine l w)
        = (Return (successes w apply_ultra_quality_profile_steps),
           Machine l w')
        ∧ fs w' = fs w.
Proof.
  destruct (run_steps_untracked apply_ultra_quality_profile_steps) with
    (n := 0%nat) (l := l) (w := w) as (w' & Hrun & Hfs & _).
  - unfold apply_ultra_quality_profile_steps. repeat constructor.
  - exists w'. split; [exact Hrun|exact Hfs].
Qed.

(** C3 at the ultra-quality profile, every tweak function succeeding: the
    profile function returns 4 and leaves the ledger untouched; after the
    whole profile application the applied set holds the profile marker
    only, and [optimize_graphics_quality_advanced], which succeeded, is not
    reported as applied, whereas the quality profile, which calls the same
    function, records it. *)
Theorem ultra_quality_leaves_tweaks_untracked :
  fst (apply_ultra_quality_profile (Machine new_ledger (sample_world ∅)))
  = Return 4%nat
  ∧ self (snd (apply_ultra_quality_profile
                 (Machine new_ledger (sample_world ∅))))
    = new_ledger
  ∧ applied_tweaks
      (self (snd (apply_profile_thread "ultra_quality"
                    (Machine new_ledger (sample_world ∅)))))
    = {[KStr "profile_ultra_quality"]}
  ∧ fst (get_tweak_status "graphics_quality_advanced"
           (snd (apply_profile_thread "ultra_quality"
                   (Machine new_ledger (sample_world ∅)))))
    = Return false
  ∧ fst (get_tweak_status "graphics_quality_advanced"
           (snd (apply_profile_thread "quality"
                   (Machine new_ledger (sample_world ∅)))))
    = Return true.
Proof. repeat split; vm_compute; reflexivity. Qed.

(** * Further properties

    ** Saving and loading *)

Lemma failed_write_other (path p : string) (w : world) :
  p ≠ path → failed_write path w !! p = fs w !! p.
Proof.
  intros Hne. unfold failed_write.
  destruct (torn w path); [by rewrite lookup_insert_ne|done].
Qed.

Lemma failed_write_at (path : string) (w : world) :
  failed_write path w !! path
  = if torn w path then Some Garbage else fs w !! path.
Proof.
  unfold failed_write. destruct (torn w path); [apply lookup_insert_eq|done].
Qed.

(** How [save_tweaks] ends. *)
Lemma save_tweaks_outcome (l : ledger) (w : world) :
  ∃ b w', save_tweaks (Machine l w) = (Return b, Machine l w')
          ∧ b = negb (denied w tweaks_file)
          ∧ (∀ path, path ≠ tweaks_file → fs w' !! path = fs w !! path)
          ∧ (b = true →
             fs w' !! tweaks_file
             = Some (Json (save_data l (strftime w time_format (ticks w)) w)))
          ∧ (b = false →
             fs w' !! tweaks_file
             = if torn w tweaks_file then Some Garbage
               else fs w !! tweaks_file).
Proof.
  destruct (denied w tweaks_file) eqn:Hd.
  - rewrite save_tweaks_denied by done. eexists _, _.
    split; [reflexivity|]. split; [done|]. split; [|split; [done|]].
    + intros path Hne. by apply failed_write_other.
    + intros _. apply failed_write_at.
  - rewrite save_tweaks_ok by done. eexists _, _.
    split; [reflexivity|]. split; [done|]. split; [|split; [|done]].
    + intros path Hne. cbn. by rewrite lookup_insert_ne.
    + intros _. cbn. apply lookup_insert_eq.
Qed.

(** X1. [save_tweaks] never raises and never changes the ledger, and no
    file but the persistence file is touched.  It returns [True] exactly
    when the write goes through, and the file then holds the document of
    the ledger.  When it returns [False] the file is as it was if [open]
    failed; if the write failed after [open], the file exists and is no
    longer a JSON document, so that the state saved before is lost. *)
Theorem save_tweaks_frame (l : ledger) (w : world) :
  ∃ b w', save_tweaks (Machine l w) = (Return b, Machine l w')
          ∧ b = negb (denied w tweaks_file)
          ∧ (∀ path, path ≠ tweaks_file → fs w' !! path = fs w !! path)
          ∧ (b = true →
             fs w' !! tweaks_file
             = Some (Json (save_data l (strftime w time_format (ticks w)) w)))
          ∧ (b = false →
             fs w' !! tweaks_file
             = if torn w tweaks_file then Some Garbage
               else fs w !! tweaks_file).
Proof. apply save_tweaks_outcome. Qed.

(** The ways a load can go. *)
Lemma load_cases (l : ledger) (w : world) :
  (∃ e, load_saved_tweaks (Machine l w)
        = (Return false,
           Machine l (with_shown (shown w ++ [e]) w)))
  ∨ (∃ d s t,
       fs w !! tweaks_file = Some (Json (PDict d))
       ∧ denied w tweaks_file = false
       ∧ py_set (doc_field d "applied_tweaks" (PList [])) = Return s
       ∧ py_tuple (doc_field d "last_resolution"
                     (PList [PInt 1920; PInt 1080])) = Return t)
  ∨ (∃ d s e,
       fs w !! tweaks_file = Some (Json (PDict d))
       ∧ denied w tweaks_file = false
       ∧ py_set (doc_field d "applied_tweaks" (PList [])) = Return s
       ∧ py_tuple (doc_field d "last_resolution"
                     (PList [PInt 1920; PInt 1080])) = Raised e).
Proof.
  destruct (fs w !! tweaks_file) as [c|] eqn:Hf.
  2:{ left. rewrite load_missing by done. by eexists. }
  destruct (denied w tweaks_file) eqn:Hd.
  { left. destruct (load_raises_early l w c Hf) as [e ->]; [by left|].
    by eexists. }
  destruct c as [|v].
  { left. destruct (load_raises_early l w _ Hf) as [e ->]; [by right; left|].
    by eexists. }
  destruct (py_get v "applied_tweaks") as [o|e] eqn:Hg.
  2:{ left. destruct (load_raises_early l w _ Hf) as [e' ->];
        [right; right; left; eauto|]. by eexists. }
  destruct v as [| | | | |d]; try discriminate.
  destruct (py_set (doc_field d "applied_tweaks" (PList []))) as [s|e] eqn:Hs.
  2:{ left. destruct (load_raises_early l w _ Hf) as [e' ->];
        [right; right; right; eauto|]. by eexists. }
  destruct (py_tuple (doc_field d "last_resolution"
                        (PList [PInt 1920; PInt 1080]))) as [t|e] eqn:Ht.
  - right. left. by eexists d, s, t.
  - right. right. by eexists d, s, e.
Qed.

(** X2. A successful load replaces all five fields by what the file gives:
    the ledger it leaves does not depend on the ledger before (nothing is
    merged), and a load that succeeds from one ledger succeeds from any. *)
Theorem load_overwrites (l1 l2 : ledger) (w : world) (m1 : machine) :
  load_saved_tweaks (Machine l1 w) = (Return true, m1) →
  ∃ m2, load_saved_tweaks (Machine l2 w) = (Return true, m2)
        ∧ self m2 = self m1.
Proof.
  intros Hload.
  destruct (load_cases l1 w) as [[e He]|[(d & s & t & Hf & Hd & Hs & Ht)
                                        |(d & s & e & Hf & Hd & Hs & Ht)]].
  - rewrite He in Hload. discriminate.
  - rewrite (load_json l1 w d s t Hf Hd Hs Ht) in Hload.
    injection Hload as <-.
    rewrite (load_json l2 w d s t Hf Hd Hs Ht). by eexists.
  - rewrite (load_raises_late l1 w d s e Hf Hd Hs Ht) in Hload. discriminate.
Qed.

(** [load_overwrites] where the file was written by [save_tweaks]. *)
Lemma load_overwrites_witness :
  load_saved_tweaks
    (Machine new_ledger (saved_world (ledger_with ["A"]) (sample_world ∅)))
  = (Return true,
     snd (load_saved_tweaks
            (Machine new_ledger
                     (saved_world (ledger_with ["A"]) (sample_world ∅)))))
  ∧ ∃ m2, load_saved_tweaks
            (Machine (ledger_with ["B"])
                     (saved_world (ledger_with ["A"]) (sample_world ∅)))
          = (Return true, m2)
          ∧ self m2
            = self (snd (load_saved_tweaks
                           (Machine new_ledger
                              (saved_world (ledger_with ["A"])
                                           (sample_world ∅))))).
Proof.
  split; [vm_compute; reflexivity|].
  apply (load_overwrites new_ledger (ledger_with ["B"])
           (saved_world (ledger_with ["A"]) (sample_world ∅))).
  vm_compute; reflexivity.
Defined.

(** X3. A JSON object with none of the five keys loads successfully and
    puts every field at its default: the ledger becomes the initial one,
    whatever it held. *)
Theorem load_defaults (l : ledger) (w : world) (d : list (string * pyval)) :
  fs w !! tweaks_file = Some (Json (PDict d)) →
  denied w tweaks_file = false →
  (∀ k, k ∈ ["applied_tweaks"; "tweak_history"; "current_profile";
             "last_resolution"; "last_refresh_rate"] →
        dict_lookup k d = None) →
  ∃ w', load_saved_tweaks (Machine l w) = (Return true, Machine new_ledger w').
Proof.
  intros Hf Hd Hnone.
  assert (Hk : ∀ k dflt,
             k ∈ ["applied_tweaks"; "tweak_history"; "current_profile";
                  "last_resolution"; "last_refresh_rate"] →
             doc_field d k dflt = dflt).
  { intros k dflt Hin. unfold doc_field. by rewrite Hnone. }
  rewrite (load_json l w d ∅ [PInt 1920; PInt 1080] Hf Hd).
  - rewrite !Hk by (repeat first [left|right]). by eexists.
  - rewrite Hk by (repeat first [left|right]). reflexivity.
  - rewrite Hk by (repeat first [left|right]). reflexivity.
Qed.

(** [load_defaults] at the empty object. *)
Lemma load_defaults_witness :
  (fs (sample_world {[tweaks_file := Json (PDict [])]}) !! tweaks_file
   = Some (Json (PDict []))
   ∧ denied (sample_world {[tweaks_file := Json (PDict [])]}) tweaks_file
     = false
   ∧ (∀ k, k ∈ ["applied_tweaks"; "tweak_history"; "current_profile";
                "last_resolution"; "last_refresh_rate"] →
           dict_lookup k [] = None))
  ∧ ∃ w', load_saved_tweaks
            (Machine (ledger_with ["A"])
                     (sample_world {[tweaks_file := Json (PDict [])]}))
          = (Return true, Machine new_ledger w').
Proof.
  split; [repeat split; vm_compute; reflexivity|].
  apply (load_defaults (ledger_with ["A"])
           (sample_world {[tweaks_file := Json (PDict [])]}) []).
  - vm_compute; reflexivity.
  - reflexivity.
  - reflexivity.
Defined.

(** X4. [load_saved_tweaks] only reads: whatever the file holds, no file
    is created, changed or removed and the clock is not consulted. *)
Theorem load_reads_only (l : ledger) (w : world) :
  ∃ b m', load_saved_tweaks (Machine l w) = (Return b, m')
          ∧ fs (os m') = fs w
          ∧ ticks (os m') = ticks w.
Proof.
  destruct (load_cases l w) as [[e He]|[(d & s & t & Hf & Hd & Hs & Ht)
                                        |(d & s & e & Hf & Hd & Hs & Ht)]].
  - rewrite He. by eexists _, _.
  - rewrite (load_json l w d s t Hf Hd Hs Ht). by eexists _, _.
  - rewrite (load_raises_late l w d s e Hf Hd Hs Ht). by eexists _, _.
Qed.

(** X5. Loading a document written by [export_tweaks] (an export copied
    over the persistence file) brings back the exported applied set,
    history and profile, but puts [last_resolution] and
    [last_refresh_rate] at their defaults, since an export does not carry
    them. *)
Theorem load_exported_document (l l0 : ledger) (w w0 : world) (ts : string) :
  fs w !! tweaks_file = Some (Json (export_data l ts w0)) →
  denied w tweaks_file = false →
  ∃ m, load_saved_tweaks (Machine l0 w) = (Return true, m)
       ∧ applied_tweaks (self m) = applied_tweaks l
       ∧ tweak_history (self m) = tweak_history l
       ∧ current_profile (self m) = current_profile l
       ∧ last_resolution (self m) = [PInt 1920; PInt 1080]
       ∧ last_refresh_rate (self m) = PInt 60.
Proof.
  intros Hf Hd.
  rewrite (load_json l0 w _ (applied_tweaks l) [PInt 1920; PInt 1080] Hf Hd).
  - eexists. by repeat split.
  - apply py_set_list_of_set.
  - reflexivity.
Qed.

(** [load_exported_document] where the export went to the persistence
    path itself. *)
Lemma load_exported_document_witness :
  (fs (exported_world (ledger_with ["A"]) (sample_world ∅) tweaks_file)
     !! tweaks_file
   = Some (Json (export_data (ledger_with ["A"])
                   "%Y-%m-%d %H:%M:%S@0" (sample_world ∅)))
   ∧ denied (exported_world (ledger_with ["A"]) (sample_world ∅) tweaks_file)
       tweaks_file = false)
  ∧ ∃ m, load_saved_tweaks
           (Machine new_ledger
              (exported_world (ledger_with ["A"]) (sample_world ∅)
                              tweaks_file))
         = (Return true, m)
         ∧ applied_tweaks (self m) = applied_tweaks (ledger_with ["A"])
         ∧ tweak_history (self m) = tweak_history (ledger_with ["A"])
         ∧ current_profile (self m) = current_profile (ledger_with ["A"])
         ∧ last_resolution (self m) = [PInt 1920; PInt 1080]
         ∧ last_refresh_rate (self m) = PInt 60.
Proof.
  split; [split; vm_compute; reflexivity|].
  apply (load_exported_document (ledger_with ["A"]) new_ledger
           (exported_world (ledger_with ["A"]) (sample_world ∅) tweaks_file)
           (sample_world ∅) "%Y-%m-%d %H:%M:%S@0").
  - vm_compute; reflexivity.
  - reflexivity.
Defined.

(** ** Importing and exporting *)

(** X6. [import_tweaks] is all or nothing and never raises: when it
    reports failure the ledger and every file are as before (unlike
    [load_saved_tweaks], it cannot stop half way); in any case only the
    persistence file can change. *)
Theorem import_all_or_nothing (l : ledger) (w : world) (path : string) :
  ∃ b m', import_tweaks path (Machine l w) = (Return b, m')
          ∧ (b = false → self m' = l ∧ fs (os m') = fs w)
          ∧ (∀ p, p ≠ tweaks_file → fs (os m') !! p = fs w !! p).
Proof.
  unfold import_tweaks. run.
  destruct (denied w path); cbn; [by eexists _, _|].
  destruct (fs w !! path) as [[|v]|]; cbn; try by eexists _, _.
  destruct v as [| | | | |d]; cbn; try by eexists _, _.
  destruct (py_set _) as [s|e]; cbn; [|by eexists _, _].
  match goal with
  | |- context [save_tweaks (Machine ?l1 ?w1)] =>
      destruct (save_tweaks_outcome l1 w1) as (b & w' & -> & _ & Hother & _)
  end.
  cbn. eexists _, _. split; [reflexivity|]. split; [done|]. exact Hother.
Qed.

(** How [export_tweaks] ends. *)
Lemma export_tweaks_outcome (l : ledger) (w : world)
    (filename : option string) :
  ∃ b w', export_tweaks filename (Machine l w) = (Return b, Machine l w')
          ∧ b = negb (denied w (export_target filename w))
          ∧ (∀ p, p ≠ export_target filename w → fs w' !! p = fs w !! p)
          ∧ (b = false →
             fs w' !! export_target filename w
             = if torn w (export_target filename w) then Some Garbage
               else fs w !! export_target filename w)
          ∧ (b = true →
             ∃ ts, fs w' !! export_target filename w
                   = Some (Json (export_data l ts w))).
Proof.
  unfold export_tweaks, export_target.
  destruct filename as [f|]; [destruct (negb (String.eqb f "")) eqn:Hf|];
    run;
    match goal with
    | |- context [denied w ?p] =>
        destruct (denied w p) eqn:Hd; [destruct (torn w p) eqn:Ht|]
    end; cbn; eexists _, _; (split; [reflexivity|]);
    repeat split; try done;
    try (intros p Hne; cbn; by rewrite lookup_insert_ne);
    try (intros _; cbn; by rewrite lookup_insert_eq);
    try (intros _; eexists; cbn; apply lookup_insert_eq).
Qed.

(** X7. [export_tweaks] never raises and never changes the ledger, and
    no file but [export_target] is touched.  It returns [True] exactly
    when the write goes through, and the target then holds the export
    document.  When it returns [False] the target is as it was if [open]
    failed; if the write failed after [open], the target exists and is
    not a JSON document, whatever it held before. *)
Theorem export_tweaks_frame (l : ledger) (w : world)
    (filename : option string) :
  ∃ b w', export_tweaks filename (Machine l w) = (Return b, Machine l w')
          ∧ b = negb (denied w (export_target filename w))
          ∧ (∀ p, p ≠ export_target filename w → fs w' !! p = fs w !! p)
          ∧ (b = false →
             fs w' !! export_target filename w
             = if torn w (export_target filename w) then Some Garbage
               else fs w !! export_target filename w)
          ∧ (b = true →
             ∃ ts, fs w' !! export_target filename w
                   = Some (Json (export_data l ts w))).
Proof. apply export_tweaks_outcome. Qed.

(** X8. Without a file name ([None], the default, or an empty string)
    [export_tweaks] picks the name itself: both calls behave alike and the
    file is [frog_tech_tweaks_export_<time>.json] for the time of the
    call. *)
Theorem export_default_name (l : ledger) (w : world) :
  export_tweaks None (Machine l w) = export_tweaks (Some "") (Machine l w)
  ∧ export_target None w
    = "frog_tech_tweaks_export_"
      ++ strftime w "%Y%m%d_%H%M%S" (ticks w) ++ ".json"
  ∧ (denied w (export_target None w) = false →
     ∃ m' ts, export_tweaks None (Machine l w) = (Return true, m')
              ∧ fs (os m') !! export_target None w
                = Some (Json (export_data l ts w))).
Proof.
  split; [reflexivity|]. split; [reflexivity|].
  intros Hd.
  destruct (export_tweaks_outcome l w None) as (b & w' & -> & -> & _ & _ & Hw).
  rewrite Hd in *. cbn in Hw. destruct (Hw eq_refl) as [ts Hts].
  by eexists _, ts.
Qed.

(** [export_default_name] where every path can be written. *)
Lemma export_default_name_witness :
  export_tweaks None (Machine (ledger_with ["A"]) (sample_world ∅))
  = export_tweaks (Some "") (Machine (ledger_with ["A"]) (sample_world ∅))
  ∧ export_target None (sample_world ∅)
    = "frog_tech_tweaks_export_"
      ++ strftime (sample_world ∅) "%Y%m%d_%H%M%S" (ticks (sample_world ∅))
      ++ ".json"
  ∧ (denied (sample_world ∅) (export_target None (sample_world ∅)) = false →
     ∃ m' ts, export_tweaks None
                (Machine (ledger_with ["A"]) (sample_world ∅))
              = (Return true, m')
              ∧ fs (os m') !! export_target None (sample_world ∅)
                = Some (Json (export_data (ledger_with ["A"]) ts
                                          (sample_world ∅)))).
Proof.
  apply (export_default_name (ledger_with ["A"]) (sample_world ∅)).
Defined.

(** ** Tracking and status *)

(** X9. After [track_tweak name True], [get_tweak_status] answers [True]
    for [name] and answers as before for every other name; asking changes
    nothing. *)
Theorem status_after_track (l : ledger) (w : world) (items : list pyval)
    (name name' : string) :
  tweak_history l = PList items →
  ∃ m1, track_tweak name true (Machine l w) = (Return (), m1)
        ∧ get_tweak_status name' m1
          = (Return (bool_decide (name' = name)
                     || bool_decide (KStr name' ∈ applied_tweaks l)), m1).
Proof.
  intros Hh. rewrite (track_tweak_true l w items name Hh).
  match goal with
  | |- context [save_tweaks (Machine ?l1 ?w1)] =>
      destruct (save_tweaks_total l1 w1) as (b & w' & -> & _)
  end.
  eexists. split; [reflexivity|].
  unfold get_tweak_status. run. f_equal. f_equal.
  destruct (decide (name' = name)) as [->|Hne].
  - rewrite (bool_decide_eq_true_2 (name = name)) by done. cbn.
    apply bool_decide_eq_true_2.
    apply elem_of_union_l, elem_of_singleton_2. reflexivity.
  - rewrite (bool_decide_eq_false_2 (name' = name)) by done. cbn.
    apply bool_decide_ext. rewrite elem_of_union, elem_of_singleton.
    split; [intros [[=]|]; done|by right].
Qed.

(** [status_after_track] on the fresh ledger. *)
Lemma status_after_track_witness :
  tweak_history new_ledger = PList []
  ∧ ∃ m1, track_tweak "disable_telemetry" true
            (Machine new_ledger (sample_world ∅)) = (Return (), m1)
          ∧ get_tweak_status "disable_cortana" m1
            = (Return (bool_decide ("disable_cortana" = "disable_telemetry")
                       || bool_decide (KStr "disable_cortana"
                                       ∈ applied_tweaks new_ledger)), m1).
Proof.
  split; [reflexivity|].
  apply (status_after_track new_ledger (sample_world ∅) []
           "disable_telemetry" "disable_cortana").
  reflexivity.
Defined.

(** X10. What [track_tweak] records survives a restart: when the
    persistence file can be written, loading it afterwards, into any
    ledger, gives exactly the ledger the call left. *)
Theorem track_then_load (l l0 : ledger) (w : world) (items : list pyval)
    (name : string) :
  tweak_history l = PList items →
  denied w tweaks_file = false →
  ∃ m1 m2, track_tweak name true (Machine l w) = (Return (), m1)
           ∧ load_saved_tweaks (Machine l0 (os m1)) = (Return true, m2)
           ∧ self m2 = self m1
           ∧ KStr name ∈ applied_tweaks (self m2).
Proof.
  intros Hh Hd. rewrite (track_tweak_true l w items name Hh).
  rewrite save_tweaks_ok by done. cbn.
  eexists _, _. split; [reflexivity|]. split.
  - eapply load_json.
    + cbn. apply lookup_insert_eq.
    + exact Hd.
    + cbn. apply py_set_list_of_set.
    + reflexivity.
  - cbn. split; [reflexivity|].
    apply elem_of_union_l, elem_of_singleton_2. reflexivity.
Qed.

(** [track_then_load]: no file yet, one tweak tracked, a new process
    loads. *)
Lemma track_then_load_witness :
  (tweak_history new_ledger = PList []
   ∧ denied (sample_world ∅) tweaks_file = false)
  ∧ ∃ m1 m2, track_tweak "disable_telemetry" true
               (Machine new_ledger (sample_world ∅)) = (Return (), m1)
             ∧ load_saved_tweaks (Machine new_ledger (os m1))
               = (Return true, m2)
             ∧ self m2 = self m1
             ∧ KStr "disable_telemetry" ∈ applied_tweaks (self m2).
Proof.
  split; [split; reflexivity|].
  apply (track_then_load new_ledger new_ledger (sample_world ∅) []
           "disable_telemetry"); reflexivity.
Defined.

(** X11. On a ledger whose history is not a list (a persistence file can
    put any JSON value there), [track_tweak name True] raises
    [AttributeError]: the name is already in the applied set, the history
    is untouched, and nothing is saved. *)
Theorem track_raises_without_list (l : ledger) (w : world) (name : string) :
  (∀ items, tweak_history l ≠ PList items) →
  ∃ l', track_tweak name true (Machine l w)
        = (Raised AttributeError, Machine l' w)
        ∧ applied_tweaks l' = {[KStr name]} ∪ applied_tweaks l
        ∧ tweak_history l' = tweak_history l.
Proof.
  intros Hno. rewrite track_tweak_no_list.
  - eexists. by repeat split.
  - destruct (tweak_history l); try reflexivity. by destruct (Hno l0).
Qed.

(** [track_raises_without_list] after a file gave the history a number. *)
Lemma track_raises_without_list_witness :
  (∀ items,
     tweak_history {| applied_tweaks := ∅; tweak_history := PInt 5;
                      current_profile := PNone;
                      last_resolution := [PInt 1920; PInt 1080];
                      last_refresh_rate := PInt 60 |} ≠ PList items)
  ∧ ∃ l', track_tweak "disable_telemetry" true
            (Machine {| applied_tweaks := ∅; tweak_history := PInt 5;
                        current_profile := PNone;
                        last_resolution := [PInt 1920; PInt 1080];
                        last_refresh_rate := PInt 60 |} (sample_world ∅))
          = (Raised AttributeError, Machine l' (sample_world ∅))
          ∧ applied_tweaks l' = {[KStr "disable_telemetry"]} ∪ ∅
          ∧ tweak_history l' = PInt 5.
Proof.
  split; [intros items; discriminate|].
  apply (track_raises_without_list
           {| applied_tweaks := ∅; tweak_history := PInt 5;
              current_profile := PNone;
              last_resolution := [PInt 1920; PInt 1080];
              last_refresh_rate := PInt 60 |} (sample_world ∅)
           "disable_telemetry").
  intros items; discriminate.
Defined.

(** ** Clearing *)

(** Both clear functions, with the answer [clear_saved_tweaks] gets. *)
Lemma clear_cases (l : ledger) (w : world) (result : bool) :
  ∀ f, f = clear_saved_tweaks_old ∨ f = clear_saved_tweaks result →
       ∃ b l' w', f (Machine l w) = (Return b, Machine l' w')
                  ∧ last_resolution l' = last_resolution l
                  ∧ last_refresh_rate l' = last_refresh_rate l
                  ∧ (∀ p, p ≠ tweaks_file → fs w' !! p = fs w !! p).
Proof.
  intros f [-> | ->].
  - unfold clear_saved_tweaks_old, remove_tweaks_file, clear_fields. run.
    destruct (bool_decide _); cbn.
    + destruct (denied w tweaks_file); cbn; [by eexists _, _, _|].
      destruct (fs w !! tweaks_file); cbn; [|by eexists _, _, _].
      destruct (py_clear (tweak_history l)); cbn; eexists _, _, _;
        (split; [reflexivity|]); repeat split;
        intros p Hne; cbn; by rewrite lookup_delete_ne.
    + destruct (py_clear (tweak_history l)); cbn; by eexists _, _, _.
  - unfold clear_saved_tweaks, remove_tweaks_file, clear_fields,
      update_tweak_status. destruct result; run; [|by eexists _, _, _].
    destruct (bool_decide _); cbn.
    + destruct (denied w tweaks_file); cbn; [by eexists _, _, _|].
      destruct (fs w !! tweaks_file); cbn; [|by eexists _, _, _].
      destruct (py_clear (tweak_history l)); cbn; eexists _, _, _;
        (split; [reflexivity|]); repeat split;
        intros p Hne; cbn; by rewrite lookup_delete_ne.
    + destruct (py_clear (tweak_history l)); cbn; by eexists _, _, _.
Qed.

(** X12. Clearing never raises, keeps [last_resolution] and
    [last_refresh_rate], and touches no file but the persistence file;
    this holds for both clear functions, whatever the answer to the
    question and whether or not the removal works. *)
Theorem clear_frame (l : ledger) (w : world) (result : bool) :
  (∃ b l' w', clear_saved_tweaks_old (Machine l w)
              = (Return b, Machine l' w')
              ∧ last_resolution l' = last_resolution l
              ∧ last_refresh_rate l' = last_refresh_rate l
              ∧ (∀ p, p ≠ tweaks_file → fs w' !! p = fs w !! p))
  ∧ (∃ b l' w', clear_saved_tweaks result (Machine l w)
                = (Return b, Machine l' w')
                ∧ last_resolution l' = last_resolution l
                ∧ last_refresh_rate l' = last_refresh_rate l
                ∧ (∀ p, p ≠ tweaks_file → fs w' !! p = fs w !! p)).
Proof.
  split; apply (clear_cases l w result); [by left|by right].
Qed.

(** What a [clear_saved_tweaks_old] that goes through leaves. *)
Lemma clear_old_succeeds (l : ledger) (w : world)
    (items : list pyval) :
  tweak_history l = PList items →
  fs w !! tweaks_file = None ∨ denied w tweaks_file = false →
  ∃ m', clear_saved_tweaks_old (Machine l w) = (Return true, m')
        ∧ cleared m'.
Proof.
  intros Hh Hok. unfold clear_saved_tweaks_old. unfold_m.
  rewrite remove_tweaks_file_ok by done.
  rewrite (clear_fields_list _ _ items) by done.
  run. eexists. split; [reflexivity|].
  unfold cleared. cbn. repeat split. apply lookup_delete_eq.
Qed.

(** X13. After a clear that went through, nothing is reported as applied,
    and a later load finds no file: it reports failure and leaves the
    ledger it is called on as it is. *)
Theorem clear_then_load (l l0 : ledger) (w : world) (items : list pyval)
    (name : string) :
  tweak_history l = PList items →
  fs w !! tweaks_file = None ∨ denied w tweaks_file = false →
  ∃ m', clear_saved_tweaks_old (Machine l w) = (Return true, m')
        ∧ fst (get_tweak_status name m') = Return false
        ∧ ∃ w2, load_saved_tweaks (Machine l0 (os m'))
                = (Return false, Machine l0 w2).
Proof.
  intros Hh Hok.
  destruct (clear_old_succeeds l w items Hh Hok)
    as (m' & Hclear & Happ & _ & _ & Hfile).
  exists m'. split; [exact Hclear|]. split.
  - unfold get_tweak_status. run. rewrite Happ.
    by rewrite bool_decide_eq_false_2 by apply not_elem_of_empty.
  - rewrite load_missing by done. by eexists.
Qed.

(** [clear_then_load] with a persistence file that can be removed. *)
Lemma clear_then_load_witness :
  (tweak_history (ledger_with ["A"]) = PList []
   ∧ (fs (sample_world {[tweaks_file := Garbage]}) !! tweaks_file = None
      ∨ denied (sample_world {[tweaks_file := Garbage]}) tweaks_file = false))
  ∧ ∃ m', clear_saved_tweaks_old
            (Machine (ledger_with ["A"])
                     (sample_world {[tweaks_file := Garbage]}))
          = (Return true, m')
          ∧ fst (get_tweak_status "A" m') = Return false
          ∧ ∃ w2, load_saved_tweaks (Machine new_ledger (os m'))
                  = (Return false, Machine new_ledger w2).
Proof.
  split; [split; [reflexivity|right; reflexivity]|].
  apply (clear_then_load (ledger_with ["A"]) new_ledger
           (sample_world {[tweaks_file := Garbage]}) [] "A").
  - reflexivity.
  - right. reflexivity.
Defined.

(** ** The applied set and the history agree

    [track_tweak] adds a name to the set and an entry to the history
    together, and a clear empties both; as long as every JSON file around
    was written by the program, the set therefore holds exactly the names
    that have a history entry. *)

Lemma preserves_ret {A} (a : A) : preserves (ret a).
Proof. by intros m Hm. Qed.

Lemma preserves_bind {A B} (c : M A) (k : A → M B) :
  preserves c → (∀ a, preserves (k a)) → preserves (bind c k).
Proof.
  intros Hc Hk m Hm. unfold bind. specialize (Hc m Hm).
  destruct (c m) as [[a|e] m']; cbn in *; [by apply Hk|done].
Qed.

Lemma preserves_try_except {A} (c : M A) (h : exn → M A) :
  preserves c → (∀ e, preserves (h e)) → preserves (try_except c h).
Proof.
  intros Hc Hh m Hm. unfold try_except. specialize (Hc m Hm).
  destruct (c m) as [[a|e] m']; cbn in *; [done|by apply Hh].
Qed.

Lemma preserves_guarded {A} (c : M A) (n : nat) (k : A → M nat) :
  preserves c → (∀ a, preserves (k a)) → preserves (guarded c n k).
Proof.
  intros Hc Hk m Hm. unfold guarded. specialize (Hc m Hm).
  destruct (c m) as [[a|e] m']; cbn in *; [by apply Hk|done].
Qed.

Lemma preserves_show (msg : message) : preserves (show msg).
Proof. intros [l w] [Hc Hf]. by split. Qed.

Lemma preserves_call_tweak (f : tweak_fn) : preserves (call_tweak f).
Proof. by intros m Hm. Qed.

Lemma preserves_set_current_profile (p : pyval) :
  preserves (set_current_profile p).
Proof. intros [l w] [Hc Hf]. by split. Qed.

(** The lines of the profile report. *)
Lemma writes_only_show (msg : message) :
  writes_only (show msg) (verdicts [msg]).
Proof. intros l w. by exists [msg]. Qed.

Lemma writes_only_seq (c k : M unit) (a b : list message) :
  writes_only c a → writes_only k b → writes_only (c;; k) (a ++ b)%list.
Proof.
  intros Hc Hk l w. unfold bind.
  destruct (Hc l w) as (ms1 & -> & <-).
  destruct (Hk l (with_shown (shown w ++ ms1) w)) as (ms2 & -> & <-).
  exists (ms1 ++ ms2)%list. split.
  - unfold with_shown. cbn. by rewrite (assoc_L app).
  - unfold verdicts. by rewrite omap_app.
Qed.

Lemma writes_only_lines (lines : list string) :
  writes_only (show_lines lines) [].
Proof.
  induction lines as [|line rest IH].
  - intros l w. exists []. split; [|done].
    unfold with_shown. rewrite app_nil_r. by destruct w.
  - apply (writes_only_seq _ _ [] []); [apply writes_only_show|exact IH].
Qed.

Lemma writes_only_system_status : writes_only show_system_status [].
Proof.
  intros l w. unfold show_system_status, bind at 1, get_os. cbn [self os].
  destruct (psutil w) as [|e|cpu_percent memory_percent disk_percent].
  - apply writes_only_lines.
  - apply writes_only_show.
  - apply (writes_only_seq _ _ [] []); [apply writes_only_show|].
    apply (writes_only_seq _ _ [] []); [apply writes_only_show|].
    apply (writes_only_seq _ _ [] []); [apply writes_only_show|].
    destruct (_ && _); apply writes_only_lines.
Qed.

Lemma writes_only_profile_results (profile : string) (n : nat) :
  writes_only (show_profile_results profile n) [MsgProfileReport n].
Proof.
  unfold show_profile_results.
  apply (writes_only_seq _ _ [] [MsgProfileReport n]); [apply writes_only_lines|].
  apply (writes_only_seq _ _ [] [MsgProfileReport n]).
  { repeat (destruct (String.eqb profile _); [apply writes_only_lines|]).
    apply writes_only_lines. }
  apply (writes_only_seq _ _ [] [MsgProfileReport n]); [apply writes_only_lines|].
  apply (writes_only_seq _ _ [] [MsgProfileReport n]); [apply writes_only_lines|].
  apply (writes_only_seq _ _ [] [MsgProfileReport n]); [apply writes_only_system_status|].
  apply (writes_only_seq _ _ [MsgProfileReport n] []); [apply writes_only_show|].
  apply (writes_only_seq _ _ [] []); [apply writes_only_lines|].
  apply (writes_only_seq _ _ [] []); [apply writes_only_show|].
  intros l w. unfold is_admin, bind at 1, bind at 1, get_os, ret.
  cbn [self os]. destruct (admin w); apply writes_only_lines.
Qed.

Lemma preserves_writes_only (c : M unit) (ends : list message) :
  writes_only c ends → preserves c.
Proof.
  intros Hc [l w] [Hl Hf]. destruct (Hc l w) as (msgs & -> & _). by split.
Qed.

Lemma consistent_tracked (l : ledger) (entries : list (string * string))
    (name ts : string) :
  tweak_history l = entries_history entries →
  applied_tweaks l = list_to_set (KStr <$> (fst <$> entries)) →
  consistent (tracked l ((λ e, history_entry (fst e) (snd e)) <$> entries)
                      name ts).
Proof.
  intros Hh Ha. exists (app entries [(name, ts)]). split.
  - cbn. unfold entries_history. by rewrite fmap_app.
  - cbn. rewrite Ha, !fmap_app, list_to_set_app_L. cbn.
    rewrite union_empty_r_L. apply (comm_L (∪)).
Qed.

Lemma good_document_save_data (l : ledger) (ts : string) (w : world) :
  consistent l → good_document (save_data l ts w).
Proof.
  intros (entries & Hh & Ha) s Hs.
  change (py_set (PList (py_list_of_set (applied_tweaks l))) = Return s) in Hs.
  rewrite py_set_list_of_set in Hs. injection Hs as <-.
  exists entries. split; [exact Hh|exact Ha].
Qed.

Lemma good_document_export_data (l : ledger) (ts : string) (w : world) :
  consistent l → good_document (export_data l ts w).
Proof.
  intros (entries & Hh & Ha) s Hs.
  change (py_set (PList (py_list_of_set (applied_tweaks l))) = Return s) in Hs.
  rewrite py_set_list_of_set in Hs. injection Hs as <-.
  exists entries. split; [exact Hh|exact Ha].
Qed.

Lemma files_consistent_insert (w : world) (path : string) (v : pyval)
    (files : gmap string fcontent) :
  files_consistent w → good_document v →
  (∀ p, p ≠ path → files !! p = fs w !! p) →
  files !! path = Some (Json v) →
  ∀ p v', files !! p = Some (Json v') → good_document v'.
Proof.
  intros Hf Hv Hother Hpath p v' Hp.
  destruct (decide (p = path)) as [->|Hne].
  - rewrite Hpath in Hp. by injection Hp as <-.
  - rewrite Hother in Hp by done. by eapply Hf.
Qed.

(** A failed write leaves no new JSON document. *)
Lemma files_consistent_failed (w : world) (path : string)
    (files : gmap string fcontent) :
  files_consistent w →
  (∀ p, p ≠ path → files !! p = fs w !! p) →
  files !! path = (if torn w path then Some Garbage else fs w !! path) →
  ∀ p v', files !! p = Some (Json v') → good_document v'.
Proof.
  intros Hf Hother Hpath p v' Hp.
  destruct (decide (p = path)) as [->|Hne].
  - rewrite Hpath in Hp. destruct (torn w path); [done|]. by eapply Hf.
  - rewrite Hother in Hp by done. by eapply Hf.
Qed.

Lemma preserves_save_tweaks : preserves save_tweaks.
Proof.
  intros [l w] [Hc Hf]. cbn in Hc, Hf.
  destruct (denied w tweaks_file) eqn:Hd.
  - rewrite save_tweaks_denied by done. split; [done|]. cbn.
    intros p v'. cbn.
    apply (files_consistent_failed w tweaks_file); [done| |].
    + intros p' Hne. by apply failed_write_other.
    + apply failed_write_at.
  - rewrite save_tweaks_ok by done. split; [done|]. cbn.
    intros p v'. cbn.
    eapply (files_consistent_insert w tweaks_file); [done| | |].
    + by apply good_document_save_data.
    + intros p' Hne. by rewrite lookup_insert_ne.
    + apply lookup_insert_eq.
Qed.

Lemma preserves_track_tweak (name : string) (success : bool) :
  preserves (track_tweak name success).
Proof.
  destruct success; [|by intros m Hm].
  intros [l w] [(entries & Hh & Ha) Hf]. cbn in Hh, Ha, Hf.
  rewrite (track_tweak_true l w _ name Hh).
  apply preserves_save_tweaks. split; [|done].
  by apply consistent_tracked.
Qed.

Lemma preserves_load_saved_tweaks : preserves load_saved_tweaks.
Proof.
  intros [l w] [Hc Hf]. cbn in Hc, Hf.
  destruct (load_cases l w) as [[e He]|[(d & s & t & Hd & Hden & Hs & Ht)
                                        |(d & s & e & Hd & Hden & Hs & Ht)]].
  - rewrite He. by split.
  - rewrite (load_json l w d s t Hd Hden Hs Ht). split; [|done].
    destruct (Hf _ _ Hd s Hs) as (entries & Hh & ->). by exists entries.
  - rewrite (load_raises_late l w d s e Hd Hden Hs Ht). split; [|done].
    destruct (Hf _ _ Hd s Hs) as (entries & Hh & ->). by exists entries.
Qed.

Lemma import_cases (l : ledger) (w : world) (path : string) :
  (∃ e, import_tweaks path (Machine l w)
        = (Return false, Machine l (with_shown (shown w ++ [e]) w)))
  ∨ (∃ d s, fs w !! path = Some (Json (PDict d))
            ∧ denied w path = false
            ∧ py_set (doc_field d "applied_tweaks" (PList [])) = Return s).
Proof.
  destruct (denied w path) eqn:Hden.
  { left. unfold import_tweaks. run. rewrite Hden. by eexists. }
  destruct (fs w !! path) as [[|v]|] eqn:Hf.
  1,3: left; unfold import_tweaks; run; rewrite Hden, Hf; by eexists.
  destruct v as [| | | | |d].
  1-5: left; unfold import_tweaks; run; rewrite Hden, Hf; by eexists.
  destruct (py_set (doc_field d "applied_tweaks" (PList []))) as [s|e] eqn:Hs.
  - right. by eexists d, s.
  - left. unfold import_tweaks. run. rewrite Hden, Hf. cbn.
    unfold doc_field in Hs. rewrite Hs. by eexists.
Qed.

Lemma preserves_import_tweaks (path : string) : preserves (import_tweaks path).
Proof.
  intros [l w] [Hc Hf]. cbn in Hc, Hf.
  destruct (import_cases l w path) as [[e ->]|(d & s & Hd & Hden & Hs)];
    [by split|].
  destruct (import_tweaks_ok l w path d s Hd Hden Hs) as (b & w' & Hsave & ->).
  assert (Hinv : ledger_invariant (Machine (imported l d s) w)).
  { split; [|done]. destruct (Hf _ _ Hd s Hs) as (entries & Hh & ->).
    by exists entries. }
  apply preserves_save_tweaks in Hinv. rewrite Hsave in Hinv.
  destruct Hinv as [? ?]. by split.
Qed.

Lemma preserves_export_tweaks (filename : option string) :
  preserves (export_tweaks filename).
Proof.
  intros [l w] [Hc Hf]. cbn in Hc, Hf.
  destruct (export_tweaks_outcome l w filename)
    as (b & w' & -> & Hb & Hother & Hfail & Hok).
  split; [done|]. cbn. destruct b.
  - destruct (Hok eq_refl) as [ts Hts]. intros p v'.
    eapply (files_consistent_insert w (export_target filename w));
      [done| |done|done].
    by apply good_document_export_data.
  - intros p v'.
    by apply (files_consistent_failed w (export_target filename w));
      [|exact Hother|apply Hfail].
Qed.

Lemma consistent_history_list (l : ledger) :
  consistent l → ∃ items, tweak_history l = PList items.
Proof. intros (entries & Hh & _). by eexists. Qed.

Lemma files_consistent_delete (w : world) (files : gmap string fcontent) :
  files_consistent w →
  (∀ p, p ≠ tweaks_file → files !! p = fs w !! p) →
  files !! tweaks_file = None →
  ∀ p v, files !! p = Some (Json v) → good_document v.
Proof.
  intros Hf Hother Hnone p v Hp.
  destruct (decide (p = tweaks_file)) as [->|Hne]; [congruence|].
  rewrite Hother in Hp by done. by eapply Hf.
Qed.

Lemma preserves_clearing {A} (tail : M A) :
  preserves tail →
  preserves (bind remove_tweaks_file (λ _, bind clear_fields (λ _, tail))).
Proof.
  intros Htail [l w] [Hc Hf]. cbn in Hc, Hf.
  destruct (consistent_history_list l Hc) as [items Hh].
  unfold bind at 1.
  destruct (fs w !! tweaks_file) as [c|] eqn:Hfile;
    [destruct (denied w tweaks_file) eqn:Hden|].
  - rewrite (remove_tweaks_file_denied l w c) by done. by split.
  - rewrite remove_tweaks_file_ok by (by right).
    unfold bind. rewrite (clear_fields_list _ _ items) by done.
    apply Htail. split; [by exists []|]. intros p v. cbn.
    apply (files_consistent_delete w (delete tweaks_file (fs w)));
      [done| |apply lookup_delete_eq].
    intros p' Hne. by rewrite lookup_delete_ne.
  - rewrite remove_tweaks_file_ok by (by left).
    unfold bind. rewrite (clear_fields_list _ _ items) by done.
    apply Htail. split; [by exists []|]. intros p v. cbn.
    apply (files_consistent_delete w (delete tweaks_file (fs w)));
      [done| |apply lookup_delete_eq].
    intros p' Hne. by rewrite lookup_delete_ne.
Qed.

Lemma preserves_clear_saved_tweaks_old : preserves clear_saved_tweaks_old.
Proof.
  apply preserves_try_except.
  - apply preserves_clearing.
    apply preserves_bind; [apply preserves_show|]. intros _.
    apply preserves_ret.
  - intros e. apply preserves_bind; [apply preserves_show|]. intros _.
    apply preserves_ret.
Qed.

Lemma preserves_update_tweak_status : preserves update_tweak_status.
Proof. intros [l w] [Hc Hf]. by split. Qed.

Lemma preserves_clear_saved_tweaks (result : bool) :
  preserves (clear_saved_tweaks result).
Proof.
  apply preserves_try_except.
  - apply preserves_bind; [|intros _; apply preserves_ret].
    destruct result; [|apply preserves_ret].
    apply preserves_clearing.
    apply preserves_bind; [apply preserves_update_tweak_status|]. intros _.
    apply preserves_bind; [apply preserves_show|]. intros _.
    apply preserves_show.
  - intros e. apply preserves_bind; [apply preserves_show|]. intros _.
    apply preserves_ret.
Qed.

Lemma preserves_run_steps (steps : list step) :
  ∀ n, preserves (run_steps steps n).
Proof.
  induction steps as [|st rest IH]; intros n; [apply preserves_ret|].
  cbn [run_steps]. apply preserves_guarded; [|intros a; apply IH].
  apply preserves_bind; [apply preserves_call_tweak|]. intros [|];
    [|apply preserves_ret].
  apply preserves_bind; [apply preserves_show|]. intros _.
  apply preserves_bind; [|intros _; apply preserves_ret].
  destruct (step_track st); [apply preserves_track_tweak|apply preserves_ret].
Qed.

Lemma preserves_profile_function (profile : string) :
  preserves (profile_function profile).
Proof.
  unfold profile_function.
  repeat (destruct (String.eqb profile _); [apply preserves_run_steps|]).
  destruct (String.eqb profile _); [|apply preserves_ret].
  apply preserves_guarded; [apply preserves_run_steps|].
  intros n. apply preserves_run_steps.
Qed.

Lemma preserves_apply_profile_thread (profile : string) :
  preserves (apply_profile_thread profile).
Proof.
  apply preserves_try_except; [|intros e; apply preserves_show].
  apply preserves_bind; [apply preserves_set_current_profile|]. intros _.
  apply preserves_bind; [apply preserves_profile_function|]. intros n.
  apply preserves_bind; [apply preserves_track_tweak|]. intros _.
  eapply preserves_writes_only, writes_only_profile_results.
Qed.

Lemma run_op_invariant (op : ledger_op) (m : machine) :
  ledger_invariant m → ledger_invariant (run_op op m).
Proof.
  destruct op; cbn.
  - apply preserves_track_tweak.
  - apply preserves_save_tweaks.
  - apply preserves_load_saved_tweaks.
  - done.
  - apply preserves_clear_saved_tweaks_old.
  - apply preserves_clear_saved_tweaks.
  - apply preserves_export_tweaks.
  - apply preserves_import_tweaks.
  - apply preserves_apply_profile_thread.
Qed.

(** X14. Start from a ledger whose applied set holds exactly the names
    that have a history entry (the fresh ledger is one), with every JSON
    file around being one the program wrote (or any that loads a
    consistent pair).  Then after any sequence of tracking, saving,
    loading, status queries, clearing, exporting, importing and profile
    applications the applied set still holds exactly the names the history
    has entries for, the history is a list of entries marked successful,
    and the files are still of that kind. *)
Theorem applied_matches_history (ops : list ledger_op) (m : machine) :
  consistent (self m) →
  files_consistent (os m) →
  consistent (self (run_ops ops m)) ∧ files_consistent (os (run_ops ops m)).
Proof.
  intros Hc Hf. assert (Hm : ledger_invariant m) by (by split).
  clear Hc Hf. revert m Hm.
  induction ops as [|op ops IH]; intros m Hm; [exact Hm|].
  cbn. apply IH. by apply run_op_invariant.
Qed.

(** [applied_matches_history] from the fresh ledger with no file. *)
Lemma applied_matches_history_witness :
  (consistent (self (Machine new_ledger (sample_world ∅)))
   ∧ files_consistent (os (Machine new_ledger (sample_world ∅))))
  ∧ consistent
      (self (run_ops [OpLoad; OpApplyProfile "balanced";
                      OpTrack "disable_dwm" true; OpExport None;
                      OpClear false; OpImport "backup.json"; OpSave]
               (Machine new_ledger (sample_world ∅))))
  ∧ files_consistent
      (os (run_ops [OpLoad; OpApplyProfile "balanced";
                    OpTrack "disable_dwm" true; OpExport None;
                    OpClear false; OpImport "backup.json"; OpSave]
             (Machine new_ledger (sample_world ∅)))).
Proof.
  assert (Hc : consistent (self (Machine new_ledger (sample_world ∅)))).
  { exists []. split; reflexivity. }
  assert (Hf : files_consistent (os (Machine new_ledger (sample_world ∅)))).
  { intros path v Hp. cbn in Hp. by rewrite lookup_empty in Hp. }
  split; [by split|].
  apply (applied_matches_history
           [OpLoad; OpApplyProfile "balanced"; OpTrack "disable_dwm" true;
            OpExport None; OpClear false; OpImport "backup.json"; OpSave]
           (Machine new_ledger (sample_world ∅)) Hc Hf).
Defined.

(** ** Profiles *)

Lemma tracked_names_cons (w : world) (st : step) (steps : list step) :
  tracked_names w (st :: steps)
  = (if tweak_result w (step_fn st)
     then match step_track st with
          | Some name => name :: tracked_names w steps
          | None => tracked_names w steps
          end
     else tracked_names w steps).
Proof.
  unfold tracked_names. rewrite filter_cons.
  destruct (tweak_result w (step_fn st)); case_decide; try done.
Qed.

Lemma tracked_names_ext (w w' : world) (steps : list step) :
  tweak_result w' = tweak_result w →
  tracked_names w' steps = tracked_names w steps.
Proof. unfold tracked_names. by intros ->. Qed.

Lemma tracked_names_app (w : world) (a b : list step) :
  tracked_names w (a ++ b) = (tracked_names w a ++ tracked_names w b)%list.
Proof. unfold tracked_names. by rewrite filter_app, omap_app. Qed.

(** What a profile body does to the ledger. *)
Lemma run_steps_effect (steps : list step) :
  ∀ (n : nat) (l : ledger) (w : world) (items : list pyval),
    tweak_history l = PList items →
    ∃ l' w' stamps,
      run_steps steps n (Machine l w)
      = (Return (n + successes w steps)%nat, Machine l' w')
      ∧ tweak_result w' = tweak_result w
      ∧ length stamps = length (tracked_names w steps)
      ∧ applied_tweaks l'
        = applied_tweaks l ∪ list_to_set (KStr <$> tracked_names w steps)
      ∧ tweak_history l'
        = PList (items ++ zip_with history_entry (tracked_names w steps) stamps)
      ∧ current_profile l' = current_profile l
      ∧ last_resolution l' = last_resolution l
      ∧ last_refresh_rate l' = last_refresh_rate l
      ∧ denied w' = denied w.
Proof.
  induction steps as [|st rest IH]; intros n l w items Hh.
  - exists l, w, []. cbn. unfold ret, successes, tracked_names. cbn.
    rewrite Nat.add_0_r, app_nil_r, union_empty_r_L. by repeat split.
  - cbn [run_steps]. unfold guarded, step_body.
    rewrite successes_cons, tracked_names_cons.
    unfold_ops. unfold_m. cbn -[track_tweak run_steps save_tweaks].
    destruct (tweak_result w (step_fn st)) eqn:Hok.
    2:{ destruct (IH n l w items Hh)
          as (l' & w' & stamps & -> & ?). by exists l', w', stamps. }
    destruct (step_track st) as [name0|] eqn:Htrack.
    + rewrite (track_tweak_true l _ items name0 Hh).
      match goal with
      | |- context [save_tweaks (Machine ?l1 ?w1)] =>
          destruct (save_tweaks_total l1 w1) as (b & w1' & -> & Hres & Hden);
          destruct (IH (S n) l1 w1' _ eq_refl)
            as (l' & w' & stamps & HIH & Hres' & Hlen & Ha & Hh' & Hp & Hr
                & Hf & Hden')
      end.
      cbn -[run_steps successes tracked_names] in HIH, Hres, Ha, Hh', Hp,
        Hr, Hf, Hden |- *.
      rewrite HIH.
      rewrite (tracked_names_ext w w1') in * by (by rewrite Hres).
      eexists l', w', (_ :: stamps).
      split; [|split; [|split; [|split; [|split]]]].
      * rewrite (successes_ext w w1') by (by rewrite Hres).
        do 2 f_equal. lia.
      * congruence.
      * cbn. by rewrite Hlen.
      * rewrite Ha. cbn [fmap list_fmap list_to_set foldr].
        rewrite (comm_L (∪) {[KStr name0]} (applied_tweaks l)).
        by rewrite (assoc_L (∪)).
      * rewrite Hh'. cbn [zip_with]. by rewrite <- app_assoc.
      * repeat split; [done..|]. by rewrite Hden'.
    + cbn.
      match goal with
      | |- context [run_steps rest (S n) (Machine l ?w1)] =>
          destruct (IH (S n) l w1 items Hh)
            as (l' & w' & stamps & HIH & Hres' & Hrest)
      end.
      cbn in Hres'. rewrite HIH.
      rewrite (tracked_names_ext w (with_shown _ w)) in Hrest by done.
      exists l', w', stamps. split; [|split; [done|exact Hrest]].
      rewrite (successes_ext w (with_shown _ w)) by done.
      do 2 f_equal. lia.
Qed.

(** What a profile function does to the ledger. *)
Lemma profile_function_ledger (profile : string) (l : ledger) (w : world)
    (items : list pyval) :
  tweak_history l = PList items →
  ∃ l' w' stamps,
    profile_function profile (Machine l w)
    = (Return (successes w (profile_blocks profile)), Machine l' w')
    ∧ tweak_result w' = tweak_result w
    ∧ length stamps = length (tracked_names w (profile_blocks profile))
    ∧ applied_tweaks l'
      = applied_tweaks l
        ∪ list_to_set (KStr <$> tracked_names w (profile_blocks profile))
    ∧ tweak_history l'
      = PList (items ++ zip_with history_entry
                          (tracked_names w (profile_blocks profile)) stamps)
    ∧ current_profile l' = current_profile l
    ∧ last_resolution l' = last_resolution l
    ∧ last_refresh_rate l' = last_refresh_rate l
    ∧ denied w' = denied w.
Proof.
  intros Hh. unfold profile_function, profile_blocks.
  unfold apply_quality_profile, apply_performance_profile_impl,
    apply_balanced_profile, apply_ultra_quality_profile,
    apply_ultra_performance_profile, apply_low_latency_profile,
    apply_ultra_low_latency_profile, apply_super_computer_profile,
    apply_ultra_high_performance_profile.
  repeat (destruct (String.eqb profile _);
          [match goal with
           | |- context [run_steps ?st 0 (Machine l w)] =>
               exact (run_steps_effect st 0 l w items Hh)
           end|]).
  destruct (String.eqb profile _).
  - unfold guarded.
    destruct (run_steps_effect apply_ultra_high_performance_profile_steps
                0 l w items Hh)
      as (l1 & w1 & st1 & -> & Hres & Hlen1 & Ha1 & Hh1 & Hp1 & Hr1 & Hf1
          & Hd1).
    destruct (run_steps_effect apply_super_computer_profile_steps
                (0 + (0 + successes w
                            apply_ultra_high_performance_profile_steps))
                l1 w1 _ Hh1)
      as (l2 & w2 & st2 & -> & Hres2 & Hlen2 & Ha2 & Hh2 & Hp2 & Hr2 & Hf2
          & Hd2).
    rewrite (tracked_names_ext w w1) in * by done.
    rewrite successes_app, tracked_names_app, (successes_ext w w1) by done.
    exists l2, w2, (st1 ++ st2)%list.
    split; [done|]. split; [congruence|].
    split; [by rewrite !length_app, Hlen1, Hlen2|].
    split; [by rewrite Ha2, Ha1, fmap_app, list_to_set_app_L, (assoc_L (∪))|].
    split; [|by rewrite Hp2, Hr2, Hf2, Hd2].
    rewrite Hh2, <- app_assoc. do 2 f_equal.
    symmetry. by apply zip_with_app.
  - exists l, w, []. cbn. unfold ret, successes, tracked_names. cbn.
    rewrite app_nil_r, union_empty_r_L. by repeat split.
Qed.

(** X15. On a ledger whose history is a list, every profile function (an
    unknown name runs nothing) returns the number of its tweak functions
    that succeeded.  Afterwards the applied set is the one before with the
    names of the successful blocks that track, the history has one new
    entry for each of these names, in the order of the blocks, and the
    current profile and the resolution fields are as before. *)
Theorem profile_function_effect (profile : string) (l : ledger) (w : world)
    (items : list pyval) :
  tweak_history l = PList items →
  ∃ l' w' stamps,
    profile_function profile (Machine l w)
    = (Return (successes w (profile_blocks profile)), Machine l' w')
    ∧ tweak_result w' = tweak_result w
    ∧ length stamps = length (tracked_names w (profile_blocks profile))
    ∧ applied_tweaks l'
      = applied_tweaks l
        ∪ list_to_set (KStr <$> tracked_names w (profile_blocks profile))
    ∧ tweak_history l'
      = PList (items ++ zip_with history_entry
                          (tracked_names w (profile_blocks profile)) stamps)
    ∧ current_profile l' = current_profile l
    ∧ last_resolution l' = last_resolution l
    ∧ last_refresh_rate l' = last_refresh_rate l
    ∧ denied w' = denied w.
Proof. apply profile_function_ledger. Qed.

(** [profile_function_effect] at the balanced profile with every tweak
    function succeeding. *)
Lemma profile_function_effect_witness :
  tweak_history new_ledger = PList []
  ∧ ∃ l' w' stamps,
      profile_function "balanced" (Machine new_ledger (sample_world ∅))
      = (Return (successes (sample_world ∅) (profile_blocks "balanced")),
         Machine l' w')
      ∧ tweak_result w' = tweak_result (sample_world ∅)
      ∧ length stamps
        = length (tracked_names (sample_world ∅) (profile_blocks "balanced"))
      ∧ applied_tweaks l'
        = applied_tweaks new_ledger
          ∪ list_to_set
              (KStr <$> tracked_names (sample_world ∅)
                          (profile_blocks "balanced"))
      ∧ tweak_history l'
        = PList ([] ++ zip_with history_entry
                         (tracked_names (sample_world ∅)
                            (profile_blocks "balanced")) stamps)
      ∧ current_profile l' = current_profile new_ledger
      ∧ last_resolution l' = last_resolution new_ledger
      ∧ last_refresh_rate l' = last_refresh_rate new_ledger
      ∧ denied w' = denied (sample_world ∅).
Proof.
  split; [reflexivity|].
  apply (profile_function_effect "balanced" new_ledger (sample_world ∅) []).
  reflexivity.
Defined.

(** Loading a document [save_tweaks] wrote gives the saved ledger,
    whatever the ledger the load starts from. *)
Lemma load_saved_document (l l0 : ledger) (w wx : world) (ts : string) :
  fs w !! tweaks_file = Some (Json (save_data l ts wx)) →
  denied w tweaks_file = false →
  ∃ w2, load_saved_tweaks (Machine l0 w) = (Return true, Machine l w2).
Proof.
  intros Hf Hd. unfold save_data in Hf.
  rewrite (load_json l0 w _ (applied_tweaks l)
             (last_resolution l) Hf Hd (py_set_list_of_set _) eq_refl).
  destruct l. by eexists.
Qed.

Lemma set_current_profile_eq (p : pyval) (l : ledger) (w : world) :
  set_current_profile p (Machine l w)
  = (Return (),
     Machine (Ledger (applied_tweaks l) (tweak_history l) p
                     (last_resolution l) (last_refresh_rate l)) w).
Proof. reflexivity. Qed.

Lemma verdicts_app (a b : list message) :
  verdicts (a ++ b) = (verdicts a ++ verdicts b)%list.
Proof. unfold verdicts. apply omap_app. Qed.

Lemma keeps_verdicts_ret {A} (a : A) : keeps_verdicts (ret a).
Proof. by intros m. Qed.

Lemma keeps_verdicts_bind {A B} (c : M A) (k : A → M B) :
  keeps_verdicts c → (∀ a, keeps_verdicts (k a)) → keeps_verdicts (bind c k).
Proof.
  intros Hc Hk m. unfold bind. specialize (Hc m).
  destruct (c m) as [[a|e] m']; cbn in *; [|done].
  rewrite <- Hc. apply Hk.
Qed.

Lemma keeps_verdicts_guarded {A} (c : M A) (n : nat) (k : A → M nat) :
  keeps_verdicts c → (∀ a, keeps_verdicts (k a)) → keeps_verdicts (guarded c n k).
Proof.
  intros Hc Hk m. unfold guarded. specialize (Hc m).
  destruct (c m) as [[a|e] m']; cbn in *; [|done].
  rewrite <- Hc. apply Hk.
Qed.

Lemma keeps_verdicts_line (line : string) :
  keeps_verdicts (show (MsgProfile line)).
Proof. intros [l w]. cbn. rewrite verdicts_app. apply app_nil_r. Qed.

Lemma keeps_verdicts_save_tweaks : keeps_verdicts save_tweaks.
Proof.
  intros [l w]. destruct (denied w tweaks_file) eqn:Hd.
  - rewrite save_tweaks_denied by done. cbn. rewrite verdicts_app.
    apply app_nil_r.
  - rewrite save_tweaks_ok by done. cbn. rewrite verdicts_app.
    apply app_nil_r.
Qed.

Lemma keeps_verdicts_track_tweak (name : string) (success : bool) :
  keeps_verdicts (track_tweak name success).
Proof.
  destruct success; [|by intros m].
  intros [l w].
  destruct (py_append_target (tweak_history l)) as [items|e] eqn:Hh.
  - assert (tweak_history l = PList items) as Hl.
    { destruct (tweak_history l); try discriminate. by injection Hh as ->. }
    rewrite (track_tweak_true l w items name Hl). cbn [snd].
    by rewrite keeps_verdicts_save_tweaks.
  - assert (e = AttributeError) as ->.
    { destruct (tweak_history l); by try injection Hh as <-. }
    by rewrite (track_tweak_no_list l w name Hh).
Qed.

Lemma keeps_verdicts_run_steps (steps : list step) :
  ∀ n, keeps_verdicts (run_steps steps n).
Proof.
  induction steps as [|st rest IH]; intros n; [apply keeps_verdicts_ret|].
  cbn [run_steps]. apply keeps_verdicts_guarded; [|intros a; apply IH].
  apply keeps_verdicts_bind; [by intros m|]. intros [|];
    [|apply keeps_verdicts_ret].
  apply keeps_verdicts_bind; [apply keeps_verdicts_line|]. intros _.
  apply keeps_verdicts_bind; [|intros _; apply keeps_verdicts_ret].
  destruct (step_track st);
    [apply keeps_verdicts_track_tweak|apply keeps_verdicts_ret].
Qed.

Lemma keeps_verdicts_profile_function (profile : string) :
  keeps_verdicts (profile_function profile).
Proof.
  unfold profile_function.
  repeat (destruct (String.eqb profile _); [apply keeps_verdicts_run_steps|]).
  destruct (String.eqb profile _); [|apply keeps_verdicts_ret].
  apply keeps_verdicts_guarded; [apply keeps_verdicts_run_steps|].
  intros n. apply keeps_verdicts_run_steps.
Qed.

(** X16. Applying a profile, known or not, on a ledger whose history is a
    list: the thread body returns normally, the profile becomes the
    current one, the marker [profile_<name>] joins the applied set after
    the names the profile function tracked and gets the last history
    entry; among the lines written there is no error line and exactly one
    that reports a count, which is the number of successful tweak
    functions; and, when the persistence file can be written, a later
    load gives back this very ledger. *)
Theorem apply_profile_thread_effect (profile : string) (l l0 : ledger)
    (w : world) (items : list pyval) :
  tweak_history l = PList items →
  ∃ l' w' stamps ts,
    apply_profile_thread profile (Machine l w) = (Return (), Machine l' w')
    ∧ current_profile l' = PStr profile
    ∧ applied_tweaks l'
      = {[KStr ("profile_" ++ profile)]}
        ∪ (applied_tweaks l
           ∪ list_to_set (KStr <$> tracked_names w (profile_blocks profile)))
    ∧ tweak_history l'
      = PList ((items ++ zip_with history_entry
                           (tracked_names w (profile_blocks profile)) stamps)
               ++ [history_entry ("profile_" ++ profile) ts])
    ∧ verdicts (shown w')
      = (verdicts (shown w)
         ++ [MsgProfileReport (successes w (profile_blocks profile))])%list
    ∧ (denied w tweaks_file = false →
       ∃ w2, load_saved_tweaks (Machine l0 w') = (Return true, Machine l' w2)).
Proof.
  intros Hh. unfold apply_profile_thread, try_except.
  unfold bind at 1. rewrite set_current_profile_eq.
  set (lp := Ledger _ _ (PStr profile) _ _).
  destruct (profile_function_ledger profile lp w items Hh)
    as (l1 & w1 & stamps & Hrun & Hres & Hlen & Ha & Hh1 & Hp & Hr & Hf & Hden).
  pose proof (keeps_verdicts_profile_function profile (Machine lp w)) as Hrep.
  rewrite Hrun in Hrep. cbn in Hrep.
  unfold bind at 1. rewrite Hrun.
  unfold bind at 1. rewrite (track_tweak_true l1 w1 _ _ Hh1).
  destruct (denied w tweaks_file) eqn:Hd.
  - rewrite save_tweaks_denied by (cbn; by rewrite Hden). cbn [snd].
    match goal with
    | |- context [show_profile_results ?p ?n (Machine ?lt ?wt)] =>
        destruct (writes_only_profile_results p n lt wt)
          as (msgs & -> & Hmsgs)
    end.
    eexists _, _, stamps, _. split; [reflexivity|].
    cbn. rewrite Hp, Ha. repeat split; [|done].
    by rewrite !verdicts_app, Hmsgs, Hrep, app_nil_r.
  - rewrite save_tweaks_ok by (cbn; by rewrite Hden). cbn [snd].
    match goal with
    | |- context [show_profile_results ?p ?n (Machine ?lt ?wt)] =>
        destruct (writes_only_profile_results p n lt wt)
          as (msgs & -> & Hmsgs)
    end.
    eexists _, _, stamps, _. split; [reflexivity|].
    cbn. rewrite Hp, Ha. repeat split.
    + by rewrite !verdicts_app, Hmsgs, Hrep, app_nil_r.
    + intros _. eapply load_saved_document.
      * cbn. apply lookup_insert_eq.
      * cbn. by rewrite Hden.
Qed.

(** [apply_profile_thread_effect] at the balanced profile, every tweak
    function succeeding. *)
Lemma apply_profile_thread_effect_witness :
  tweak_history new_ledger = PList []
  ∧ ∃ l' w' stamps ts,
      apply_profile_thread "balanced" (Machine new_ledger (sample_world ∅))
      = (Return (), Machine l' w')
      ∧ current_profile l' = PStr "balanced"
      ∧ applied_tweaks l'
        = {[KStr ("profile_" ++ "balanced")]}
          ∪ (applied_tweaks new_ledger
             ∪ list_to_set
                 (KStr <$> tracked_names (sample_world ∅)
                             (profile_blocks "balanced")))
      ∧ tweak_history l'
        = PList (([] ++ zip_with history_entry
                          (tracked_names (sample_world ∅)
                             (profile_blocks "balanced")) stamps)
                 ++ [history_entry ("profile_" ++ "balanced") ts])
      ∧ verdicts (shown w')
        = (verdicts (shown (sample_world ∅))
           ++ [MsgProfileReport
                 (successes (sample_world ∅) (profile_blocks "balanced"))])%list
      ∧ (denied (sample_world ∅) tweaks_file = false →
         ∃ w2, load_saved_tweaks (Machine new_ledger w')
               = (Return true, Machine l' w2)).
Proof.
  split; [reflexivity|].
  apply (apply_profile_thread_effect "balanced" new_ledger new_ledger
           (sample_world ∅) []).
  reflexivity.
Defined.

(** X17. The six profile functions without a [track_tweak] call never
    raise and leave the ledger and every file as they were, on every
    ledger and whatever the tweak functions return. *)
Theorem untracked_profiles_frame :
  Forall (λ f : M nat,
            ∀ l w, ∃ n w', f (Machine l w) = (Return n, Machine l w')
                           ∧ fs w' = fs w)
    [apply_ultra_quality_profile; apply_ultra_performance_profile;
     apply_low_latency_profile; apply_ultra_low_latency_profile;
     apply_ultra_high_performance_profile; apply_super_computer_profile].
Proof.
  pose proof untracked_profiles as Hun.
  apply Forall_cons in Hun as [H1 Hun]. apply Forall_cons in Hun as [H2 Hun].
  apply Forall_cons in Hun as [H3 Hun]. apply Forall_cons in Hun as [H4 Hun].
  apply Forall_cons in Hun as [H5 Hun]. apply Forall_cons in Hun as [H6 _].
  assert (Hrun : ∀ steps k,
             Forall (λ st, step_track st = None) steps →
             ∀ l w, ∃ n w', run_steps steps k (Machine l w)
                            = (Return n, Machine l w') ∧ fs w' = fs w).
  { intros steps k Hst l w.
    destruct (run_steps_untracked steps Hst k l w) as (w' & -> & Hfs & _).
    by eexists _, w'. }
  repeat apply Forall_cons_2; [exact (Hrun _ _ H1)|exact (Hrun _ _ H2)|
    exact (Hrun _ _ H3)|exact (Hrun _ _ H4)|exact (Hrun _ _ H5)| |
    constructor].
  intros l w. unfold apply_super_computer_profile,
    apply_ultra_high_performance_profile, guarded.
  destruct (Hrun _ 0%nat H5 l w) as (n1 & w1 & -> & Hfs1).
  destruct (Hrun _ (0 + n1)%nat H6 l w1) as (n2 & w2 & -> & Hfs2).
  eexists _, w2. split; [reflexivity|congruence].
Qed.

(** A profile body on a ledger whose history is not a list: the first
    successful block that tracks ends it. *)
Lemma run_steps_no_list (steps : list step) :
  ∀ (n : nat) (l : ledger) (w : world),
    (∀ items, tweak_history l ≠ PList items) →
    ∃ k l' w', run_steps steps n (Machine l w) = (Return k, Machine l' w')
               ∧ (Forall (λ st, is_Some (step_track st)) steps → k = n)
               ∧ tweak_history l' = tweak_history l
               ∧ current_profile l' = current_profile l
               ∧ applied_tweaks l ⊆ applied_tweaks l'
               ∧ fs w' = fs w.
Proof.
  induction steps as [|st rest IH]; intros n l w Hno.
  - exists n, l, w. by repeat split.
  - cbn [run_steps]. unfold guarded, step_body.
    unfold_ops. unfold_m. cbn -[track_tweak run_steps save_tweaks].
    destruct (tweak_result w (step_fn st)) eqn:Hok.
    2:{ destruct (IH n l w Hno) as (k & l' & w' & -> & Hk & Hrest).
        exists k, l', w'. split; [done|]. split; [|done].
        intros Hall. apply Hk. by apply Forall_cons in Hall as [_ ?]. }
    destruct (step_track st) as [name0|] eqn:Htrack.
    + assert (Hraise : py_append_target (tweak_history l)
                       = Raised AttributeError).
      { destruct (tweak_history l) as [| | | |items|]; try reflexivity.
        by destruct (Hno items). }
      rewrite (track_tweak_no_list l _ name0 Hraise).
      eexists n, _, _. cbn.
      split; [reflexivity|]. repeat split. apply union_subseteq_r.
    + cbn.
      match goal with
      | |- context [run_steps rest (S n) (Machine l ?w1)] =>
          destruct (IH (S n) l w1 Hno) as (k & l' & w' & -> & Hk & Hrest)
      end.
      exists k, l', w'. split; [done|]. split; [|done].
      intros Hall. apply Forall_cons in Hall as [[? Hsome] _]. congruence.
Qed.

(** X18. On a ledger whose history is not a list, the three profile
    functions that track report 0 applied optimizations whatever the tweak
    functions did: the first successful block fails in [track_tweak], the
    bare [except] returns the count before it, and the blocks after it are
    not run.  The history stays as it was and nothing is saved. *)
Theorem tracking_profiles_without_list (l : ledger) (w : world) :
  (∀ items, tweak_history l ≠ PList items) →
  Forall (λ f : M nat,
            ∃ l' w', f (Machine l w) = (Return 0%nat, Machine l' w')
                     ∧ tweak_history l' = tweak_history l
                     ∧ applied_tweaks l ⊆ applied_tweaks l'
                     ∧ fs w' = fs w)
    [apply_quality_profile; apply_performance_profile_impl;
     apply_balanced_profile].
Proof.
  intros Hno.
  assert (Hrun : ∀ steps,
             Forall (λ st, is_Some (step_track st)) steps →
             ∃ l' w', run_steps steps 0 (Machine l w)
                      = (Return 0%nat, Machine l' w')
                      ∧ tweak_history l' = tweak_history l
                      ∧ applied_tweaks l ⊆ applied_tweaks l'
                      ∧ fs w' = fs w).
  { intros steps Hall.
    destruct (run_steps_no_list steps 0 l w Hno)
      as (k & l' & w' & -> & Hk & Hh & _ & Ha & Hfs).
    rewrite (Hk Hall). by eexists _, _. }
  repeat apply Forall_cons_2; [| | |constructor]; apply Hrun;
    repeat constructor; by eexists.
Qed.

(** [tracking_profiles_without_list] after a file gave the history a
    number. *)
Lemma tracking_profiles_without_list_witness :
  (∀ items,
     tweak_history {| applied_tweaks := ∅; tweak_history := PInt 5;
                      current_profile := PNone;
                      last_resolution := [PInt 1920; PInt 1080];
                      last_refresh_rate := PInt 60 |} ≠ PList items)
  ∧ Forall (λ f : M nat,
              ∃ l' w',
                f (Machine {| applied_tweaks := ∅; tweak_history := PInt 5;
                              current_profile := PNone;
                              last_resolution := [PInt 1920; PInt 1080];
                              last_refresh_rate := PInt 60 |}
                           (sample_world ∅))
                = (Return 0%nat, Machine l' w')
                ∧ tweak_history l' = PInt 5
                ∧ ∅ ⊆ applied_tweaks l'
                ∧ fs w' = fs (sample_world ∅))
      [apply_quality_profile; apply_performance_profile_impl;
       apply_balanced_profile].
Proof.
  split; [intros items; discriminate|].
  apply (tracking_profiles_without_list
           {| applied_tweaks := ∅; tweak_history := PInt 5;
              current_profile := PNone;
              last_resolution := [PInt 1920; PInt 1080];
              last_refresh_rate := PInt 60 |} (sample_world ∅)).
  intros items; discriminate.
Defined.

Lemma profile_function_no_list (profile : string) (l : ledger) (w : world) :
  (∀ items, tweak_history l ≠ PList items) →
  ∃ k l' w', profile_function profile (Machine l w)
             = (Return k, Machine l' w')
             ∧ tweak_history l' = tweak_history l
             ∧ current_profile l' = current_profile l
             ∧ applied_tweaks l ⊆ applied_tweaks l'
             ∧ fs w' = fs w.
Proof.
  intros Hno.
  assert (Hrun : ∀ steps n l0 w0,
             (∀ items, tweak_history l0 ≠ PList items) →
             ∃ k l' w', run_steps steps n (Machine l0 w0)
                        = (Return k, Machine l' w')
                        ∧ tweak_history l' = tweak_history l0
                        ∧ current_profile l' = current_profile l0
                        ∧ applied_tweaks l0 ⊆ applied_tweaks l'
                        ∧ fs w' = fs w0).
  { intros steps n l0 w0 Hno0.
    destruct (run_steps_no_list steps n l0 w0 Hno0)
      as (k & l' & w' & -> & _ & ?). by eexists _, _, _. }
  unfold profile_function.
  repeat (destruct (String.eqb profile _); [by apply Hrun|]).
  destruct (String.eqb profile _).
  - unfold apply_super_computer_profile, guarded.
    destruct (Hrun apply_ultra_high_performance_profile_steps 0%nat l w Hno)
      as (k1 & l1 & w1 & Hr1 & Hh1 & Hp1 & Ha1 & Hf1).
    unfold apply_ultra_high_performance_profile. rewrite Hr1.
    destruct (Hrun apply_super_computer_profile_steps (0 + k1)%nat l1 w1)
      as (k2 & l2 & w2 & -> & Hh2 & Hp2 & Ha2 & Hf2).
    { intros items. rewrite Hh1. apply Hno. }
    eexists _, _, _. split; [reflexivity|].
    repeat split; [congruence|congruence| |congruence].
    by etrans.
  - exists 0%nat, l, w. by repeat split.
Qed.

(** X19. Applying a profile on a ledger whose history is not a list does
    not raise: the thread body ends with the error line for the
    [AttributeError] of [track_tweak] instead of the report.  The profile
    is already the current one and its marker is in the applied set, but
    the history is as before and no file was written. *)
Theorem apply_profile_thread_without_list (profile : string) (l : ledger)
    (w : world) :
  (∀ items, tweak_history l ≠ PList items) →
  ∃ l' w', apply_profile_thread profile (Machine l w)
           = (Return (), Machine l' w')
           ∧ last (shown w') = Some (MsgProfileError AttributeError)
           ∧ current_profile l' = PStr profile
           ∧ KStr ("profile_" ++ profile) ∈ applied_tweaks l'
           ∧ tweak_history l' = tweak_history l
           ∧ fs w' = fs w.
Proof.
  intros Hno. unfold apply_profile_thread, try_except.
  unfold bind at 1. rewrite set_current_profile_eq.
  set (lp := Ledger _ _ (PStr profile) _ _).
  destruct (profile_function_no_list profile lp w Hno)
    as (k & l1 & w1 & Hrun & Hh & Hp & Ha & Hfs).
  unfold bind at 1. rewrite Hrun.
  assert (Hraise : py_append_target (tweak_history l1)
                   = Raised AttributeError).
  { rewrite Hh. cbn. destruct (tweak_history l) as [| | | |items|];
      try reflexivity. by destruct (Hno items). }
  unfold bind at 1. rewrite (track_tweak_no_list l1 w1 _ Hraise).
  unfold show. run. eexists _, _. split; [reflexivity|]. cbn.
  repeat split; [by rewrite last_snoc|done| |done|done].
  apply elem_of_union_l, elem_of_singleton_2. reflexivity.
Qed.

(** [apply_profile_thread_without_list] after a file gave the history a
    number. *)
Lemma apply_profile_thread_without_list_witness :
  (∀ items,
     tweak_history {| applied_tweaks := ∅; tweak_history := PInt 5;
                      current_profile := PNone;
                      last_resolution := [PInt 1920; PInt 1080];
                      last_refresh_rate := PInt 60 |} ≠ PList items)
  ∧ ∃ l' w',
      apply_profile_thread "balanced"
        (Machine {| applied_tweaks := ∅; tweak_history := PInt 5;
                    current_profile := PNone;
                    last_resolution := [PInt 1920; PInt 1080];
                    last_refresh_rate := PInt 60 |} (sample_world ∅))
      = (Return (), Machine l' w')
      ∧ last (shown w') = Some (MsgProfileError AttributeError)
      ∧ current_profile l' = PStr "balanced"
      ∧ KStr ("profile_" ++ "balanced") ∈ applied_tweaks l'
      ∧ tweak_history l' = PInt 5
      ∧ fs w' = fs (sample_world ∅).
Proof.
  split; [intros items; discriminate|].
  apply (apply_profile_thread_without_list "balanced"
           {| applied_tweaks := ∅; tweak_history := PInt 5;
              current_profile := PNone;
              last_resolution := [PInt 1920; PInt 1080];
              last_refresh_rate := PInt 60 |} (sample_world ∅)).
  intros items; discriminate.
Defined.

(** ** Start-up *)

(** X20. [__init__] never fails on account of the persistence file.  When
    there is none the ledger starts empty; when the file is one that
    [save_tweaks] wrote, the applied set, the history and the profile are
    the saved ones.  In every case [last_resolution] and
    [last_refresh_rate] end at [(1920, 1080)] and [60]: they are assigned
    after the load, so a saved resolution is never taken over.  No file is
    touched. *)
Theorem init_effect (l0 : ledger) (w : world) :
  ∃ l' w',
    __init__ (Machine l0 w) = (Return (), Machine l' w')
    ∧ last_resolution l' = [PInt 1920; PInt 1080]
    ∧ last_refresh_rate l' = PInt 60
    ∧ fs w' = fs w
    ∧ (fs w !! tweaks_file = None → l' = new_ledger)
    ∧ (∀ l ts wx,
         fs w !! tweaks_file = Some (Json (save_data l ts wx)) →
         denied w tweaks_file = false →
         applied_tweaks l' = applied_tweaks l
         ∧ tweak_history l' = tweak_history l
         ∧ current_profile l' = current_profile l).
Proof.
  unfold __init__. unfold_ops. unfold_m. cbn -[load_saved_tweaks].
  match goal with
  | |- context [load_saved_tweaks (Machine ?li w)] =>
      destruct (load_cases li w)
        as [[e He]|[(d & s & t & Hf & Hd & Hs & Ht)
                   |(d & s & e & Hf & Hd & Hs & Ht)]];
      [rewrite He
      |rewrite (load_json li w d s t Hf Hd Hs Ht)
      |rewrite (load_raises_late li w d s e Hf Hd Hs Ht)]
  end; cbn; eexists _, _; (split; [reflexivity|]); cbn;
    (split; [reflexivity|]); (split; [reflexivity|]);
    (split; [reflexivity|]).
  - split; [done|]. intros l ts wx Hfile Hden.
    destruct (load_saved_document l
                (Ledger ∅ (PList []) PNone (last_resolution l0)
                        (last_refresh_rate l0)) w wx ts Hfile Hden)
      as [w2 Hload].
    rewrite He in Hload. discriminate.
  - split; [intros Hnone; congruence|].
    intros l ts wx Hfile Hden. rewrite Hfile in Hf.
    injection Hf as <-.
    change (py_set (PList (py_list_of_set (applied_tweaks l))) = Return s)
      in Hs.
    rewrite py_set_list_of_set in Hs. injection Hs as <-. by repeat split.
  - split; [intros Hnone; congruence|].
    intros l ts wx Hfile Hden. rewrite Hfile in Hf.
    injection Hf as <-. discriminate.
Qed.

(** [init_effect] where the persistence file was written by
    [save_tweaks]. *)
Lemma init_effect_witness :
  ∃ l' w',
    __init__ (Machine new_ledger
                (saved_world (ledger_with ["A"]) (sample_world ∅)))
    = (Return (), Machine l' w')
    ∧ last_resolution l' = [PInt 1920; PInt 1080]
    ∧ last_refresh_rate l' = PInt 60
    ∧ fs w' = fs (saved_world (ledger_with ["A"]) (sample_world ∅))
    ∧ (fs (saved_world (ledger_with ["A"]) (sample_world ∅)) !! tweaks_file
       = None → l' = new_ledger)
    ∧ (∀ l ts wx,
         fs (saved_world (ledger_with ["A"]) (sample_world ∅)) !! tweaks_file
         = Some (Json (save_data l ts wx)) →
         denied (saved_world (ledger_with ["A"]) (sample_world ∅)) tweaks_file
         = false →
         applied_tweaks l' = applied_tweaks l
         ∧ tweak_history l' = tweak_history l
         ∧ current_profile l' = current_profile l).
Proof.
  apply (init_effect new_ledger
           (saved_world (ledger_with ["A"]) (sample_world ∅))).
Defined.

(** ** The history window *)

Lemma history_lines_entries (entries : list (string * string))
    (rest : list pyval) (written : list history_line) :
  history_lines (((λ e, history_entry (fst e) (snd e)) <$> entries) ++ rest)
    written
  = history_lines rest
      (written
       ++ ((λ e, HistoryLine true (PStr (snd e)) (PStr (fst e))) <$> entries)).
Proof.
  revert written. induction entries as [|e entries IH]; intros written.
  - cbn. by rewrite app_nil_r.
  - cbn. rewrite IH. by rewrite <- app_assoc.
Qed.

(** X21. For a history made by [track_tweak], the history window shows
    one line per entry, in the order of the history, each with the tick,
    its time stamp and its name; with no entry it shows the line that
    says so.  No error box appears and nothing changes. *)
Theorem view_history_of_tracked (l : ledger) (w : world)
    (entries : list (string * string)) :
  tweak_history l = entries_history entries →
  view_tweak_history (Machine l w)
  = (Return (match entries with
             | [] => [NoHistoryLine]
             | _ => (λ e, HistoryLine true (PStr (snd e)) (PStr (fst e)))
                      <$> entries
             end, None),
     Machine l w).
Proof.
  intros Hh. unfold view_tweak_history. run. rewrite Hh.
  destruct entries as [|e entries]; [reflexivity|].
  unfold entries_history.
  cbn [truthy fmap list_fmap py_iter ret].
  pose proof (history_lines_entries (e :: entries) [] []) as Hl.
  rewrite app_nil_r in Hl. cbn [fmap list_fmap] in Hl. rewrite Hl.
  reflexivity.
Qed.

(** [view_history_of_tracked] after two tweaks were tracked. *)
Lemma view_history_of_tracked_witness :
  tweak_history (Ledger (list_to_set [KStr "a"; KStr "b"])
                   (entries_history [("a", "10:00"); ("b", "10:05")])
                   PNone [PInt 1920; PInt 1080] (PInt 60))
  = entries_history [("a", "10:00"); ("b", "10:05")]
  ∧ view_tweak_history
      (Machine (Ledger (list_to_set [KStr "a"; KStr "b"])
                  (entries_history [("a", "10:00"); ("b", "10:05")])
                  PNone [PInt 1920; PInt 1080] (PInt 60))
               (sample_world ∅))
    = (Return ([HistoryLine true (PStr "10:00") (PStr "a");
                HistoryLine true (PStr "10:05") (PStr "b")], None),
       Machine (Ledger (list_to_set [KStr "a"; KStr "b"])
                  (entries_history [("a", "10:00"); ("b", "10:05")])
                  PNone [PInt 1920; PInt 1080] (PInt 60))
               (sample_world ∅)).
Proof.
  split; [reflexivity|].
  apply (view_history_of_tracked
           (Ledger (list_to_set [KStr "a"; KStr "b"])
              (entries_history [("a", "10:00"); ("b", "10:05")])
              PNone [PInt 1920; PInt 1080] (PInt 60))
           (sample_world ∅) [("a", "10:00"); ("b", "10:05")]).
  reflexivity.
Defined.

(** X22. When the history is a list with an entry that is not an object
    (a persistence file can hold one), the window keeps the lines of the
    entries before it, nothing after, and an error box reports the
    [AttributeError]; the ledger is not changed. *)
Theorem view_history_bad_entry (l : ledger) (w : world)
    (entries : list (string * string)) (bad : pyval) (rest : list pyval) :
  tweak_history l
  = PList (((λ e, history_entry (fst e) (snd e)) <$> entries) ++ bad :: rest) →
  (∀ d, bad ≠ PDict d) →
  view_tweak_history (Machine l w)
  = (Return ((λ e, HistoryLine true (PStr (snd e)) (PStr (fst e))) <$> entries,
             Some AttributeError),
     Machine l w).
Proof.
  intros Hh Hbad. unfold view_tweak_history. run. rewrite Hh.
  assert (Htruthy : truthy (PList (((λ e, history_entry (fst e) (snd e))
                                      <$> entries) ++ bad :: rest)) = true).
  { cbn. by destruct entries. }
  rewrite Htruthy. cbn [py_iter ret].
  rewrite history_lines_entries. cbn [history_lines app].
  destruct bad as [| | | | |d]; try reflexivity. by destruct (Hbad d).
Qed.

(** [view_history_bad_entry] with a number after one good entry. *)
Lemma view_history_bad_entry_witness :
  (tweak_history (Ledger ∅ (PList [history_entry "a" "10:00"; PInt 7])
                    PNone [PInt 1920; PInt 1080] (PInt 60))
   = PList (((λ e, history_entry (fst e) (snd e)) <$> [("a", "10:00")])
            ++ PInt 7 :: [])
   ∧ (∀ d, PInt 7 ≠ PDict d))
  ∧ view_tweak_history
      (Machine (Ledger ∅ (PList [history_entry "a" "10:00"; PInt 7])
                  PNone [PInt 1920; PInt 1080] (PInt 60))
               (sample_world ∅))
    = (Return ((λ e, HistoryLine true (PStr (snd e)) (PStr (fst e)))
                 <$> [("a", "10:00")],
               Some AttributeError),
       Machine (Ledger ∅ (PList [history_entry "a" "10:00"; PInt 7])
                  PNone [PInt 1920; PInt 1080] (PInt 60))
               (sample_world ∅)).
Proof.
  split; [split; [reflexivity|intros d; discriminate]|].
  apply (view_history_bad_entry
           (Ledger ∅ (PList [history_entry "a" "10:00"; PInt 7])
              PNone [PInt 1920; PInt 1080] (PInt 60))
           (sample_world ∅) [("a", "10:00")] (PInt 7) []).
  - reflexivity.
  - intros d; discriminate.
Defined.

(** ** The dialogs *)

(** X23. [import_tweaks_dialog] never raises.  It ends without a box
    exactly when the dialog was cancelled; unless it ends with the success
    box, the ledger and every file are as before; and with the success box
    the applied set is what [set] makes of the chosen file's
    [applied_tweaks]. *)
Theorem import_dialog_outcome (l : ledger) (w : world) (chosen : string) :
  ∃ box m',
    import_tweaks_dialog chosen (Machine l w) = (Return box, m')
    ∧ (box = NoBox ↔ chosen = "")
    ∧ (box ≠ InfoBox → self m' = l ∧ fs (os m') = fs w)
    ∧ (box = InfoBox →
       ∃ d, fs w !! chosen = Some (Json (PDict d))
            ∧ py_set (doc_field d "applied_tweaks" (PList []))
              = Return (applied_tweaks (self m'))).
Proof.
  unfold import_tweaks_dialog, try_except.
  destruct (String.eqb chosen "") eqn:Hc; cbn [negb].
  { apply String.eqb_eq in Hc. eexists _, _. split; [reflexivity|].
    repeat split; try done. }
  apply String.eqb_neq in Hc. unfold bind at 1.
  destruct (import_cases l w chosen) as [[e ->]|(d & s & Hf & Hd & Hs)].
  - eexists _, _. split; [reflexivity|]. cbn.
    repeat split; try done; intros ->; done.
  - destruct (import_tweaks_ok l w chosen d s Hf Hd Hs)
      as (b & w' & Hsave & ->).
    unfold update_tweak_status. run.
    eexists _, _. split; [reflexivity|]. cbn.
    split; [split; [done|intros ->; done]|]. split; [done|].
    intros _. by exists d.
Qed.

(** X24. [export_tweaks_dialog] never raises, never changes the ledger
    and touches no file but the chosen one.  A cancelled dialog writes
    nothing and shows no box.  A chosen path gets the success box exactly
    when the write goes through, and holds the export then.  Otherwise the
    error box is shown: the chosen file is as before if [open] failed, and
    is not a JSON document any more if the write failed after [open]. *)
Theorem export_dialog_outcome (l : ledger) (w : world) (chosen : string) :
  ∃ box w',
    export_tweaks_dialog chosen (Machine l w) = (Return box, Machine l w')
    ∧ (box = NoBox ↔ chosen = "")
    ∧ (box = NoBox → fs w' = fs w)
    ∧ (∀ p, p ≠ chosen → fs w' !! p = fs w !! p)
    ∧ (box = InfoBox ↔ chosen ≠ "" ∧ denied w chosen = false)
    ∧ (box = InfoBox →
       ∃ ts, fs w' !! chosen = Some (Json (export_data l ts w)))
    ∧ (box = ErrorBox →
       fs w' !! chosen
       = if torn w chosen then Some Garbage else fs w !! chosen).
Proof.
  unfold export_tweaks_dialog, try_except.
  unfold bind at 1, time_strftime. run.
  destruct (String.eqb chosen "") eqn:Hc; cbn [negb].
  { apply String.eqb_eq in Hc. eexists _, _. split; [reflexivity|].
    cbn. repeat split; try done. by intros [? _]. }
  pose proof Hc as Hne. apply String.eqb_neq in Hne.
  match goal with
  | |- context [export_tweaks (Some chosen) (Machine l ?w1)] =>
      destruct (export_tweaks_outcome l w1 (Some chosen))
        as (b & w' & -> & Hb & Hother & Hfail & Hok)
  end.
  unfold export_target in *. rewrite Hc in *. cbn [negb] in *.
  cbn in Hb, Hother, Hfail.
  destruct b; cbn; eexists _, _; (split; [reflexivity|]).
  - split; [split; [done|intros ->; done]|]. split; [done|].
    split; [exact Hother|].
    split; [split; [intros _|done]|].
    + split; [done|]. by destruct (denied w chosen).
    + split; [|done]. intros _. destruct (Hok eq_refl) as [ts Hts].
      exists ts. exact Hts.
  - split; [split; [done|intros ->; done]|]. split; [done|].
    split; [exact Hother|].
    split; [split; [done|]|].
    + intros [_ Hd]. rewrite Hd in Hb. discriminate.
    + split; [done|]. intros _. by apply Hfail.
Qed.

(** ** Start-up entries *)

Lemma prefix_app (p s : string) :
  String.prefix p s = true ↔ ∃ b, s = p ++ b.
Proof.
  revert s. induction p as [|c p IH]; intros s.
  - split; [intros _; by exists s|intros _; by destruct s].
  - destruct s as [|c' s]; cbn; [split; [done|by intros [b [=]]]|].
    destruct (ascii_dec c c') as [->|Hne].
    + rewrite IH. split; intros [b Hb]; exists b; [by rewrite Hb|].
      by injection Hb.
    + split; [done|]. intros [b [= ? _]]. done.
Qed.

Lemma py_in_app (p s : string) :
  py_in p s = true ↔ ∃ a b, s = a ++ p ++ b.
Proof.
  induction s as [|c s IH]; cbn [py_in].
  - rewrite orb_false_r, prefix_app. split.
    + intros [b Hb]. by exists "", b.
    + intros (a & b & Hab). destruct a as [|? ?]; [by exists b|done].
  - rewrite orb_true_iff, prefix_app, IH. split.
    + intros [[b Hb]|(a & b & Hab)].
      * by exists "", b.
      * exists (String c a), b. cbn. by rewrite Hab.
    + intros (a & b & Hab). destruct a as [|c' a].
      * left. by exists b.
      * right. exists a, b. cbn in Hab. by injection Hab.
Qed.

Lemma py_lower_app (a b : string) :
  py_lower (a ++ b) = py_lower a ++ py_lower b.
Proof.
  induction a as [|c a IH]; [reflexivity|].
  change (String (lower_char c) (py_lower (a ++ b))
          = String (lower_char c) (py_lower a ++ py_lower b)).
  by rewrite IH.
Qed.

Lemma string_app_assoc (a b c : string) : (a ++ b) ++ c = a ++ b ++ c.
Proof.
  induction a as [|x a IH]; [reflexivity|].
  change (String x ((a ++ b) ++ c) = String x (a ++ b ++ c)).
  by rewrite IH.
Qed.

(** X25. A start-up name of ASCII characters counts as safe to remove
    exactly when, with its capitals lowered, it contains one of the ten
    patterns somewhere.  So every ASCII name that contains a safe name is
    safe as well: nothing but the pattern is looked at. *)
Theorem safe_startup_names (filename : string) :
  is_ascii filename = true →
  (is_safe_to_remove_startup filename = true
   ↔ ∃ pattern a b, pattern ∈ safe_patterns
                    ∧ py_lower filename = a ++ pattern ++ b)
  ∧ (is_safe_to_remove_startup filename = true →
     ∀ before after,
       is_ascii before = true → is_ascii after = true →
       is_safe_to_remove_startup (before ++ filename ++ after) = true).
Proof.
  intros _.
  assert (Hiff : ∀ f, is_safe_to_remove_startup f = true
                      ↔ ∃ pattern a b, pattern ∈ safe_patterns
                                       ∧ py_lower f = a ++ pattern ++ b).
  { intros f. unfold is_safe_to_remove_startup. rewrite existsb_exists.
    split.
    - intros (p & Hin & Hp). apply py_in_app in Hp as (a & b & Hab).
      exists p, a, b. split; [by apply list_elem_of_In|done].
    - intros (p & a & b & Hin & Hab). exists p.
      split; [by apply list_elem_of_In|]. apply py_in_app. by exists a, b. }
  split; [apply Hiff|].
  intros Hsafe before after _ _.
  apply Hiff in Hsafe as (p & a & b & Hin & Hab).
  apply Hiff. exists p, (py_lower before ++ a), (b ++ py_lower after).
  split; [done|].
  rewrite !py_lower_app, Hab, !string_app_assoc. reflexivity.
Qed.

(** [safe_startup_names] at a name that has [Update] in it. *)
Lemma safe_startup_names_witness :
  is_ascii "GoogleUpdate.exe" = true
  ∧ is_safe_to_remove_startup "GoogleUpdate.exe" = true
  ∧ ∀ before after,
      is_ascii before = true → is_ascii after = true →
      is_safe_to_remove_startup (before ++ "GoogleUpdate.exe" ++ after) = true.
Proof.
  split; [reflexivity|]. split; [reflexivity|].
  apply (safe_startup_names "GoogleUpdate.exe"); reflexivity.
Defined.

Local Open Scope list_scope.
Local Open Scope nat_scope.

Lemma delete_value_middle (prefix rest : list (string * string))
    (n v : string) :
  NoDup (fst <$> (prefix ++ (n, v) :: rest)) →
  delete_value n (prefix ++ (n, v) :: rest) = (prefix ++ rest)%list.
Proof.
  induction prefix as [|[n' v'] prefix IH]; cbn; intros Hnd.
  - by rewrite String.eqb_refl.
  - apply NoDup_cons in Hnd as [Hnotin Hnd].
    destruct (String.eqb n' n) eqn:Heq.
    + apply String.eqb_eq in Heq as ->. destruct Hnotin.
      rewrite fmap_app. apply elem_of_app. right. cbn. left.
    + by rewrite IH.
Qed.

Lemma kept_values_length (doomed : string * string → bool)
    (values : list (string * string)) :
  length (kept_values doomed values) ≤ length values.
Proof.
  assert (H : ∀ n values, length values ≤ n →
                          length (kept_values doomed values) ≤ length values).
  { clear values. induction n as [|n IH]; intros values Hlen.
    - destruct values; [done|cbn in Hlen; lia].
    - destruct values as [|x [|y rest]]; cbn; [lia|destruct (doomed x); cbn; lia|].
      cbn in Hlen. destruct (doomed x); cbn.
      + specialize (IH rest). lia.
      + specialize (IH (y :: rest)). cbn in IH. lia. }
  by apply (H (length values)).
Qed.

(** The loop against its description. *)
Lemma clean_key_loop_kept (doomed : string * string → bool) :
  ∀ (fuel : nat) (suffix prefix : list (string * string)) (cleaned : nat),
    NoDup (fst <$> (prefix ++ suffix)) →
    length suffix < fuel →
    clean_key_loop doomed fuel (prefix ++ suffix) (length prefix) cleaned
    = Some ((prefix ++ kept_values doomed suffix)%list,
            (cleaned + (length suffix
                        - length (kept_values doomed suffix)))%nat).
Proof.
  induction fuel as [|fuel IH]; intros suffix prefix cleaned Hnd Hlen;
    [lia|].
  cbn [clean_key_loop].
  rewrite lookup_app_r by lia. rewrite Nat.sub_diag.
  destruct suffix as [|[n v] rest]; cbn [lookup list_lookup].
  { cbn. by rewrite Nat.add_0_r. }
  cbn [kept_values]. destruct (doomed (n, v)) eqn:Hdoomed.
  - rewrite delete_value_middle by done.
    assert (Hnd' : NoDup (fst <$> (prefix ++ rest))).
    { rewrite fmap_app in *. cbn in Hnd.
      apply NoDup_app in Hnd as (Hp & Hdis & Hr).
      apply NoDup_cons in Hr as [_ Hr]. apply NoDup_app.
      split; [done|]. split; [|done].
      intros x Hx Hxr. apply (Hdis x Hx). by right. }
    destruct rest as [|y rest'].
    + rewrite app_nil_r in *. destruct fuel as [|fuel']; [cbn in Hlen; lia|].
      cbn [clean_key_loop]. rewrite lookup_ge_None_2 by lia.
      cbn. do 2 f_equal. lia.
    + replace (prefix ++ y :: rest')%list with ((prefix ++ [y]) ++ rest')%list
        in * by (by rewrite <- app_assoc).
      replace (S (length prefix)) with (length (prefix ++ [y]))
        by (rewrite length_app; cbn; lia).
      rewrite IH; [|done|cbn in Hlen; lia].
      rewrite <- app_assoc. cbn [app].
      pose proof (kept_values_length doomed rest').
      do 2 f_equal; cbn; lia.
  - replace (prefix ++ (n, v) :: rest)%list
      with ((prefix ++ [(n, v)]) ++ rest)%list in *
      by (by rewrite <- app_assoc).
    replace (S (length prefix)) with (length (prefix ++ [(n, v)]))
      by (rewrite length_app; cbn; lia).
    rewrite IH; [|done|cbn in Hlen; lia].
    rewrite <- app_assoc. cbn [app].
    pose proof (kept_values_length doomed rest).
    do 2 f_equal; cbn; lia.
Qed.

Lemma kept_values_sublist (doomed : string * string → bool)
    (values : list (string * string)) :
  sublist (kept_values doomed values) values
  ∧ (∀ x, x ∈ values → doomed x = false → x ∈ kept_values doomed values).
Proof.
  assert (H : ∀ n values, length values ≤ n →
            sublist (kept_values doomed values) values
            ∧ (∀ x, x ∈ values → doomed x = false →
                    x ∈ kept_values doomed values)).
  { clear values. induction n as [|n IH]; intros values Hlen.
    - destruct values; [|cbn in Hlen; lia]. split; [done|].
      intros x Hx. by apply elem_of_nil in Hx.
    - destruct values as [|x [|y rest]]; cbn.
      + split; [done|]. intros x Hx. by apply elem_of_nil in Hx.
      + destruct (doomed x) eqn:Hx; cbn.
        * split; [by apply sublist_cons|].
          intros z [->|Hz]%elem_of_cons Hdz; [congruence|].
          by apply elem_of_nil in Hz.
        * split; [done|]. by intros z Hz _.
      + cbn in Hlen. destruct (doomed x) eqn:Hx.
        * destruct (IH rest) as [Hsub Hin]; [lia|]. split.
          -- apply sublist_cons. by apply sublist_skip.
          -- intros z [->|[->|Hz]%elem_of_cons]%elem_of_cons Hdz;
               [congruence|left|right; by apply Hin].
        * destruct (IH (y :: rest)) as [Hsub Hin]; [cbn; lia|]. split.
          -- by apply sublist_skip.
          -- intros z [->|Hz]%elem_of_cons Hdz; [left|right; by apply Hin]. }
  by apply (H (length values)).
Qed.

Lemma clean_key_loop_from_start (doomed : string * string → bool)
    (fuel : nat) (values : list (string * string)) (cleaned : nat) :
  NoDup (fst <$> values) →
  length values < fuel →
  clean_key_loop doomed fuel values 0 cleaned
  = Some (kept_values doomed values,
          cleaned + (length values - length (kept_values doomed values))).
Proof.
  intros Hnd Hlen.
  exact (clean_key_loop_kept doomed fuel values [] cleaned Hnd Hlen).
Qed.

(** Both keys, for any rule that picks the values to delete. *)
Lemma clean_run_keys_kept (doomed : string * string → bool) (fuel : nat)
    (keys : run_keys) :
  NoDup (fst <$> key_values (hkcu_run keys)) →
  NoDup (fst <$> key_values (hklm_run keys)) →
  length (key_values (hkcu_run keys)) < fuel →
  length (key_values (hklm_run keys)) < fuel →
  clean_run_keys doomed fuel keys
  = Some (RunKeys (kept_values doomed <$> hkcu_run keys)
                  (kept_values doomed <$> hklm_run keys),
          (length (key_values (hkcu_run keys))
           - length (kept_values doomed (key_values (hkcu_run keys))))
          + (length (key_values (hklm_run keys))
             - length (kept_values doomed (key_values (hklm_run keys))))).
Proof.
  intros Hn1 Hn2 Hl1 Hl2. unfold clean_run_keys, clean_key.
  destruct keys as [[v1|] [v2|]]; cbn in *.
  - rewrite (clean_key_loop_from_start doomed fuel v1 0) by done.
    rewrite (clean_key_loop_from_start doomed fuel v2 _) by done. reflexivity.
  - rewrite (clean_key_loop_from_start doomed fuel v1 0) by done.
    cbn. do 2 f_equal. lia.
  - rewrite (clean_key_loop_from_start doomed fuel v2 0) by done. reflexivity.
  - reflexivity.
Qed.

Lemma key_values_kept (doomed : string * string → bool)
    (key : option (list (string * string))) :
  key_values (kept_values doomed <$> key)
  = kept_values doomed (key_values key).
Proof. by destruct key. Qed.

(** X26. [optimize_registry_startup] on keys with distinct value names
    ends (any fuel above the number of values is enough).  The values left
    in each key are some of the old ones in their old order, every value
    whose name is not safe to remove is among them, a key that could not
    be opened is still closed, and the count returned is the number of
    values that are gone. *)
Theorem registry_startup_cleaning (fuel : nat) (keys : run_keys) :
  NoDup (fst <$> key_values (hkcu_run keys)) →
  NoDup (fst <$> key_values (hklm_run keys)) →
  length (key_values (hkcu_run keys)) < fuel →
  length (key_values (hklm_run keys)) < fuel →
  ∃ keys' n,
    optimize_registry_startup fuel keys = Some (keys', n)
    ∧ sublist (key_values (hkcu_run keys')) (key_values (hkcu_run keys))
    ∧ sublist (key_values (hklm_run keys')) (key_values (hklm_run keys))
    ∧ (∀ nv, is_safe_to_remove_startup (fst nv) = false →
             (nv ∈ key_values (hkcu_run keys) →
              nv ∈ key_values (hkcu_run keys'))
             ∧ (nv ∈ key_values (hklm_run keys) →
                nv ∈ key_values (hklm_run keys')))
    ∧ (hkcu_run keys' = None ↔ hkcu_run keys = None)
    ∧ (hklm_run keys' = None ↔ hklm_run keys = None)
    ∧ n = (length (key_values (hkcu_run keys))
           - length (key_values (hkcu_run keys')))
          + (length (key_values (hklm_run keys))
             - length (key_values (hklm_run keys'))).
Proof.
  intros Hn1 Hn2 Hl1 Hl2.
  change (optimize_registry_startup fuel keys)
    with (clean_run_keys (λ nv, is_safe_to_remove_startup (fst nv)) fuel keys).
  rewrite clean_run_keys_kept by done.
  eexists _, _. split; [reflexivity|]. cbn [hkcu_run hklm_run].
  rewrite !key_values_kept.
  split; [apply kept_values_sublist|]. split; [apply kept_values_sublist|].
  split.
  { intros nv Hsafe. split; intros Hin;
      by apply (kept_values_sublist
                  (λ nv, is_safe_to_remove_startup (fst nv))). }
  split; [by destruct (hkcu_run keys)|].
  split; [by destruct (hklm_run keys)|done].
Qed.

(** [registry_startup_cleaning] on a user key with three values and a
    machine key that cannot be opened. *)
Lemma registry_startup_cleaning_witness :
  ∃ keys' n,
    optimize_registry_startup 4
      (RunKeys (Some [("OneDrive", "C:\od.exe"); ("AdobeUpdater", "C:\au.exe");
                      ("Steam", "C:\steam.exe")]) None)
    = Some (keys', n)
    ∧ hkcu_run keys' = Some [("OneDrive", "C:\od.exe");
                             ("Steam", "C:\steam.exe")]
    ∧ n = 1.
Proof.
  destruct (registry_startup_cleaning 4
              (RunKeys (Some [("OneDrive", "C:\od.exe");
                              ("AdobeUpdater", "C:\au.exe");
                              ("Steam", "C:\steam.exe")]) None))
    as (keys' & n & Hrun & _).
  - apply (bool_decide_unpack _). vm_compute. exact I.
  - cbn. apply NoDup_nil_2.
  - cbn. lia.
  - cbn. lia.
  - exists keys', n. split; [exact Hrun|].
    vm_compute in Hrun. injection Hrun as <- <-. by split.
Defined.

(** X27. One pass need not remove every safe value: after a value is
    deleted the index still moves on, so the value that followed it is
    never looked at and stays in the key, safe to remove or not. *)
Theorem registry_cleaning_skips (fuel : nat) (keys : run_keys)
    (x y : string * string) (rest : list (string * string)) :
  hkcu_run keys = Some (x :: y :: rest) →
  is_safe_to_remove_startup (fst x) = true →
  NoDup (fst <$> key_values (hkcu_run keys)) →
  NoDup (fst <$> key_values (hklm_run keys)) →
  length (key_values (hkcu_run keys)) < fuel →
  length (key_values (hklm_run keys)) < fuel →
  ∃ keys' n values',
    optimize_registry_startup fuel keys = Some (keys', n)
    ∧ hkcu_run keys' = Some (y :: values')
    ∧ x ∉ y :: values'.
Proof.
  intros Hk Hx Hn1 Hn2 Hl1 Hl2.
  change (optimize_registry_startup fuel keys)
    with (clean_run_keys (λ nv, is_safe_to_remove_startup (fst nv)) fuel keys).
  rewrite clean_run_keys_kept by done.
  eexists _, _, _. split; [reflexivity|]. cbn [hkcu_run].
  rewrite Hk. cbn [fmap option_fmap option_map kept_values]. cbv beta.
  rewrite Hx. split; [reflexivity|].
  rewrite Hk in Hn1. cbn in Hn1.
  apply NoDup_cons in Hn1 as [Hnotin _].
  intros Hin. apply Hnotin.
  assert (Hsub : x ∈ y :: rest).
  { apply elem_of_cons in Hin as [->|Hin]; [left|right].
    eapply sublist_subseteq; [|exact Hin].
    apply kept_values_sublist. }
  change (fst x ∈ fst <$> (y :: rest)).
  apply list_elem_of_fmap. by exists x.
Qed.

(** [registry_cleaning_skips] with two updaters in a row. *)
Lemma registry_cleaning_skips_witness :
  ∃ keys' n values',
    optimize_registry_startup 3
      (RunKeys (Some [("AdobeUpdater", "C:\au.exe");
                      ("JavaUpdater", "C:\ju.exe")]) None)
    = Some (keys', n)
    ∧ hkcu_run keys' = Some (("JavaUpdater", "C:\ju.exe") :: values')
    ∧ ("AdobeUpdater", "C:\au.exe")
      ∉ ("JavaUpdater", "C:\ju.exe") :: values'.
Proof.
  apply (registry_cleaning_skips 3
           (RunKeys (Some [("AdobeUpdater", "C:\au.exe");
                           ("JavaUpdater", "C:\ju.exe")]) None)
           ("AdobeUpdater", "C:\au.exe") ("JavaUpdater", "C:\ju.exe") []).
  - reflexivity.
  - reflexivity.
  - apply (bool_decide_unpack _). vm_compute. exact I.
  - cbn. apply NoDup_nil_2.
  - cbn. lia.
  - cbn. lia.
Defined.

(** X28. [clean_invalid_startup_entries] on keys with distinct value
    names ends; a value whose data is the path of an existing file is
    never deleted, the values left keep their order, and the count
    returned is the number of values that are gone. *)
Theorem invalid_startup_cleaning (fuel : nat) (w : world) (keys : run_keys) :
  NoDup (fst <$> key_values (hkcu_run keys)) →
  NoDup (fst <$> key_values (hklm_run keys)) →
  length (key_values (hkcu_run keys)) < fuel →
  length (key_values (hklm_run keys)) < fuel →
  ∃ keys' n,
    clean_invalid_startup_entries fuel w keys = Some (keys', n)
    ∧ sublist (key_values (hkcu_run keys')) (key_values (hkcu_run keys))
    ∧ sublist (key_values (hklm_run keys')) (key_values (hklm_run keys))
    ∧ (∀ nv, is_Some (fs w !! snd nv) →
             (nv ∈ key_values (hkcu_run keys) →
              nv ∈ key_values (hkcu_run keys'))
             ∧ (nv ∈ key_values (hklm_run keys) →
                nv ∈ key_values (hklm_run keys')))
    ∧ n = (length (key_values (hkcu_run keys))
           - length (key_values (hkcu_run keys')))
          + (length (key_values (hklm_run keys))
             - length (key_values (hklm_run keys'))).
Proof.
  intros Hn1 Hn2 Hl1 Hl2. unfold clean_invalid_startup_entries.
  rewrite clean_run_keys_kept by done.
  eexists _, _. split; [reflexivity|]. cbn [hkcu_run hklm_run].
  rewrite !key_values_kept.
  split; [apply kept_values_sublist|]. split; [apply kept_values_sublist|].
  split; [|done].
  intros nv Hex. split; intros Hin;
    (apply (kept_values_sublist
              (λ nv, negb (bool_decide (is_Some (fs w !! snd nv)))));
     [done|by rewrite bool_decide_eq_true_2]).
Qed.

(** [invalid_startup_cleaning] with one value that points nowhere. *)
Lemma invalid_startup_cleaning_witness :
  ∃ keys' n,
    clean_invalid_startup_entries 3
      (sample_world {["C:\steam.exe" := Garbage]})
      (RunKeys (Some [("Steam", "C:\steam.exe"); ("Gone", "C:\gone.exe")])
               None)
    = Some (keys', n)
    ∧ hkcu_run keys' = Some [("Steam", "C:\steam.exe")]
    ∧ n = 1.
Proof.
  destruct (invalid_startup_cleaning 3
              (sample_world {["C:\steam.exe" := Garbage]})
              (RunKeys (Some [("Steam", "C:\steam.exe");
                              ("Gone", "C:\gone.exe")]) None))
    as (keys' & n & Hrun & _).
  - apply (bool_decide_unpack _). vm_compute. exact I.
  - cbn. apply NoDup_nil_2.
  - cbn. lia.
  - cbn. lia.
  - exists keys', n. split; [exact Hrun|].
    vm_compute in Hrun. injection Hrun as <- <-. by split.
Defined.

(** ** Instances of the frame properties *)

(** [save_tweaks_frame] where the write fails after [open]. *)
Lemma save_tweaks_frame_witness :
  ∃ b w', save_tweaks (Machine (ledger_with ["A"]) torn_world)
          = (Return b, Machine (ledger_with ["A"]) w')
          ∧ b = negb (denied torn_world tweaks_file)
          ∧ (∀ path, path ≠ tweaks_file →
                     fs w' !! path = fs torn_world !! path)
          ∧ (b = true →
             fs w' !! tweaks_file
             = Some (Json (save_data (ledger_with ["A"])
                             (strftime torn_world time_format
                                (ticks torn_world)) torn_world)))
          ∧ (b = false →
             fs w' !! tweaks_file
             = if torn torn_world tweaks_file then Some Garbage
               else fs torn_world !! tweaks_file).
Proof. apply (save_tweaks_frame (ledger_with ["A"]) torn_world). Defined.

(** [import_all_or_nothing] at a file that is not JSON. *)
Lemma import_all_or_nothing_witness :
  ∃ b m', import_tweaks "backup.json"
            (Machine (ledger_with ["A"])
                     (sample_world {["backup.json" := Garbage]}))
          = (Return b, m')
          ∧ (b = false →
             self m' = ledger_with ["A"]
             ∧ fs (os m') = fs (sample_world {["backup.json" := Garbage]}))
          ∧ (∀ p, p ≠ tweaks_file →
                  fs (os m') !! p
                  = fs (sample_world {["backup.json" := Garbage]}) !! p).
Proof.
  apply (import_all_or_nothing (ledger_with ["A"])
           (sample_world {["backup.json" := Garbage]}) "backup.json").
Defined.

(** [export_tweaks_frame] at a path that can be written. *)
Lemma export_tweaks_frame_witness :
  ∃ b w', export_tweaks (Some "backup.json")
            (Machine (ledger_with ["A"]) (sample_world ∅))
          = (Return b, Machine (ledger_with ["A"]) w')
          ∧ b = negb (denied (sample_world ∅)
                        (export_target (Some "backup.json") (sample_world ∅)))
          ∧ (∀ p, p ≠ export_target (Some "backup.json") (sample_world ∅) →
                  fs w' !! p = fs (sample_world ∅) !! p)
          ∧ (b = false →
             fs w' !! export_target (Some "backup.json") (sample_world ∅)
             = if torn (sample_world ∅)
                    (export_target (Some "backup.json") (sample_world ∅))
               then Some Garbage
               else fs (sample_world ∅)
                    !! export_target (Some "backup.json") (sample_world ∅))
          ∧ (b = true →
             ∃ ts, fs w' !! export_target (Some "backup.json") (sample_world ∅)
                   = Some (Json (export_data (ledger_with ["A"]) ts
                                             (sample_world ∅)))).
Proof.
  apply (export_tweaks_frame (ledger_with ["A"]) (sample_world ∅)
           (Some "backup.json")).
Defined.

(** [clear_frame] with a persistence file that cannot be removed. *)
Lemma clear_frame_witness :
  (∃ b l' w', clear_saved_tweaks_old (Machine (ledger_with ["A"]) locked_world)
              = (Return b, Machine l' w')
              ∧ last_resolution l' = last_resolution (ledger_with ["A"])
              ∧ last_refresh_rate l' = last_refresh_rate (ledger_with ["A"])
              ∧ (∀ p, p ≠ tweaks_file → fs w' !! p = fs locked_world !! p))
  ∧ (∃ b l' w', clear_saved_tweaks true
                  (Machine (ledger_with ["A"]) locked_world)
                = (Return b, Machine l' w')
                ∧ last_resolution l' = last_resolution (ledger_with ["A"])
                ∧ last_refresh_rate l' = last_refresh_rate (ledger_with ["A"])
                ∧ (∀ p, p ≠ tweaks_file → fs w' !! p = fs locked_world !! p)).
Proof. apply (clear_frame (ledger_with ["A"]) locked_world true). Defined.

(** [import_dialog_outcome] at the file [import_file_A]. *)
Lemma import_dialog_outcome_witness :
  ∃ box m',
    import_tweaks_dialog "backup.json"
      (Machine (ledger_with ["B"])
               (sample_world {["backup.json" := Json import_file_A]}))
    = (Return box, m')
    ∧ (box = NoBox ↔ "backup.json" = "")
    ∧ (box ≠ InfoBox →
       self m' = ledger_with ["B"]
       ∧ fs (os m')
         = fs (sample_world {["backup.json" := Json import_file_A]}))
    ∧ (box = InfoBox →
       ∃ d, fs (sample_world {["backup.json" := Json import_file_A]})
              !! "backup.json" = Some (Json (PDict d))
            ∧ py_set (doc_field d "applied_tweaks" (PList []))
              = Return (applied_tweaks (self m'))).
Proof.
  apply (import_dialog_outcome (ledger_with ["B"])
           (sample_world {["backup.json" := Json import_file_A]})
           "backup.json").
Defined.

(** [export_dialog_outcome] at a chosen path that can be written. *)
Lemma export_dialog_outcome_witness :
  ∃ box w',
    export_tweaks_dialog "backup.json"
      (Machine (ledger_with ["A"]) (sample_world ∅))
    = (Return box, Machine (ledger_with ["A"]) w')
    ∧ (box = NoBox ↔ "backup.json" = "")
    ∧ (box = NoBox → fs w' = fs (sample_world ∅))
    ∧ (∀ p, p ≠ "backup.json" → fs w' !! p = fs (sample_world ∅) !! p)
    ∧ (box = InfoBox
       ↔ "backup.json" ≠ "" ∧ denied (sample_world ∅) "backup.json" = false)
    ∧ (box = InfoBox →
       ∃ ts, fs w' !! "backup.json"
             = Some (Json (export_data (ledger_with ["A"]) ts
                                       (sample_world ∅))))
    ∧ (box = ErrorBox →
       fs w' !! "backup.json"
       = if torn (sample_world ∅) "backup.json" then Some Garbage
         else fs (sample_world ∅) !! "backup.json").
Proof.
  apply (export_dialog_outcome (ledger_with ["A"]) (sample_world ∅)
           "backup.json").
Defined.
